(** * Grid trading engine: ledger, grid generator, matching loop, metrics

    A shallow embedding of [grid_trading_system.py] (class
    [GridTradingSystem]) and [backtester.py] (class [Backtester]).

    Numbers.  The Python code computes on IEEE doubles.  The embedding
    idealises them as exact rationals [Q]: [+], [-], [*] are exact and
    comparisons are the ones of [Q].  Equalities between amounts are
    therefore stated with [==] ([Qeq]).  Division is only used by the
    source with a non-zero divisor on the paths studied here (grid levels
    are positive prices); [Qdiv] by zero is [0], which the statements avoid
    by assuming a positive level where a quotient matters.

    Strings ([mode], [grid_type], [side], [status]) stay strings, compared
    with [String.eqb] as the source compares them with [==]. *)

From Stdlib Require Import QArith Qabs ZArith List String Bool Lia Psatz Reals.
Import ListNotations.
Open Scope Q_scope.

(** ** Comparisons on rationals, as boolean tests *)

Module Num.

(** [x >= y] *)
Definition geb (x y : Q) : bool := Qle_bool y x.
(** [x <= y] *)
Definition leb (x y : Q) : bool := Qle_bool x y.
(** [x < y] *)
Definition ltb (x y : Q) : bool := negb (Qle_bool y x).
(** [x > y] *)
Definition gtb (x y : Q) : bool := negb (Qle_bool x y).

(** [min(x, y)] of Python: [y] when [y < x], else [x]. *)
Definition min (x y : Q) : Q := if ltb y x then y else x.

End Num.

(** ** Data model *)

(** The [portfolio] dict: keys ['cash'], ['positions'], ['total_value']. *)
Record Portfolio : Type := mkPortfolio {
  cash : Q;
  positions : Q;
  total_value : Q
}.

(** The order dict built by [place_order]; ['exchange_id'] is only set on
    the live path. *)
Record Order : Type := mkOrder {
  id : nat;
  o_timestamp : Z;
  price : Q;
  amount : Q;
  side : string;
  type : string;
  status : string;
  exchange_id : option string
}.

(** The trade dict built by [execute_trade].  It has no ['profit'] key;
    [profit] is [None] for it.  The metric functions read the key with
    [t.get('profit', 0)], so the field is kept for trade lists that carry
    it (for instance after [load_results]). *)
Record Trade : Type := mkTrade {
  order_id : nat;
  t_timestamp : Z;
  t_price : Q;
  t_amount : Q;
  t_side : string;
  fee : Q;
  profit : option Q
}.

(** One row of the OHLCV data frame. *)
Record Bar : Type := mkBar {
  timestamp : Z;
  open : Q;
  high : Q;
  low : Q;
  close : Q;
  volume : Q
}.

(** Exceptions the modelled code can raise. *)
Inductive exn : Type :=
| ValueError (msg : string)
| IndexError (msg : string).

Inductive result (A : Type) : Type :=
| Ok (a : A)
| Raise (e : exn).
Arguments Ok {A} a.
Arguments Raise {A} e.

(** The exchange handle of the live path: [create_order] for a limit order
    with the given side, amount and price answers an exchange id, or raises
    ([None]); the source catches every exception of that call. *)
Definition Exchange : Type := string -> Q -> Q -> option string.

(** The attributes of a [GridTradingSystem] object that the engine reads and
    writes.  [clock_reads] counts the calls of [datetime.now()] made so far:
    the wall clock is an input of the run (the section variable [now]
    below), and the k-th call reads [now k]. *)
Record System : Type := mkSystem {
  mode : string;
  grid_levels : list Q;
  orders : list Order;
  trades : list Trade;
  portfolio : Portfolio;
  exchange : option Exchange;
  sim_data : list Bar;
  current_sim_price : Q;
  sim_time : nat;
  clock_reads : nat
}.

Definition set_grid_levels (st : System) (g : list Q) : System :=
  mkSystem (mode st) g (orders st) (trades st) (portfolio st) (exchange st)
           (sim_data st) (current_sim_price st) (sim_time st) (clock_reads st).

Definition set_orders (st : System) (os : list Order) : System :=
  mkSystem (mode st) (grid_levels st) os (trades st) (portfolio st) (exchange st)
           (sim_data st) (current_sim_price st) (sim_time st) (clock_reads st).

Definition set_trades (st : System) (ts : list Trade) : System :=
  mkSystem (mode st) (grid_levels st) (orders st) ts (portfolio st) (exchange st)
           (sim_data st) (current_sim_price st) (sim_time st) (clock_reads st).

Definition set_portfolio (st : System) (p : Portfolio) : System :=
  mkSystem (mode st) (grid_levels st) (orders st) (trades st) p (exchange st)
           (sim_data st) (current_sim_price st) (sim_time st) (clock_reads st).

Definition set_sim_cursor (st : System) (p : Q) (i : nat) : System :=
  mkSystem (mode st) (grid_levels st) (orders st) (trades st) (portfolio st)
           (exchange st) (sim_data st) p i (clock_reads st).

Definition tick (st : System) : System :=
  mkSystem (mode st) (grid_levels st) (orders st) (trades st) (portfolio st)
           (exchange st) (sim_data st) (current_sim_price st) (sim_time st)
           (S (clock_reads st)).

(** [GridTradingSystem.__init__] up to the mode-specific setup: empty logs
    and the portfolio [{cash: 10000, positions: 0, total_value: 10000}]. *)
Definition initial_portfolio : Portfolio := mkPortfolio 10000 0 10000.

Definition init_system (m : string) (data : list Bar) : System :=
  mkSystem m [] [] [] initial_portfolio None data
           (match data with b :: _ => close b | [] => 0 end) 0 0.

(** The fee rate written into [execute_trade]: [0.001]. *)
Definition sim_fee_rate : Q := 1 # 1000.

(** The touch tolerance written into both matching loops: [0.001]. *)
Definition tolerance : Q := 1 # 1000.

(** The test both matching loops apply to the bar's close and a grid level:
    [abs(current_price - grid_price) / grid_price < 0.001]. *)
Definition touched (current_price grid_price : Q) : bool :=
  Num.ltb (Qabs (current_price - grid_price) / grid_price) tolerance.

(** An entry of an equity curve: the dict with keys ['timestamp'],
    ['value'], ['price']. *)
Record EquitySample : Type := mkEquitySample {
  e_timestamp : Z;
  e_value : Q;
  e_price : Q
}.

(** A [profit_factor]: a number or [float('inf')]. *)
Inductive ext : Type :=
| Fin (q : Q)
| Inf.

(** Python's [sum] of a list of numbers. *)
Definition Qsum (l : list Q) : Q := fold_left Qplus l 0.

(** ** numpy's grid helpers *)

Module Np.

(** [np.arange(0, n)], before its conversion to the array's float type. *)
Definition arange (n : nat) : list Z := map Z.of_nat (seq 0 n).

(** [y[-1] = v] on a non-empty array (on an empty one there is no last
    element; the callers only do it when [num > 1]). *)
Fixpoint set_last {A : Type} (y : list A) (v : A) : list A :=
  match y with
  | [] => []
  | [_] => [v]
  | x :: rest => x :: set_last rest v
  end.

(** [y[0] = v] on a non-empty array. *)
Definition set_first {A : Type} (y : list A) (v : A) : list A :=
  match y with
  | [] => []
  | _ :: rest => v :: rest
  end.

(** [np.linspace(start, stop, num)] with [endpoint=True], following numpy's
    function body: [step = delta / div], [y = arange(0, num) * step + start],
    and the last sample overwritten by [stop] when [num > 1].  A negative
    [num] raises [ValueError]. *)
Definition linspace (start stop : Q) (num : Z) : result (list Q) :=
  if (num <? 0)%Z then Raise (ValueError "Number of samples must be non-negative")
  else
    let div := (num - 1)%Z in
    let delta := stop - start in
    let y := map inject_Z (arange (Z.to_nat num)) in
    let y :=
      if (0 <? div)%Z then
        let step := delta / inject_Z div in
        if Qeq_bool step 0
        then map (fun v => v / inject_Z div * delta) y
        else map (fun v => v * step) y
      else map (fun v => v * delta) y in
    let y := map (fun v => v + start) y in
    Ok (if (1 <? num)%Z then set_last y stop else y).

End Np.

(** ** [GridTradingSystem] *)

Module GridTradingSystem.

Record Params : Type := mkParams {
  grid_range_pct : Q;
  num_grids : Z;
  grid_type : string;
  order_size : Q
}.

(** [generate_fibonacci_ratios(n)]: [fib = [0, 1]], then for each [i] of
    [range(2, n)] append [fib[-1] + fib[-2]]. *)
Fixpoint fib_extend (k : nat) (fib : list Z) : list Z :=
  match k with
  | O => fib
  | S k' => fib_extend k' (fib ++ [last fib 0 + last (removelast fib) 0])%Z
  end.

(** Python's [max] on a non-empty list of integers. *)
Definition list_max (l : list Z) : Z :=
  match l with
  | [] => 0%Z
  | x :: rest => fold_left Z.max rest x
  end.

Definition generate_fibonacci_ratios (n : Z) : list Q :=
  let fib := fib_extend (Z.to_nat (n - 2)) [0; 1]%Z in
  let max_fib := list_max fib in
  map (fun f => inject_Z f / inject_Z max_fib) fib.

(** [update_portfolio_value(current_price)] *)
Definition update_portfolio_value (st : System) (current_price : Q) : System :=
  let p := portfolio st in
  set_portfolio st
    (mkPortfolio (cash p) (positions p) (cash p + positions p * current_price)).

(** [calculate_win_rate()] *)
Definition profit_or_zero (t : Trade) : Q :=
  match profit t with Some p => p | None => 0 end.

Definition calculate_win_rate (st : System) : Q :=
  match trades st with
  | [] => 0
  | _ =>
    let profitable_trades :=
      List.length (filter (fun t => Num.gtb (profit_or_zero t) 0) (trades st)) in
    (inject_Z (Z.of_nat profitable_trades)
       / inject_Z (Z.of_nat (List.length (trades st)))) * 100
  end.

(** [calculate_profit_factor()] *)
Definition calculate_profit_factor (st : System) : ext :=
  match trades st with
  | [] => Fin 0
  | _ =>
    let ps := map profit_or_zero (trades st) in
    let gross_profit := Qsum (filter (fun p => Num.gtb p 0) ps) in
    let gross_loss := Qabs (Qsum (filter (fun p => Num.ltb p 0) ps)) in
    if Qeq_bool gross_loss 0 then Inf else Fin (gross_profit / gross_loss)
  end.

(** The entries of the metrics dict of [calculate_performance_metrics] that
    are functions of the trade log ([total_return], [sharpe_ratio],
    [max_drawdown] and [avg_trade], which go through pandas and numpy
    statistics, are left out).  An empty equity curve gives the empty
    dict, [None]. *)
Record TradeMetrics : Type := mkTradeMetrics {
  win_rate : Q;
  profit_factor : ext;
  total_trades : nat
}.

Definition calculate_performance_metrics (st : System)
    (equity_curve : list EquitySample) : option TradeMetrics :=
  match equity_curve with
  | [] => None
  | _ => Some (mkTradeMetrics (calculate_win_rate st)
                              (calculate_profit_factor st)
                              (List.length (trades st)))
  end.

Section Engine.

(** The wall clock: [now k] is what the k-th call of [datetime.now()]
    returns, in microseconds. *)
Variable now : nat -> Z.

(** [np.geomspace(start, stop, num)]: its samples are powers with
    fractional exponents, not rationals in general, so the engine takes the
    function as a parameter.  Its real-valued model is [GeomSpace.geomspace]
    below. *)
Variable np_geomspace : Q -> Q -> Z -> result (list Q).

(** [calculate_grid(current_price, lower_bound, upper_bound, num_grids,
    grid_type)]: an [if]/[elif]/[elif] over the three modes with no [else];
    the method stores the grid in [self.grid_levels] and returns that
    attribute. *)
Definition calculate_grid (st : System) (current_price lower_bound upper_bound : Q)
    (num_grids : Z) (grid_type : string) : result (list Q * System) :=
  if String.eqb grid_type "linear" then
    match Np.linspace lower_bound upper_bound num_grids with
    | Ok g => Ok (g, set_grid_levels st g)
    | Raise e => Raise e
    end
  else if String.eqb grid_type "geometric" then
    match np_geomspace lower_bound upper_bound num_grids with
    | Ok g => Ok (g, set_grid_levels st g)
    | Raise e => Raise e
    end
  else if String.eqb grid_type "fibonacci" then
    let fib_ratios := generate_fibonacci_ratios num_grids in
    let price_range := upper_bound - lower_bound in
    let g := map (fun ratio => lower_bound + ratio * price_range) fib_ratios in
    Ok (g, set_grid_levels st g)
  else Ok (grid_levels st, st).

(** [execute_trade(order)]: builds the trade record, applies the fill to
    the portfolio when the solvency test passes, then, in every case,
    appends the trade and revalues the portfolio at the order price. *)
Definition execute_trade (st : System) (order : Order) : Trade * System :=
  let trade :=
    mkTrade (id order) (now (clock_reads st)) (price order) (amount order)
            (side order) (price order * amount order * sim_fee_rate) None in
  let st := tick st in
  let p := portfolio st in
  let p :=
    if String.eqb (side order) "buy" then
      let cost := price order * amount order + fee trade in
      if Num.geb (cash p) cost
      then mkPortfolio (cash p - cost) (positions p + amount order) (total_value p)
      else p
    else
      if Num.geb (positions p) (amount order)
      then
        let revenue := price order * amount order - fee trade in
        mkPortfolio (cash p + revenue) (positions p - amount order) (total_value p)
      else p in
  let st := set_portfolio st p in
  let st := set_trades st (trades st ++ [trade]) in
  let st := update_portfolio_value st (price order) in
  (trade, st).

(** [place_order(price, amount, side, order_type)] *)
Definition place_order (st : System) (price amount : Q) (side order_type : string)
    : Order * System :=
  let order :=
    mkOrder (S (List.length (orders st))) (now (clock_reads st)) price amount side
            order_type "open" None in
  let st := tick st in
  let '(order, st) :=
    if String.eqb (mode st) "simulation" then
      let order :=
        mkOrder (id order) (o_timestamp order) price amount side order_type
                "filled" None in
      (order, snd (execute_trade st order))
    else if String.eqb (mode st) "live" then
      match exchange st with
      | Some ex =>
        if String.eqb order_type "limit" then
          match ex side amount price with
          | Some eid =>
            (mkOrder (id order) (o_timestamp order) price amount side order_type
                     "open" (Some eid), st)
          | None =>
            (mkOrder (id order) (o_timestamp order) price amount side order_type
                     "rejected" None, st)
          end
        else (order, st)
      | None => (order, st)
      end
    else (order, st) in
  (order, set_orders st (orders st ++ [order])).

(** The body of the inner loop of [run_simulation], for one [grid_price]. *)
Definition sim_level (order_size : Q) (st : System) (grid_price : Q) : System :=
  let price_diff := Qabs (current_sim_price st - grid_price) / grid_price in
  if Num.ltb price_diff tolerance then
    let amount := order_size / grid_price in
    if Num.leb (current_sim_price st) grid_price then
      snd (place_order st grid_price amount "buy" "limit")
    else if Num.gtb (positions (portfolio st)) 0 then
      snd (place_order st grid_price amount "sell" "limit")
    else st
  else st.

(** The body of the outer loop, for bar [i]: all grid levels in the order
    of [self.grid_levels], then one equity sample. *)
Definition sim_bar (order_size : Q) (acc : System * list EquitySample)
    (ib : nat * Bar) : System * list EquitySample :=
  let '(st, curve) := acc in
  let '(i, b) := ib in
  let st := set_sim_cursor st (close b) i in
  let st := fold_left (sim_level order_size) (grid_levels st) st in
  let st := update_portfolio_value st (current_sim_price st) in
  (st, curve ++ [mkEquitySample (timestamp b) (total_value (portfolio st))
                                (current_sim_price st)]).

Record Results : Type := mkResults {
  r_equity_curve : list EquitySample;
  r_trades : list Trade;
  r_metrics : option TradeMetrics
}.

(** [run_simulation(params, duration_hours)].  Reading [iloc[0]] of an empty
    data frame raises; that is the [Raise] of the first line. *)
Definition run_simulation (st : System) (params : Params) (duration_hours : Z)
    : result (Results * System) :=
  match sim_data st with
  | [] => Raise (IndexError "single positional indexer is out-of-bounds")
  | b0 :: _ =>
    let current_price := close b0 in
    let lower := current_price * (1 - grid_range_pct params) in
    let upper := current_price * (1 + grid_range_pct params) in
    match calculate_grid st current_price lower upper
                         (num_grids params) (grid_type params) with
    | Raise e => Raise e
    | Ok (_, st) =>
      let n := Nat.min (List.length (sim_data st))
                       (Z.to_nat (duration_hours * 60)) in
      let bars := combine (seq 0 n) (firstn n (sim_data st)) in
      let '(st, curve) := fold_left (sim_bar (order_size params)) bars (st, []) in
      Ok (mkResults curve (trades st) (calculate_performance_metrics st curve), st)
    end
  end.

End Engine.

End GridTradingSystem.

(** ** [Backtester] *)

Module Backtester.

(** [strategy_params]: every key is optional and read with [.get(key,
    default)]. *)
Record Params : Type := mkParams {
  p_grid_range_pct : option Q;
  p_num_grids : option Z;
  p_order_size : option Q;
  p_fee_rate : option Q
}.

Definition get {A : Type} (o : option A) (default : A) : A :=
  match o with Some v => v | None => default end.

(** The trade dicts appended by [backtest_grid_strategy].  The loop always
    writes the ['profit'] key ([0] for a buy); [calculate_metrics] accepts
    any list of dicts, where the key may be missing ([None]). *)
Record Trade : Type := mkTrade {
  t_timestamp : Z;
  t_side : string;
  t_price : Q;
  t_amount : Q;
  t_fee : Q;
  t_profit : option Q
}.

Definition is_buy (t : Trade) : bool := String.eqb (t_side t) "buy".

(** [avg_buy_price]: the plain mean of the prices of the buy trades recorded
    so far, or [grid_price] when there is none. *)
Definition avg_buy_price (trades : list Trade) (grid_price : Q) : Q :=
  if existsb is_buy trades
  then Qsum (map t_price (filter is_buy trades))
       / inject_Z (Z.of_nat (List.length (filter is_buy trades)))
  else grid_price.

(** The body of the inner loop of [backtest_grid_strategy], for one
    [grid_price] of the bar stamped [ts] with close [current_price]. *)
Definition bt_level (fee_rate order_size_usdt : Q) (ts : Z) (current_price : Q)
    (acc : Portfolio * list Trade) (grid_price : Q) : Portfolio * list Trade :=
  let '(portfolio, trades) := acc in
  if Num.ltb (Qabs (current_price - grid_price) / grid_price) tolerance then
    if Num.leb current_price grid_price then
      let amount := order_size_usdt / grid_price in
      let cost := amount * grid_price * (1 + fee_rate) in
      if Num.geb (cash portfolio) cost then
        (mkPortfolio (cash portfolio - cost) (positions portfolio + amount)
                     (total_value portfolio),
         trades ++ [mkTrade ts "buy" grid_price amount
                            (amount * grid_price * fee_rate) (Some 0)])
      else (portfolio, trades)
    else
      if Num.gtb (positions portfolio) 0 then
        let sell_amount :=
          Num.min (positions portfolio) (order_size_usdt / grid_price) in
        let revenue := sell_amount * grid_price * (1 - fee_rate) in
        let portfolio' :=
          mkPortfolio (cash portfolio + revenue)
                      (positions portfolio - sell_amount)
                      (total_value portfolio) in
        let avg := avg_buy_price trades grid_price in
        let profit := (grid_price - avg) * sell_amount in
        (portfolio',
         trades ++ [mkTrade ts "sell" grid_price sell_amount
                            (sell_amount * grid_price * fee_rate) (Some profit)])
      else (portfolio, trades)
  else (portfolio, trades).

(** The trade metrics of [calculate_metrics(equity_curve_df, trades)]
    ([total_return_pct], [sharpe_ratio] and [max_drawdown_pct], which are
    functions of the equity curve alone, are left out).  Fewer than two
    equity samples give the empty dict, [None]. *)
Record TradeMetrics : Type := mkTradeMetrics {
  win_rate_pct : Q;
  profit_factor : ext;
  total_trades : nat
}.

(** [trades_df['profit'] > 0]: a missing value compares false. *)
Definition profit_pos (t : Trade) : bool :=
  match t_profit t with Some p => Num.gtb p 0 | None => false end.

Definition profit_neg (t : Trade) : bool :=
  match t_profit t with Some p => Num.ltb p 0 | None => false end.

Definition has_profit (t : Trade) : bool :=
  match t_profit t with Some _ => true | None => false end.

(** [Series.sum()] skips missing values. *)
Definition profit_sum (ts : list Trade) : Q :=
  Qsum (map (fun t => get (t_profit t) 0) ts).

(** [(trades_df['profit'] > 0).mean() * 100] *)
Definition win_rate_of (trades : list Trade) : Q :=
  (inject_Z (Z.of_nat (List.length (filter profit_pos trades)))
     / inject_Z (Z.of_nat (List.length trades))) * 100.

Definition calculate_metrics (equity_curve : list EquitySample)
    (trades : list Trade) : option TradeMetrics :=
  if (List.length equity_curve <? 2)%nat then None
  else
    let '(win_rate, profit_factor) :=
      match trades with
      | [] => (0, Fin 0)
      | _ =>
        if existsb has_profit trades then
          let neg := profit_sum (filter profit_neg trades) in
          (win_rate_of trades,
           if negb (Qeq_bool neg 0)
           then Fin (Qabs (profit_sum (filter profit_pos trades) / neg))
           else Inf)
        else (0, Fin 0)
      end in
    Some (mkTradeMetrics win_rate profit_factor (List.length trades)).

(** The body of the outer loop, for one bar. *)
Definition bt_bar (grid_range_pct : Q) (num_grids : Z) (order_size_usdt fee_rate : Q)
    (acc : result (Portfolio * list Trade * list EquitySample)) (b : Bar)
    : result (Portfolio * list Trade * list EquitySample) :=
  match acc with
  | Raise e => Raise e
  | Ok (portfolio, trades, equity_curve) =>
    let current_price := close b in
    let lower := current_price * (1 - grid_range_pct) in
    let upper := current_price * (1 + grid_range_pct) in
    match Np.linspace lower upper num_grids with
    | Raise e => Raise e
    | Ok grid_levels =>
      let '(portfolio, trades) :=
        fold_left (bt_level fee_rate order_size_usdt (timestamp b) current_price)
                  grid_levels (portfolio, trades) in
      let portfolio_value := cash portfolio + positions portfolio * current_price in
      Ok (portfolio, trades,
          equity_curve ++ [mkEquitySample (timestamp b) portfolio_value current_price])
    end
  end.

Record Results : Type := mkResults {
  r_equity_curve : list EquitySample;
  r_trades : list Trade;
  r_portfolio : Portfolio;
  r_metrics : option TradeMetrics
}.

(** [Backtester(initial_capital).backtest_grid_strategy(data,
    strategy_params)] *)
Definition backtest_grid_strategy (initial_capital : Q) (data : list Bar)
    (strategy_params : Params) : result Results :=
  let grid_range_pct := get (p_grid_range_pct strategy_params) (1 # 10) in
  let num_grids := get (p_num_grids strategy_params) 20%Z in
  let order_size_usdt := get (p_order_size strategy_params) 100 in
  let fee_rate := get (p_fee_rate strategy_params) (1 # 1000) in
  let portfolio := mkPortfolio initial_capital 0 initial_capital in
  match fold_left (bt_bar grid_range_pct num_grids order_size_usdt fee_rate)
                  data (Ok (portfolio, [], [])) with
  | Raise e => Raise e
  | Ok (portfolio, trades, equity_curve) =>
    Ok (mkResults equity_curve trades portfolio
                  (calculate_metrics equity_curve trades))
  end.

End Backtester.

(** ** The synthetic market data of [generate_market_data] *)

Module MarketData.

Section Generator.

(** numpy's global random generator: its state, [np.random.seed],
    [np.random.normal(loc, scale, size)] and [np.random.uniform(low, high,
    size)], each draw returning the samples and the next state; and the
    elementary functions [np.exp] and [np.sqrt].  They are library code and
    are taken as parameters; the samples stand for their idealised
    values. *)
Variable rng : Type.
Variable np_random_seed : Z -> rng.
Variable np_random_normal : rng -> Q -> Q -> nat -> list Q * rng.
Variable np_random_uniform : rng -> Q -> Q -> nat -> list Q * rng.
Variable np_exp : Q -> Q.
Variable np_sqrt : Q -> Q.

Definition minute : Z := 60000000.

(** [pd.date_range(end=e, periods=n, freq='1min')]: [n] stamps one minute
    apart, the last one being [e] (in microseconds). *)
Definition date_range (e : Z) (n : nat) : list Z :=
  map (fun i => (e - Z.of_nat (n - 1 - i) * minute)%Z) (seq 0 n).

(** [np.cumsum] *)
Fixpoint cumsum_from (acc : Q) (l : list Q) : list Q :=
  match l with
  | [] => []
  | x :: rest => (acc + x) :: cumsum_from (acc + x) rest
  end.

Definition cumsum (l : list Q) : list Q := cumsum_from 0 l.

Definition base_price : Q := 50000.

(** The mean-reversion loop, [for i in range(1, len(prices))]: the test
    reads [prices[i]], the assignment reads [prices[i-1]], which the
    previous iteration may have overwritten ([prev]). *)
Fixpoint mean_revert (prev : Q) (rest : list Q) : list Q :=
  match rest with
  | [] => []
  | p :: tl =>
    let p' :=
      if Num.gtb p (base_price * (11 # 10)) then prev * (999 # 1000)
      else if Num.ltb p (base_price * (9 # 10)) then prev * (1001 # 1000)
      else p in
    p' :: mean_revert p' tl
  end.

Definition mean_reversion (prices : list Q) : list Q :=
  match prices with
  | [] => []
  | p0 :: tl => p0 :: mean_revert p0 tl
  end.

(** Rows of the data frame built from the columns. *)
Fixpoint frame (dates : list Z) (prices volume : list Q) : list Bar :=
  match dates, prices, volume with
  | d :: ds, p :: ps, v :: vs =>
    mkBar d (p * (999 # 1000)) (p * (1001 # 1000)) (p * (998 # 1000)) p v
    :: frame ds ps vs
  | _, _, _ => []
  end.

(** [generate_market_data(days, volatility)], run with the global generator
    in state [g] and the wall clock reading [clock]; it returns the frame and
    the generator state it leaves.  A negative [days] makes [date_range]
    raise. *)
Definition generate_market_data (g : rng) (clock : Z) (days : Z) (volatility : Q)
    : result (list Bar * rng) :=
  let g := np_random_seed 42 in
  if (days <? 0)%Z then Raise (ValueError "Number of periods must be non-negative")
  else
    let n := Z.to_nat (days * 24 * 60) in
    let dates := date_range clock n in
    let '(normal, g) := np_random_normal g 0 volatility (List.length dates) in
    let returns := map (fun x => x / np_sqrt (24 * 60)) normal in
    let prices := map (fun c => base_price * np_exp c) (cumsum returns) in
    let prices := mean_reversion prices in
    let '(volume, g) := np_random_uniform g 100 1000 (List.length dates) in
    Ok (frame dates prices volume, g).

End Generator.

End MarketData.

(** ** [np.geomspace] over the reals *)

Module GeomSpace.

Local Open Scope R_scope.

(** [np.linspace] again, on real numbers. *)
Definition linspace (start stop : R) (num : Z) : result (list R) :=
  if (num <? 0)%Z then Raise (ValueError "Number of samples must be non-negative")
  else
    let div := (num - 1)%Z in
    let delta := stop - start in
    let y := map IZR (Np.arange (Z.to_nat num)) in
    let y :=
      if (0 <? div)%Z then
        let step := delta / IZR div in
        if Req_dec_T step 0
        then map (fun v => v / IZR div * delta) y
        else map (fun v => v * step) y
      else map (fun v => v * delta) y in
    let y := map (fun v => v + start) y in
    Ok (if (1 <? num)%Z then Np.set_last y stop else y).

(** [np.logspace(start, stop, num, base=10.0)]: [power(base, linspace(start,
    stop, num))]. *)
Definition logspace (start stop : R) (num : Z) : result (list R) :=
  match linspace start stop num with
  | Ok y => Ok (map (Rpower 10) y)
  | Raise e => Raise e
  end.

Definition log10 (x : R) : R := Rlog 10 x.

(** [np.geomspace(start, stop, num)] for positive [start] and [stop] (the
    sign factor [out_sign] of numpy's body is then [1]): a zero endpoint
    raises; otherwise [logspace(log10(start), log10(stop), num)] with the
    first sample overwritten by [start] and, when [num > 1], the last one by
    [stop]. *)
Definition geomspace (start stop : R) (num : Z) : result (list R) :=
  if Req_dec_T start 0 then Raise (ValueError "Geometric sequence cannot include zero")
  else if Req_dec_T stop 0 then Raise (ValueError "Geometric sequence cannot include zero")
  else
    match logspace (log10 start) (log10 stop) num with
    | Raise e => Raise e
    | Ok r =>
      let r := if (0 <? num)%Z then Np.set_first r start else r in
      Ok (if (1 <? num)%Z then Np.set_last r stop else r)
    end.

End GeomSpace.

(** ** Equity-curve metrics *)

Module EquityCurve.

(** [values.expanding(min_periods=1).max()]: the running maximum. *)
Fixpoint expanding_max_from (peak : Q) (values : list Q) : list Q :=
  match values with
  | [] => []
  | v :: rest =>
    let peak' := if Num.gtb v peak then v else peak in
    peak' :: expanding_max_from peak' rest
  end.

Definition expanding_max (values : list Q) : list Q :=
  match values with
  | [] => []
  | v :: rest => v :: expanding_max_from v rest
  end.

(** [(values - peak) / peak], element by element. *)
Fixpoint drawdown (values peak : list Q) : list Q :=
  match values, peak with
  | v :: vs, p :: ps => ((v - p) / p) :: drawdown vs ps
  | _, _ => []
  end.

(** [Series.min()]; on an empty series pandas answers NaN, here [None]. *)
Definition series_min (l : list Q) : option Q :=
  match l with
  | [] => None
  | x :: rest => Some (fold_left Num.min rest x)
  end.

(** [calculate_max_drawdown(values)] of [GridTradingSystem], and the
    max-drawdown lines of [Backtester.calculate_metrics]. *)
Definition calculate_max_drawdown (values : list Q) : option Q :=
  option_map (fun m => m * 100)
             (series_min (drawdown values (expanding_max values))).

End EquityCurve.

(** ** Parameter search of the [Backtester] *)

Module Optimizer.

(** The numbers a parameter grid holds: Python ints and floats. *)
Inductive pyval : Type :=
| PInt (z : Z)
| PFloat (q : Q).

(** A parameter dict, in insertion order; its keys are distinct. *)
Definition dict : Type := list (string * pyval).

Fixpoint lookup (key : string) (d : dict) : option pyval :=
  match d with
  | [] => None
  | (k, v) :: rest => if String.eqb k key then Some v else lookup key rest
  end.

(** [itertools.product] of the value lists: the rightmost list advances
    fastest. *)
Fixpoint product {A : Type} (values : list (list A)) : list (list A) :=
  match values with
  | [] => [[]]
  | l :: rest => flat_map (fun x => map (cons x) (product rest)) l
  end.

(** [param_generator(param_grid)]: for each combination of [product],
    [dict(zip(keys, combination))]. *)
Definition param_generator (param_grid : list (string * list pyval)) : list dict :=
  map (fun combination => combine (map fst param_grid) combination)
      (product (map snd param_grid)).

(** The value of a number in float arithmetic. *)
Definition as_number (v : pyval) : Q :=
  match v with
  | PInt z => inject_Z z
  | PFloat q => q
  end.

(** What a call of the search can raise: what the backtest raises, or the
    [TypeError] of [np.linspace] when ['num_grids'] is a float. *)
Inductive failure : Type :=
| BacktestError (e : exn)
| TypeError (msg : string).

Inductive outcome (A : Type) : Type :=
| Done (a : A)
| Fail (f : failure).
Arguments Done {A} a.
Arguments Fail {A} f.

(** [self.backtest_grid_strategy(data, params)] on a parameter dict.
    [np.linspace] is reached once per bar, so a float ['num_grids'] only
    raises when there is a bar. *)
Definition backtest (capital : Q) (data : list Bar) (params : dict)
    : outcome Backtester.Results :=
  let strategy_params num :=
    Backtester.mkParams (option_map as_number (lookup "grid_range_pct" params))
                        num
                        (option_map as_number (lookup "order_size" params))
                        (option_map as_number (lookup "fee_rate" params)) in
  let run num :=
    match Backtester.backtest_grid_strategy capital data (strategy_params num) with
    | Ok r => Done r
    | Raise e => Fail (BacktestError e)
    end in
  match lookup "num_grids" params with
  | Some (PFloat _) =>
    match data with
    | [] => run None
    | _ => Fail (TypeError "'float' object cannot be interpreted as an integer")
    end
  | Some (PInt z) => run (Some z)
  | None => run None
  end.

Section Search.

(** The ['sharpe_ratio'] entry of a non-empty metrics dict, a function of
    the equity curve that goes through the standard deviation and a square
    root; it is taken as a parameter. *)
Variable sharpe_ratio : list EquitySample -> Q.

(** [result['metrics'].get('sharpe_ratio', 0)] *)
Definition metric_of (res : Backtester.Results) : Q :=
  match Backtester.r_metrics res with
  | None => 0
  | Some _ => sharpe_ratio (Backtester.r_equity_curve res)
  end.

(** The loop state: [best_params] ([None] at first), [best_metric] ([None]
    for [-np.inf]) and [results]. *)
Definition search_state : Type :=
  option dict * option Q * list (dict * option Backtester.TradeMetrics).

Definition search_step (capital : Q) (data : list Bar)
    (acc : outcome search_state) (params : dict) : outcome search_state :=
  match acc with
  | Fail f => Fail f
  | Done (best_params, best_metric, results) =>
    match backtest capital data params with
    | Fail f => Fail f
    | Done result =>
      let metric := metric_of result in
      let results := results ++ [(params, Backtester.r_metrics result)] in
      let better :=
        match best_metric with
        | None => true
        | Some b => Num.gtb metric b
        end in
      if better then Done (Some params, Some metric, results)
      else Done (best_params, best_metric, results)
    end
  end.

(** [optimize_parameters(data, param_grid)] *)
Definition optimize_parameters (capital : Q) (data : list Bar)
    (param_grid : list (string * list pyval))
    : outcome (option dict * list (dict * option Backtester.TradeMetrics)) :=
  match fold_left (search_step capital data) (param_generator param_grid)
                  (Done (None, None, [])) with
  | Done (best_params, _, results) => Done (best_params, results)
  | Fail f => Fail f
  end.

End Search.

End Optimizer.

(** * Properties *)

(** ** Boolean comparisons reflect the order of [Q] *)

Module NumFacts.
Import Num.

Lemma geb_true x y : geb x y = true <-> y <= x.
Proof. unfold geb. apply Qle_bool_iff. Qed.

Lemma geb_false x y : geb x y = false <-> x < y.
Proof.
  unfold geb. rewrite <- not_true_iff_false, Qle_bool_iff.
  split; intro H; [apply Qnot_le_lt | apply Qlt_not_le]; exact H.
Qed.

Lemma leb_true x y : leb x y = true <-> x <= y.
Proof. unfold leb. apply Qle_bool_iff. Qed.

Lemma leb_false x y : leb x y = false <-> y < x.
Proof. apply (geb_false y x). Qed.

Lemma ltb_true x y : ltb x y = true <-> x < y.
Proof. unfold ltb. rewrite negb_true_iff. apply (geb_false x y). Qed.

Lemma ltb_false x y : ltb x y = false <-> y <= x.
Proof. unfold ltb. rewrite negb_false_iff. apply Qle_bool_iff. Qed.

Lemma gtb_true x y : gtb x y = true <-> y < x.
Proof. apply (ltb_true y x). Qed.

Lemma gtb_false x y : gtb x y = false <-> x <= y.
Proof. apply (ltb_false y x). Qed.

Lemma min_le_l x y : min x y <= x.
Proof.
  unfold min. destruct (ltb y x) eqn:E.
  - apply ltb_true in E. lra.
  - lra.
Qed.

Lemma min_le_r x y : min x y <= y.
Proof.
  unfold min. destruct (ltb y x) eqn:E.
  - lra.
  - apply ltb_false in E. exact E.
Qed.

Lemma min_r x y : y <= x -> min x y == y.
Proof.
  intro H. unfold min. destruct (ltb y x) eqn:E.
  - reflexivity.
  - apply ltb_false in E. lra.
Qed.

Lemma min_l x y : x <= y -> min x y == x.
Proof.
  intro H. unfold min. destruct (ltb y x) eqn:E.
  - apply ltb_true in E. lra.
  - reflexivity.
Qed.

End NumFacts.

(** Turn every boolean test of the context and goal into its order fact. *)
Ltac num_cases :=
  repeat match goal with
  | |- context [Num.geb ?a ?b] =>
      let E := fresh "E" in
      destruct (Num.geb a b) eqn:E;
      [apply NumFacts.geb_true in E | apply NumFacts.geb_false in E]
  | |- context [Num.leb ?a ?b] =>
      let E := fresh "E" in
      destruct (Num.leb a b) eqn:E;
      [apply NumFacts.leb_true in E | apply NumFacts.leb_false in E]
  | |- context [Num.ltb ?a ?b] =>
      let E := fresh "E" in
      destruct (Num.ltb a b) eqn:E;
      [apply NumFacts.ltb_true in E | apply NumFacts.ltb_false in E]
  | |- context [Num.gtb ?a ?b] =>
      let E := fresh "E" in
      destruct (Num.gtb a b) eqn:E;
      [apply NumFacts.gtb_true in E | apply NumFacts.gtb_false in E]
  end.

(** ** The ledger of [execute_trade] *)

Module Ledger.

(** Solvency: no negative cash, no short position. *)
Definition solvent (p : Portfolio) : Prop := 0 <= cash p /\ 0 <= positions p.

(** A well-formed fill: a non-negative price and a non-negative amount. *)
Definition well_formed (o : Order) : Prop := 0 <= price o /\ 0 <= amount o.

Definition is_buy (o : Order) : bool := String.eqb (side o) "buy".

(** What [execute_trade] computes for a buy, and what a sell earns. *)
Definition cost (o : Order) : Q := price o * amount o * (1 + sim_fee_rate).
Definition revenue (o : Order) : Q := price o * amount o * (1 - sim_fee_rate).

Section Facts.

Variable now : nat -> Z.

(** A sequence of fills, each applied by [execute_trade]. *)
Definition apply_fills (st : System) (os : list Order) : System :=
  fold_left (fun s o => snd (GridTradingSystem.execute_trade now s o)) os st.

Lemma execute_trade_frame st o :
  let st' := snd (GridTradingSystem.execute_trade now st o) in
  mode st' = mode st /\ orders st' = orders st /\ grid_levels st' = grid_levels st
  /\ current_sim_price st' = current_sim_price st
  /\ clock_reads st' = S (clock_reads st).
Proof. cbn. repeat split. Qed.

Lemma execute_trade_trades st o :
  trades (snd (GridTradingSystem.execute_trade now st o))
  = trades st ++ [fst (GridTradingSystem.execute_trade now st o)].
Proof. reflexivity. Qed.

Lemma execute_trade_buy_filled st o :
  is_buy o = true -> cost o <= cash (portfolio st) ->
  let p' := portfolio (snd (GridTradingSystem.execute_trade now st o)) in
  cash p' == cash (portfolio st) - cost o
  /\ positions p' == positions (portfolio st) + amount o.
Proof.
  unfold is_buy, cost. intros Hb Hc. cbn. rewrite Hb. cbn.
  num_cases; cbn.
  - split; [unfold sim_fee_rate; ring | reflexivity].
  - unfold sim_fee_rate in *. lra.
Qed.

Lemma execute_trade_buy_rejected st o :
  is_buy o = true -> cash (portfolio st) < cost o ->
  let p' := portfolio (snd (GridTradingSystem.execute_trade now st o)) in
  cash p' = cash (portfolio st) /\ positions p' = positions (portfolio st).
Proof.
  unfold is_buy, cost. intros Hb Hc. cbn. rewrite Hb. cbn.
  num_cases; cbn.
  - unfold sim_fee_rate in *. lra.
  - split; reflexivity.
Qed.

Lemma execute_trade_sell_filled st o :
  is_buy o = false -> amount o <= positions (portfolio st) ->
  let p' := portfolio (snd (GridTradingSystem.execute_trade now st o)) in
  cash p' == cash (portfolio st) + revenue o
  /\ positions p' == positions (portfolio st) - amount o.
Proof.
  unfold is_buy, revenue. intros Hb Hc. cbn. rewrite Hb. cbn.
  num_cases; cbn.
  - split; [unfold sim_fee_rate; ring | reflexivity].
  - lra.
Qed.

Lemma execute_trade_sell_rejected st o :
  is_buy o = false -> positions (portfolio st) < amount o ->
  let p' := portfolio (snd (GridTradingSystem.execute_trade now st o)) in
  cash p' = cash (portfolio st) /\ positions p' = positions (portfolio st).
Proof.
  unfold is_buy. intros Hb Hc. cbn. rewrite Hb. cbn.
  num_cases; cbn.
  - lra.
  - split; reflexivity.
Qed.

Lemma execute_trade_solvent st o :
  well_formed o -> solvent (portfolio st) ->
  solvent (portfolio (snd (GridTradingSystem.execute_trade now st o))).
Proof.
  intros [Hp Ha] [Hc Hq].
  assert (Hpa : 0 <= price o * amount o) by (apply Qmult_le_0_compat; assumption).
  destruct (is_buy o) eqn:Hb.
  - destruct (Qlt_le_dec (cash (portfolio st)) (cost o)) as [Hlt | Hle].
    + destruct (execute_trade_buy_rejected st o Hb Hlt) as [E1 E2].
      unfold solvent. rewrite E1, E2. split; assumption.
    + destruct (execute_trade_buy_filled st o Hb Hle) as [E1 E2].
      unfold solvent. rewrite E1, E2. split; lra.
  - destruct (Qlt_le_dec (positions (portfolio st)) (amount o)) as [Hlt | Hle].
    + destruct (execute_trade_sell_rejected st o Hb Hlt) as [E1 E2].
      unfold solvent. rewrite E1, E2. split; assumption.
    + destruct (execute_trade_sell_filled st o Hb Hle) as [E1 E2].
      unfold solvent. rewrite E1, E2. unfold revenue, sim_fee_rate. split; lra.
Qed.

Lemma apply_fills_solvent os : forall st,
  Forall well_formed os -> solvent (portfolio st) ->
  solvent (portfolio (apply_fills st os)).
Proof.
  induction os as [| o os IH]; intros st Hwf Hs.
  - exact Hs.
  - inversion Hwf as [| ? ? Ho Hos]; subst. cbn.
    apply IH; [assumption |]. apply execute_trade_solvent; assumption.
Qed.

End Facts.

End Ledger.

(** ** The inline ledger of [backtest_grid_strategy] *)

Module BacktestLedger.
Import Backtester.

(** The amount an order of notional [order_size] asks for at [grid_price]. *)
Definition requested (order_size grid_price : Q) : Q := order_size / grid_price.

Section Facts.

Variables (fee_rate order_size : Q) (ts : Z) (current_price : Q).

Let step := bt_level fee_rate order_size ts current_price.

Lemma bt_level_untouched p trades g :
  touched current_price g = false -> step (p, trades) g = (p, trades).
Proof.
  unfold touched, step, bt_level. intros ->. reflexivity.
Qed.

Lemma bt_level_buy_filled p trades g :
  touched current_price g = true -> current_price <= g ->
  requested order_size g * g * (1 + fee_rate) <= cash p ->
  let p' := fst (step (p, trades) g) in
  cash p' == cash p - g * requested order_size g * (1 + fee_rate)
  /\ positions p' == positions p + requested order_size g
  /\ snd (step (p, trades) g)
     = trades ++ [mkTrade ts "buy" g (requested order_size g)
                          (requested order_size g * g * fee_rate) (Some 0)].
Proof.
  unfold touched, step, bt_level, requested. intros -> Hle Hc.
  num_cases; cbn; try lra;
    (split; [ring | split; reflexivity]).
Qed.

Lemma bt_level_buy_rejected p trades g :
  touched current_price g = true -> current_price <= g ->
  cash p < requested order_size g * g * (1 + fee_rate) ->
  step (p, trades) g = (p, trades).
Proof.
  unfold touched, step, bt_level, requested. intros -> Hle Hc.
  num_cases; cbn; try lra; reflexivity.
Qed.

Lemma bt_level_sell p trades g :
  touched current_price g = true -> g < current_price -> 0 < positions p ->
  let sold := Num.min (positions p) (requested order_size g) in
  let p' := fst (step (p, trades) g) in
  cash p' = cash p + sold * g * (1 - fee_rate)
  /\ positions p' = positions p - sold
  /\ exists t, snd (step (p, trades) g) = trades ++ [t]
               /\ t_side t = "sell"%string /\ t_price t = g /\ t_amount t = sold.
Proof.
  unfold touched, step, bt_level, requested. intros -> Hlt Hpos.
  num_cases; cbn; try lra;
    (split; [reflexivity | split; [reflexivity | eexists; repeat split]]).
Qed.

Lemma bt_level_sell_skipped p trades g :
  touched current_price g = true -> g < current_price -> positions p <= 0 ->
  step (p, trades) g = (p, trades).
Proof.
  unfold touched, step, bt_level. intros -> Hlt Hpos.
  num_cases; cbn; try lra; reflexivity.
Qed.

Hypothesis fee_range : 0 <= fee_rate <= 1.
Hypothesis size_nonneg : 0 <= order_size.

Lemma requested_nonneg g : 0 < g -> 0 <= requested order_size g.
Proof.
  intro Hg. unfold requested, Qdiv.
  apply Qmult_le_0_compat; [exact size_nonneg |].
  apply Qlt_le_weak, Qinv_lt_0_compat, Hg.
Qed.

Lemma bt_level_solvent p trades g :
  0 < g -> Ledger.solvent p -> Ledger.solvent (fst (step (p, trades) g)).
Proof.
  intros Hg [Hc Hp].
  pose proof (requested_nonneg g Hg) as Hr.
  destruct (touched current_price g) eqn:Ht;
    [| rewrite bt_level_untouched by exact Ht; split; assumption].
  destruct (Qlt_le_dec g current_price) as [Hsell | Hbuy].
  - destruct (Qlt_le_dec 0 (positions p)) as [Hpos | Hflat].
    + destruct (bt_level_sell p trades g Ht Hsell Hpos) as (E1 & E2 & _).
      unfold Ledger.solvent. rewrite E1, E2.
      pose proof (NumFacts.min_le_l (positions p) (requested order_size g)) as Hm.
      assert (Hs : 0 <= Num.min (positions p) (requested order_size g)).
      { unfold Num.min. num_cases; lra. }
      split; [| lra].
      assert (0 <= Num.min (positions p) (requested order_size g) * g * (1 - fee_rate)).
      { repeat apply Qmult_le_0_compat; lra. }
      lra.
    + rewrite bt_level_sell_skipped by assumption. split; assumption.
  - destruct (Qlt_le_dec (cash p) (requested order_size g * g * (1 + fee_rate)))
      as [Hrej | Hok].
    + rewrite bt_level_buy_rejected by assumption. split; assumption.
    + destruct (bt_level_buy_filled p trades g Ht Hbuy Hok) as (E1 & E2 & _).
      unfold Ledger.solvent. rewrite E1, E2. split; lra.
Qed.

Lemma bt_levels_solvent gs : forall p trades,
  Forall (fun g => 0 < g) gs -> Ledger.solvent p ->
  Ledger.solvent (fst (fold_left step gs (p, trades))).
Proof.
  induction gs as [| g gs IH]; intros p trades Hgs Hs.
  - exact Hs.
  - inversion Hgs as [| ? ? Hg Hgs']; subst.
    change (fold_left step (g :: gs) (p, trades))
      with (fold_left step gs (step (p, trades) g)).
    destruct (step (p, trades) g) as [p1 t1] eqn:E.
    apply IH; [assumption |].
    change p1 with (fst (p1, t1)). rewrite <- E.
    apply bt_level_solvent; assumption.
Qed.

End Facts.

End BacktestLedger.

(** ** Orders placed in simulation mode *)

Module PlaceOrder.

Section Facts.

Variable now : nat -> Z.

(** The order [place_order] hands to [execute_trade] in simulation mode:
    its status is already ['filled']. *)
Definition sim_order (st : System) (price amount : Q) (side order_type : string)
    : Order :=
  mkOrder (S (List.length (orders st))) (now (clock_reads st)) price amount side
          order_type "filled" None.

Lemma place_order_simulation st price amount side order_type :
  mode st = "simulation"%string ->
  GridTradingSystem.place_order now st price amount side order_type
  = (sim_order st price amount side order_type,
     set_orders
       (snd (GridTradingSystem.execute_trade now (tick st)
               (sim_order st price amount side order_type)))
       (orders st ++ [sim_order st price amount side order_type])).
Proof.
  intro Hm. unfold GridTradingSystem.place_order, sim_order.
  cbn [mode tick]. rewrite Hm. reflexivity.
Qed.

Lemma place_order_appends_order st price amount side order_type :
  let r := GridTradingSystem.place_order now st price amount side order_type in
  orders (snd r) = orders st ++ [fst r].
Proof.
  unfold GridTradingSystem.place_order. cbn [mode tick exchange orders].
  destruct (String.eqb (mode st) "simulation"); [reflexivity |].
  destruct (String.eqb (mode st) "live"); [| reflexivity].
  destruct (exchange st) as [ex |]; [| reflexivity].
  destruct (String.eqb order_type "limit"); [| reflexivity].
  destruct (ex side amount price); reflexivity.
Qed.

End Facts.

End PlaceOrder.

Lemma Forall_firstn_of {A : Type} (P : A -> Prop) (l : list A) :
  Forall P l -> forall k, Forall P (firstn k l).
Proof.
  induction 1 as [| x l Hx Hl IH]; intros [| k]; cbn; constructor; auto.
Qed.

(** Decide a closed comparison or equation of rationals by computation. *)
Ltac qdecide :=
  vm_compute; first [reflexivity | intro; discriminate].

(** ** The ledger: what a fill does to the portfolio *)

Module LedgerSpec.
Import Ledger.

(** Claim C2.  A buy whose cost [price * amount * (1 + fee_rate)] is covered
    by the cash takes exactly the cost from the cash and adds exactly the
    amount to the position; a sell covered by the position adds exactly the
    revenue [price * amount * (1 - fee_rate)] to the cash and takes exactly
    the amount from the position.  This holds for [execute_trade] (fee rate
    0.001) and for the ledger of the backtest loop (any fee rate, the price
    being the grid level and the amount [order_size / level]).  From cash
    10000 and no position, buying 1 at 100 leaves cash 9899.9 and
    position 1. *)
Theorem fill_updates_cash_and_position :
  forall now : nat -> Z,
  (forall st o,
     is_buy o = true ->
     price o * amount o * (1 + sim_fee_rate) <= cash (portfolio st) ->
     let p' := portfolio (snd (GridTradingSystem.execute_trade now st o)) in
     cash p' == cash (portfolio st) - price o * amount o * (1 + sim_fee_rate)
     /\ positions p' == positions (portfolio st) + amount o)
  /\ (forall st o,
     is_buy o = false ->
     amount o <= positions (portfolio st) ->
     let p' := portfolio (snd (GridTradingSystem.execute_trade now st o)) in
     cash p' == cash (portfolio st) + price o * amount o * (1 - sim_fee_rate)
     /\ positions p' == positions (portfolio st) - amount o)
  /\ (forall fee_rate order_size ts current_price p trades level,
     ~ level == 0 ->
     touched current_price level = true ->
     current_price <= level ->
     let amt := order_size / level in
     amt * level * (1 + fee_rate) <= cash p ->
     let p' := fst (Backtester.bt_level fee_rate order_size ts current_price
                      (p, trades) level) in
     cash p' == cash p - level * amt * (1 + fee_rate)
     /\ positions p' == positions p + amt)
  /\ (forall fee_rate order_size ts current_price p trades level,
     0 <= order_size -> 0 < level ->
     touched current_price level = true ->
     level < current_price ->
     let amt := order_size / level in
     amt <= positions p ->
     let p' := fst (Backtester.bt_level fee_rate order_size ts current_price
                      (p, trades) level) in
     cash p' == cash p + level * amt * (1 - fee_rate)
     /\ positions p' == positions p - amt)
  /\ (let st := init_system "simulation" [] in
      let o := mkOrder 1 0 100 1 "buy" "limit" "filled" None in
      let p' := portfolio (snd (GridTradingSystem.execute_trade now st o)) in
      cash p' == 98999 # 10 /\ positions p' == 1).
Proof.
  intro now. repeat apply conj.
  - intros st o Hb Hc. apply execute_trade_buy_filled; assumption.
  - intros st o Hb Hc. apply execute_trade_sell_filled; assumption.
  - intros fee_rate order_size ts cp p trades g _ Ht Hle amt Hc.
    destruct (BacktestLedger.bt_level_buy_filled fee_rate order_size ts cp
                p trades g Ht Hle Hc) as (E1 & E2 & _).
    split; assumption.
  - intros fee_rate order_size ts cp p trades g Hsz Hg Ht Hlt amt Hc.
    pose proof (BacktestLedger.requested_nonneg order_size Hsz g Hg) as Hr.
    fold amt in Hr. change (BacktestLedger.requested order_size g) with amt in Hr.
    destruct (Qlt_le_dec 0 (positions p)) as [Hpos | Hflat].
    + destruct (BacktestLedger.bt_level_sell fee_rate order_size ts cp
                  p trades g Ht Hlt Hpos) as (E1 & E2 & _).
      cbv zeta in E1, E2 |- *. rewrite E1, E2.
      pose proof (NumFacts.min_r (positions p) amt Hc) as Hm.
      unfold BacktestLedger.requested. fold amt. rewrite Hm. split; ring.
    + cbv zeta.
      rewrite BacktestLedger.bt_level_sell_skipped by assumption. cbn [fst].
      assert (Hz : amt == 0) by lra.
      rewrite Hz. split; [ring | lra].
  - qdecide.
  - qdecide.
Qed.

(** An instance: the buy 1 at 100 of the example, and a sell of 1 at 100
    from a position of 2. *)
Lemma fill_updates_cash_and_position_witness :
  let now := fun _ : nat => 0%Z in
  let st := init_system "simulation" [] in
  let buy := mkOrder 1 0 100 1 "buy" "limit" "filled" None in
  let sell := mkOrder 2 0 100 1 "sell" "limit" "filled" None in
  let held := set_portfolio st (mkPortfolio 0 2 200) in
  (is_buy buy = true
   /\ price buy * amount buy * (1 + sim_fee_rate) <= cash (portfolio st)
   /\ cash (portfolio (snd (GridTradingSystem.execute_trade now st buy)))
      == cash (portfolio st) - price buy * amount buy * (1 + sim_fee_rate))
  /\ (is_buy sell = false
   /\ amount sell <= positions (portfolio held)
   /\ positions (portfolio (snd (GridTradingSystem.execute_trade now held sell)))
      == positions (portfolio held) - amount sell)
  /\ (~ 100 == 0 /\ touched 100 100 = true /\ 100 <= 100
   /\ 100 / 100 * 100 * (1 + (1 # 1000)) <= cash (portfolio st)
   /\ positions (fst (Backtester.bt_level (1 # 1000) 100 0 100
                        (portfolio st, []) 100))
      == positions (portfolio st) + 100 / 100)
  /\ (0 <= 100 /\ 0 < 100 /\ touched (10005 # 100) 100 = true
   /\ 100 < 10005 # 100 /\ 100 / 100 <= positions (portfolio held)
   /\ positions (fst (Backtester.bt_level (1 # 1000) 100 0 (10005 # 100)
                        (portfolio held, []) 100))
      == positions (portfolio held) - 100 / 100).
Proof.
  intros now st buy sell held.
  destruct (fill_updates_cash_and_position now) as (Hbuy & Hsell & Hbt & Hbs & _).
  assert (B1 : is_buy buy = true) by reflexivity.
  assert (B2 : price buy * amount buy * (1 + sim_fee_rate) <= cash (portfolio st))
    by qdecide.
  assert (S1 : is_buy sell = false) by reflexivity.
  assert (S2 : amount sell <= positions (portfolio held)) by qdecide.
  assert (T0 : ~ 100 == 0) by qdecide.
  assert (T1 : touched 100 100 = true) by reflexivity.
  assert (T2 : 100 <= 100) by qdecide.
  assert (T3 : 100 / 100 * 100 * (1 + (1 # 1000)) <= cash (portfolio st)) by qdecide.
  assert (U1 : 0 <= 100) by qdecide.
  assert (U2 : 0 < 100) by qdecide.
  assert (U3 : touched (10005 # 100) 100 = true) by reflexivity.
  assert (U4 : 100 < 10005 # 100) by qdecide.
  assert (U5 : 100 / 100 <= positions (portfolio held)) by qdecide.
  split; [exact (conj B1 (conj B2 (proj1 (Hbuy st buy B1 B2)))) |].
  split; [exact (conj S1 (conj S2 (proj2 (Hsell held sell S1 S2)))) |].
  split.
  { exact (conj T0 (conj T1 (conj T2 (conj T3
             (proj2 (Hbt (1 # 1000) 100 0%Z 100 (portfolio st) [] 100
                         T0 T1 T2 T3)))))). }
  exact (conj U1 (conj U2 (conj U3 (conj U4 (conj U5
           (proj2 (Hbs (1 # 1000) 100 0%Z (10005 # 100) (portfolio held) [] 100
                       U1 U2 U3 U4 U5))))))).
Defined.

End LedgerSpec.

(** ** Solvency: cash and position never go negative *)

Module SolvencySpec.
Import Ledger.

(** Claim C1, at a concrete input of the backtest loop.  With a position of
    0.5 and a sell of 1 requested at level 100 (close 100.05, inside the
    tolerance), the requested fill would bring the position to -0.5; the
    loop sells the 0.5 it holds instead of leaving the portfolio alone:
    the position becomes 0 and the cash 49.95. *)
Lemma backtest_sell_is_partially_applied :
  let p := mkPortfolio 0 (1 # 2) 0 in
  let requested := 100 / 100 in
  let p' := fst (Backtester.bt_level (1 # 1000) 100 0 (10005 # 100) (p, []) 100) in
  solvent p
  /\ positions p - requested < 0
  /\ cash p' == 4995 # 100 /\ positions p' == 0
  /\ ~ (cash p' == cash p /\ positions p' == positions p).
Proof.
  cbv zeta. repeat apply conj; try qdecide.
  intros [H _]. revert H. qdecide.
Qed.

(** Claim C1, as the code has it.  [execute_trade]: from a solvent
    portfolio, after every prefix of any sequence of well-formed fills
    (non-negative price and amount) cash and position are non-negative, and
    a buy whose cost exceeds the cash, or a sell whose amount exceeds the
    position, leaves cash and position unchanged.  Backtest loop (fee rate
    in [0, 1], non-negative order size, positive levels): cash and position
    stay non-negative after every prefix of the levels of a bar; a buy whose
    cost exceeds the cash leaves portfolio and trade list unchanged; a sell
    whose requested amount exceeds a positive position is clamped to the
    position, which it sells entirely. *)
Theorem solvency_is_invariant :
  forall now : nat -> Z,
  (forall st os k,
     Forall well_formed os -> solvent (portfolio st) ->
     solvent (portfolio (apply_fills now st (firstn k os))))
  /\ (forall st o,
     is_buy o = true -> cash (portfolio st) - cost o < 0 ->
     let p' := portfolio (snd (GridTradingSystem.execute_trade now st o)) in
     cash p' = cash (portfolio st) /\ positions p' = positions (portfolio st))
  /\ (forall st o,
     is_buy o = false -> positions (portfolio st) - amount o < 0 ->
     let p' := portfolio (snd (GridTradingSystem.execute_trade now st o)) in
     cash p' = cash (portfolio st) /\ positions p' = positions (portfolio st))
  /\ (forall fee_rate order_size ts current_price levels k p trades,
     0 <= fee_rate <= 1 -> 0 <= order_size ->
     Forall (fun g => 0 < g) levels -> solvent p ->
     solvent (fst (fold_left
                     (Backtester.bt_level fee_rate order_size ts current_price)
                     (firstn k levels) (p, trades))))
  /\ (forall fee_rate order_size ts current_price p trades level,
     ~ level == 0 ->
     touched current_price level = true -> current_price <= level ->
     cash p - order_size / level * level * (1 + fee_rate) < 0 ->
     Backtester.bt_level fee_rate order_size ts current_price (p, trades) level
     = (p, trades))
  /\ (forall fee_rate order_size ts current_price p trades level,
     ~ level == 0 ->
     touched current_price level = true -> level < current_price ->
     0 < positions p -> positions p - order_size / level < 0 ->
     let p' := fst (Backtester.bt_level fee_rate order_size ts current_price
                      (p, trades) level) in
     cash p' == cash p + positions p * level * (1 - fee_rate)
     /\ positions p' == 0).
Proof.
  intro now. repeat apply conj.
  - intros st os k Hwf Hs. apply apply_fills_solvent; [| exact Hs].
    apply Forall_firstn_of, Hwf.
  - intros st o Hb Hc. apply execute_trade_buy_rejected; [exact Hb | lra].
  - intros st o Hb Hc. apply execute_trade_sell_rejected; [exact Hb | lra].
  - intros fee_rate order_size ts cp levels k p trades Hf Hs Hl Hp.
    apply BacktestLedger.bt_levels_solvent; try assumption.
    apply Forall_firstn_of, Hl.
  - intros fee_rate order_size ts cp p trades g _ Ht Hle Hc.
    apply BacktestLedger.bt_level_buy_rejected; try assumption.
    unfold BacktestLedger.requested. lra.
  - intros fee_rate order_size ts cp p trades g _ Ht Hlt Hpos Hc.
    destruct (BacktestLedger.bt_level_sell fee_rate order_size ts cp
                p trades g Ht Hlt Hpos) as (E1 & E2 & _).
    cbv zeta in E1, E2 |- *. rewrite E1, E2.
    assert (Hm : Num.min (positions p) (BacktestLedger.requested order_size g)
                 == positions p).
    { apply NumFacts.min_l. unfold BacktestLedger.requested. lra. }
    rewrite Hm. split; ring.
Qed.

(** An instance of each part: two fills on the initial portfolio, an
    unaffordable buy, an uncovered sell, and the same three situations in
    the backtest loop. *)
Lemma solvency_is_invariant_witness :
  let now := fun _ : nat => 0%Z in
  let st := init_system "simulation" [] in
  let buy := mkOrder 1 0 100 1 "buy" "limit" "filled" None in
  let sell := mkOrder 2 0 100 1 "sell" "limit" "filled" None in
  let big := mkOrder 3 0 100 1000 "buy" "limit" "filled" None in
  let half := mkPortfolio 0 (1 # 2) 0 in
  (Forall well_formed [buy; sell] /\ solvent (portfolio st)
   /\ solvent (portfolio (apply_fills now st (firstn 2 [buy; sell]))))
  /\ (is_buy big = true /\ cash (portfolio st) - cost big < 0
   /\ cash (portfolio (snd (GridTradingSystem.execute_trade now st big)))
      = cash (portfolio st))
  /\ (is_buy sell = false /\ positions (portfolio st) - amount sell < 0
   /\ positions (portfolio (snd (GridTradingSystem.execute_trade now st sell)))
      = positions (portfolio st))
  /\ ((0 <= 1 # 1000 <= 1) /\ 0 <= 100 /\ Forall (fun g => 0 < g) [100; 105]
   /\ solvent half
   /\ solvent (fst (fold_left (Backtester.bt_level (1 # 1000) 100 0 (10005 # 100))
                              (firstn 2 [100; 105]) (half, []))))
  /\ (~ 100 == 0 /\ touched 100 100 = true /\ 100 <= 100
   /\ cash half - 100 / 100 * 100 * (1 + (1 # 1000)) < 0
   /\ Backtester.bt_level (1 # 1000) 100 0 100 (half, []) 100 = (half, []))
  /\ (~ 100 == 0 /\ touched (10005 # 100) 100 = true
   /\ 100 < 10005 # 100
   /\ 0 < positions half /\ positions half - 100 / 100 < 0
   /\ positions (fst (Backtester.bt_level (1 # 1000) 100 0 (10005 # 100)
                        (half, []) 100)) == 0).
Proof.
  intros now st buy sell big half.
  destruct (solvency_is_invariant now) as (H1 & H2 & H3 & H4 & H5 & H6).
  assert (W : Forall well_formed [buy; sell]).
  { repeat constructor; qdecide. }
  assert (S0 : solvent (portfolio st)) by (split; qdecide).
  assert (B1 : is_buy big = true) by reflexivity.
  assert (B2 : cash (portfolio st) - cost big < 0) by qdecide.
  assert (S1 : is_buy sell = false) by reflexivity.
  assert (S2 : positions (portfolio st) - amount sell < 0) by qdecide.
  assert (F1 : 0 <= 1 # 1000 <= 1) by (split; qdecide).
  assert (F2 : 0 <= 100) by qdecide.
  assert (F3 : Forall (fun g => 0 < g) [100; 105]) by (repeat constructor).
  assert (F4 : solvent half) by (split; qdecide).
  assert (T0 : ~ 100 == 0) by qdecide.
  assert (T1 : touched 100 100 = true) by reflexivity.
  assert (T2 : 100 <= 100) by qdecide.
  assert (T3 : cash half - 100 / 100 * 100 * (1 + (1 # 1000)) < 0) by qdecide.
  assert (U1 : touched (10005 # 100) 100 = true) by reflexivity.
  assert (U2 : 100 < 10005 # 100) by qdecide.
  assert (U3 : 0 < positions half) by qdecide.
  assert (U4 : positions half - 100 / 100 < 0) by qdecide.
  split; [exact (conj W (conj S0 (H1 st [buy; sell] 2%nat W S0))) |].
  split; [exact (conj B1 (conj B2 (proj1 (H2 st big B1 B2)))) |].
  split; [exact (conj S1 (conj S2 (proj2 (H3 st sell S1 S2)))) |].
  split.
  { exact (conj F1 (conj F2 (conj F3 (conj F4
             (H4 (1 # 1000) 100 0%Z (10005 # 100) [100; 105] 2%nat half []
                 F1 F2 F3 F4))))). }
  split.
  { exact (conj T0 (conj T1 (conj T2 (conj T3
             (H5 (1 # 1000) 100 0%Z 100 half [] 100 T0 T1 T2 T3))))). }
  exact (conj T0 (conj U1 (conj U2 (conj U3 (conj U4
           (proj2 (H6 (1 # 1000) 100 0%Z (10005 # 100) half [] 100
                      T0 U1 U2 U3 U4))))))).
Defined.

End SolvencySpec.

(** ** The order log and the trade log in simulation mode *)

Module OrderLogSpec.
Import Ledger.

(** The solvency test of [execute_trade] fails for this order. *)
Definition insolvent (p : Portfolio) (price amount : Q) (side : string) : Prop :=
  (String.eqb side "buy" = true /\ cash p < price * amount * (1 + sim_fee_rate))
  \/ (String.eqb side "buy" = false /\ positions p < amount).

(** Claim C3, at a concrete input.  On the initial portfolio (cash 10000) a
    buy of 1000 at 100 costs 100100 and fails the solvency test; the order
    that [place_order] returns and logs has status ['filled'], not
    ['rejected']. *)
Lemma insolvent_order_is_logged_as_filled :
  let st := init_system "simulation" [] in
  let r := GridTradingSystem.place_order (fun _ => 0%Z) st 100 1000 "buy" "limit" in
  insolvent (portfolio st) 100 1000 "buy"
  /\ orders (snd r) = [fst r]
  /\ status (fst r) = "filled"%string
  /\ status (fst r) <> "rejected"%string
  /\ cash (portfolio (snd r)) = cash (portfolio st)
  /\ positions (portfolio (snd r)) = positions (portfolio st).
Proof.
  cbv zeta. split.
  - left. split; [reflexivity | qdecide].
  - repeat split. intro H. discriminate H.
Qed.

Lemma insolvent_unchanged now st o :
  insolvent (portfolio st) (price o) (amount o) (side o) ->
  let p' := portfolio (snd (GridTradingSystem.execute_trade now st o)) in
  cash p' = cash (portfolio st) /\ positions p' = positions (portfolio st).
Proof.
  intros [[Hb Hc] | [Hb Hc]].
  - apply execute_trade_buy_rejected; assumption.
  - apply execute_trade_sell_rejected; assumption.
Qed.

(** Claim C3, as the code has it.  In simulation mode an order whose fill
    fails the solvency test is appended to the order log with status
    ['filled'] (simulation mode never writes ['rejected']); cash and
    position are unchanged, one trade record is appended, nothing is raised
    ([place_order] is total), and the loop over the grid levels of the bar
    runs the body of each further level on the state so left. *)
Theorem insolvent_order_is_logged_and_bar_continues :
  forall now : nat -> Z,
  (forall st price amount side order_type,
     mode st = "simulation"%string ->
     insolvent (portfolio st) price amount side ->
     let r := GridTradingSystem.place_order now st price amount side order_type in
     status (fst r) = "filled"%string
     /\ orders (snd r) = orders st ++ [fst r]
     /\ cash (portfolio (snd r)) = cash (portfolio st)
     /\ positions (portfolio (snd r)) = positions (portfolio st)
     /\ List.length (trades (snd r)) = S (List.length (trades st)))
  /\ (forall order_size st before level rest,
     fold_left (GridTradingSystem.sim_level now order_size)
               (before ++ level :: rest) st
     = fold_left (GridTradingSystem.sim_level now order_size) rest
         (GridTradingSystem.sim_level now order_size
            (fold_left (GridTradingSystem.sim_level now order_size) before st)
            level)).
Proof.
  intro now. split.
  - intros st pr am sd ot Hm Hins r. subst r.
    rewrite (PlaceOrder.place_order_simulation now st pr am sd ot Hm).
    cbn [fst snd].
    pose proof (insolvent_unchanged now (tick st)
                  (PlaceOrder.sim_order now st pr am sd ot))
      as Hu.
    cbn [price amount side PlaceOrder.sim_order tick portfolio] in Hu.
    specialize (Hu Hins). destruct Hu as [Hc Hp].
    split; [reflexivity |]. split; [reflexivity |].
    split; [exact Hc |]. split; [exact Hp |].
    cbn. rewrite length_app. cbn. lia.
  - intros order_size st before level rest.
    rewrite fold_left_app. reflexivity.
Qed.

Lemma insolvent_order_is_logged_and_bar_continues_witness :
  let now := fun _ : nat => 0%Z in
  let st := init_system "simulation" [] in
  mode st = "simulation"%string
  /\ insolvent (portfolio st) 100 1000 "buy"
  /\ status (fst (GridTradingSystem.place_order now st 100 1000 "buy" "limit"))
     = "filled"%string.
Proof.
  intros now st.
  assert (M : mode st = "simulation"%string) by reflexivity.
  assert (I : insolvent (portfolio st) 100 1000 "buy").
  { left. split; [reflexivity | qdecide]. }
  exact (conj M (conj I
           (proj1 (proj1 (insolvent_order_is_logged_and_bar_continues now)
                         st 100 1000 "buy"%string "limit"%string M I)))).
Defined.

(** Claim C10.  [execute_trade] appends its trade record, whose fee is
    [price * amount * 0.001], to the trade log for every order, so
    [total_trades] grows by one, also when the solvency test fails and cash
    and position stay as they were; in simulation mode every call of
    [place_order] therefore adds exactly one such trade. *)
Theorem every_order_is_logged_as_a_trade :
  forall (now : nat -> Z) (st : System),
  (forall o,
     let r := GridTradingSystem.execute_trade now st o in
     trades (snd r) = trades st ++ [fst r]
     /\ order_id (fst r) = id o
     /\ fee (fst r) = price o * amount o * (1 # 1000)
     /\ (forall sample curve,
           option_map GridTradingSystem.total_trades
             (GridTradingSystem.calculate_performance_metrics (snd r)
                (sample :: curve))
           = Some (S (List.length (trades st))))
     /\ (insolvent (portfolio st) (price o) (amount o) (side o) ->
         cash (portfolio (snd r)) = cash (portfolio st)
         /\ positions (portfolio (snd r)) = positions (portfolio st)))
  /\ (forall price amount side order_type,
     mode st = "simulation"%string ->
     let r := GridTradingSystem.place_order now st price amount side order_type in
     exists t,
       trades (snd r) = trades st ++ [t]
       /\ order_id t = id (fst r)
       /\ fee t = price * amount * (1 # 1000)).
Proof.
  intros now st. split.
  - intros o r. subst r.
    split; [reflexivity |]. split; [reflexivity |]. split; [reflexivity |].
    split.
    + intros sample curve. cbn. rewrite length_app. cbn.
      f_equal. lia.
    + apply insolvent_unchanged.
  - intros price amount side order_type Hm r. subst r.
    rewrite (PlaceOrder.place_order_simulation now st price amount side
               order_type Hm).
    eexists. cbn [fst snd]. split; [reflexivity |]. split; reflexivity.
Qed.

Lemma every_order_is_logged_as_a_trade_witness :
  let now := fun _ : nat => 0%Z in
  let st := init_system "simulation" [] in
  let o := mkOrder 1 0 100 1000 "buy" "limit" "filled" None in
  let r := GridTradingSystem.execute_trade now st o in
  insolvent (portfolio st) (price o) (amount o) (side o)
  /\ cash (portfolio (snd r)) = cash (portfolio st)
  /\ positions (portfolio (snd r)) = positions (portfolio st)
  /\ List.length (trades (snd r)) = 1%nat
  /\ mode st = "simulation"%string
  /\ exists t,
       trades (snd (GridTradingSystem.place_order now st 100 1000 "buy" "limit"))
       = trades st ++ [t]
       /\ order_id t
          = id (fst (GridTradingSystem.place_order now st 100 1000 "buy" "limit"))
       /\ fee t = 100 * 1000 * (1 # 1000).
Proof.
  intros now st o r.
  assert (I : insolvent (portfolio st) (price o) (amount o) (side o)).
  { left. split; [reflexivity | qdecide]. }
  assert (M : mode st = "simulation"%string) by reflexivity.
  destruct (every_order_is_logged_as_a_trade now st) as [H1 H2].
  destruct (H1 o) as (_ & _ & _ & _ & Hu).
  split; [exact I |].
  split; [exact (proj1 (Hu I)) |].
  split; [exact (proj2 (Hu I)) |].
  split; [reflexivity |].
  split; [exact M |].
  exact (H2 100 1000 "buy"%string "limit"%string M).
Defined.

End OrderLogSpec.

(** ** The matching loops: which levels are touched, and what is ordered *)

Module MatchingSpec.

Lemma touched_iff c g :
  touched c g = true <-> Qabs (c - g) / g < 1 # 1000.
Proof. unfold touched, tolerance. apply NumFacts.ltb_true. Qed.

Lemma untouched_iff c g :
  touched c g = false <-> ~ Qabs (c - g) / g < 1 # 1000.
Proof.
  rewrite <- touched_iff. destruct (touched c g).
  - split; [discriminate | intro H; exfalso; apply H; reflexivity].
  - split; [intros _ H; discriminate H | reflexivity].
Qed.

Lemma place_order_fields now st pr am sd ot :
  let o := fst (GridTradingSystem.place_order now st pr am sd ot) in
  price o = pr /\ amount o = am /\ side o = sd /\ type o = ot
  /\ id o = S (List.length (orders st)).
Proof.
  unfold GridTradingSystem.place_order. cbn [mode tick exchange orders].
  destruct (String.eqb (mode st) "simulation"); [repeat split |].
  destruct (String.eqb (mode st) "live"); [| repeat split].
  destruct (exchange st) as [ex |]; [| repeat split].
  destruct (String.eqb ot "limit"); [| repeat split].
  destruct (ex sd am pr); repeat split.
Qed.

(** Claim C4, at a concrete input of the backtest loop.  With a position of
    0.25, order size 100 and level 100 touched from above (close 100.05),
    the sell that is recorded has amount 0.25, not [order_size / level]
    = 1. *)
Lemma backtest_sell_amount_is_clamped :
  let p := mkPortfolio 0 (1 # 4) 0 in
  let r := Backtester.bt_level (1 # 1000) 100 7 (10005 # 100) (p, []) 100 in
  touched (10005 # 100) 100 = true
  /\ 100 < 10005 # 100
  /\ 0 < positions p
  /\ (exists t, snd r = [t] /\ Backtester.t_side t = "sell"%string
                /\ Backtester.t_price t = 100
                /\ Backtester.t_amount t == 1 # 4
                /\ ~ Backtester.t_amount t == 100 / 100).
Proof.
  cbv zeta. split; [reflexivity |]. split; [qdecide |]. split; [qdecide |].
  eexists. split; [reflexivity |]. split; [reflexivity |].
  split; [reflexivity |]. split; qdecide.
Qed.

(** Claim C4, as the code has it.  In [run_simulation], for the bar's close
    and a grid level: nothing happens unless [|close - level| / level <
    0.001]; when it is, [close <= level] places a buy order and [close >
    level] places a sell order if the position is positive and nothing
    otherwise; the order placed has the level as price and [order_size /
    level] as amount.  In the backtest loop the same test and direction
    apply, a buy is recorded (price the level, amount [order_size / level])
    only when the cash covers its cost, and a sell is recorded with amount
    [min(position, order_size / level)].  Levels are non-zero (the
    quotient by a zero level is outside the rational model). *)
Theorem level_is_matched_by_rule :
  forall (now : nat -> Z) (order_size : Q),
  (forall st level,
     ~ level == 0 ->
     let close := current_sim_price st in
     let st' := GridTradingSystem.sim_level now order_size st level in
     (~ Qabs (close - level) / level < 1 # 1000 -> st' = st)
     /\ (Qabs (close - level) / level < 1 # 1000 -> close <= level ->
         exists o, orders st' = orders st ++ [o]
                   /\ side o = "buy"%string /\ price o = level
                   /\ amount o = order_size / level)
     /\ (Qabs (close - level) / level < 1 # 1000 -> level < close ->
         0 < positions (portfolio st) ->
         exists o, orders st' = orders st ++ [o]
                   /\ side o = "sell"%string /\ price o = level
                   /\ amount o = order_size / level)
     /\ (Qabs (close - level) / level < 1 # 1000 -> level < close ->
         positions (portfolio st) <= 0 -> st' = st))
  /\ (forall fee_rate ts close p trades level,
     ~ level == 0 ->
     let r := Backtester.bt_level fee_rate order_size ts close (p, trades) level in
     (~ Qabs (close - level) / level < 1 # 1000 -> r = (p, trades))
     /\ (Qabs (close - level) / level < 1 # 1000 -> close <= level ->
         order_size / level * level * (1 + fee_rate) <= cash p ->
         exists t, snd r = trades ++ [t]
                   /\ Backtester.t_side t = "buy"%string
                   /\ Backtester.t_price t = level
                   /\ Backtester.t_amount t = order_size / level)
     /\ (Qabs (close - level) / level < 1 # 1000 -> close <= level ->
         cash p < order_size / level * level * (1 + fee_rate) ->
         r = (p, trades))
     /\ (Qabs (close - level) / level < 1 # 1000 -> level < close ->
         0 < positions p ->
         exists t, snd r = trades ++ [t]
                   /\ Backtester.t_side t = "sell"%string
                   /\ Backtester.t_price t = level
                   /\ Backtester.t_amount t
                      = Num.min (positions p) (order_size / level))
     /\ (Qabs (close - level) / level < 1 # 1000 -> level < close ->
         positions p <= 0 -> r = (p, trades))).
Proof.
  intros now order_size. split.
  - intros st level _ close st'. subst close st'.
    unfold GridTradingSystem.sim_level, tolerance.
    repeat apply conj.
    + intro Hn. num_cases; try reflexivity; contradiction.
    + intros Ht Hle. num_cases; try lra.
      pose proof (place_order_fields now st level (order_size / level)
                    "buy" "limit") as (F1 & F2 & F3 & _).
      eexists. split; [apply PlaceOrder.place_order_appends_order |].
      repeat split; assumption.
    + intros Ht Hlt Hpos. num_cases; try lra.
      pose proof (place_order_fields now st level (order_size / level)
                    "sell" "limit") as (F1 & F2 & F3 & _).
      eexists. split; [apply PlaceOrder.place_order_appends_order |].
      repeat split; assumption.
    + intros Ht Hlt Hpos. num_cases; try lra; reflexivity.
  - intros fee_rate ts close p trades level _ r. subst r.
    repeat apply conj.
    + intro Hn. apply BacktestLedger.bt_level_untouched.
      apply untouched_iff, Hn.
    + intros Ht Hle Hc. apply touched_iff in Ht.
      destruct (BacktestLedger.bt_level_buy_filled fee_rate order_size ts close
                  p trades level Ht Hle Hc) as (_ & _ & E).
      eexists. split; [exact E |]. repeat split.
    + intros Ht Hle Hc. apply touched_iff in Ht.
      apply BacktestLedger.bt_level_buy_rejected; assumption.
    + intros Ht Hlt Hpos. apply touched_iff in Ht.
      destruct (BacktestLedger.bt_level_sell fee_rate order_size ts close
                  p trades level Ht Hlt Hpos) as (_ & _ & t & E & S1 & S2 & S3).
      exists t. repeat split; assumption.
    + intros Ht Hlt Hpos. apply touched_iff in Ht.
      apply BacktestLedger.bt_level_sell_skipped; assumption.
Qed.

(** An instance in each loop: level 100 touched at close 100 (a buy), and
    level 100 touched from above with a position of 0.25 (a clamped
    sell). *)
Lemma level_is_matched_by_rule_witness :
  let now := fun _ : nat => 0%Z in
  let st := init_system "simulation" [mkBar 0 100 100 100 100 1] in
  let p := mkPortfolio 0 (1 # 4) 0 in
  (~ 100 == 0
   /\ Qabs (current_sim_price st - 100) / 100 < 1 # 1000
   /\ current_sim_price st <= 100
   /\ exists o,
        orders (GridTradingSystem.sim_level now 100 st 100) = orders st ++ [o]
        /\ side o = "buy"%string /\ price o = 100 /\ amount o = 100 / 100)
  /\ (Qabs ((10005 # 100) - 100) / 100 < 1 # 1000
   /\ 100 < 10005 # 100 /\ 0 < positions p
   /\ exists t,
        snd (Backtester.bt_level (1 # 1000) 100 7 (10005 # 100) (p, []) 100)
        = [] ++ [t]
        /\ Backtester.t_side t = "sell"%string
        /\ Backtester.t_price t = 100
        /\ Backtester.t_amount t = Num.min (positions p) (100 / 100)).
Proof.
  intros now st p.
  destruct (level_is_matched_by_rule now 100) as [Hsim Hbt].
  assert (N : ~ 100 == 0) by qdecide.
  assert (A1 : Qabs (current_sim_price st - 100) / 100 < 1 # 1000) by qdecide.
  assert (A2 : current_sim_price st <= 100) by qdecide.
  assert (B1 : Qabs ((10005 # 100) - 100) / 100 < 1 # 1000) by qdecide.
  assert (B2 : 100 < 10005 # 100) by qdecide.
  assert (B3 : 0 < positions p) by qdecide.
  split.
  - exact (conj N (conj A1 (conj A2
             (proj1 (proj2 (Hsim st 100 N)) A1 A2)))).
  - exact (conj B1 (conj B2 (conj B3
             (proj1 (proj2 (proj2 (proj2
                (Hbt (1 # 1000) 7%Z (10005 # 100) p [] 100 N)))) B1 B2 B3)))).
Defined.

End MatchingSpec.

(** ** Grid levels *)

Module GridFacts.

(** Each level strictly above the previous one. *)
Definition increasing (l : list Q) : Prop :=
  forall i, (S i < List.length l)%nat -> nth i l 0 < nth (S i) l 0.

(** Each level at least the previous one. *)
Definition nondecreasing (l : list Q) : Prop :=
  forall i, (S i < List.length l)%nat -> nth i l 0 <= nth (S i) l 0.

Section SetLast.

Context {A : Type}.

Lemma length_set_last (y : list A) v :
  List.length (Np.set_last y v) = List.length y.
Proof.
  induction y as [| x [| x' y'] IH]; cbn in *; congruence.
Qed.

Lemma nth_set_last_before (y : list A) v d : forall i,
  (S i < List.length y)%nat -> nth i (Np.set_last y v) d = nth i y d.
Proof.
  induction y as [| x [| x' y'] IH]; intros i Hi; cbn in Hi; try lia.
  destruct i as [| i]; [reflexivity |].
  change (nth i (Np.set_last (x' :: y') v) d = nth i (x' :: y') d).
  apply IH. cbn. lia.
Qed.

Lemma last_set_last (y : list A) v d :
  y <> [] -> last (Np.set_last y v) d = v.
Proof.
  induction y as [| x [| x' y'] IH]; intro Hne; [congruence | reflexivity |].
  change (last (x :: Np.set_last (x' :: y') v) d = v).
  assert (H : Np.set_last (x' :: y') v <> []).
  { intro E. apply (f_equal (@List.length A)) in E.
    rewrite length_set_last in E. discriminate E. }
  destruct (Np.set_last (x' :: y') v) as [| a l] eqn:E; [congruence |].
  change (last (a :: l) d = v). apply IH. discriminate.
Qed.

Lemma nth_set_last_last (y : list A) v d :
  y <> [] -> nth (List.length y - 1) (Np.set_last y v) d = v.
Proof.
  induction y as [| x [| x' y'] IH]; intro Hne; [congruence | reflexivity |].
  change (nth (S (List.length y')) (x :: Np.set_last (x' :: y') v) d = v).
  cbn [nth]. specialize (IH ltac:(discriminate)).
  replace (List.length (x' :: y') - 1)%nat with (List.length y') in IH
    by (cbn [List.length]; lia).
  exact IH.
Qed.

End SetLast.

Lemma nth_map_seq {A : Type} (f : nat -> A) (d : A) n i :
  (i < n)%nat -> nth i (map f (seq 0 n)) d = f i.
Proof.
  intro Hi. rewrite (nth_indep _ d (f 0%nat)) by (rewrite length_map, length_seq; exact Hi).
  rewrite map_nth, seq_nth by exact Hi. reflexivity.
Qed.

Lemma inject_Z_nonzero z : (0 < z)%Z -> ~ inject_Z z == 0.
Proof. intros Hz E. unfold Qeq in E. cbn in E. lia. Qed.

Lemma inject_Z_pos z : (0 < z)%Z -> 0 < inject_Z z.
Proof. intro Hz. unfold Qlt. cbn. lia. Qed.

Lemma inject_nat_succ i :
  inject_Z (Z.of_nat (S i)) == inject_Z (Z.of_nat i) + 1.
Proof. rewrite Nat2Z.inj_succ. unfold Z.succ. rewrite inject_Z_plus. reflexivity. Qed.

(** The samples of [np.linspace] for [num >= 2]: [num] of them, the i-th
    one [start + i * (stop - start) / (num - 1)], the last one [stop]
    itself. *)
Lemma linspace_samples start stop num :
  (2 <= num)%Z ->
  exists l,
    Np.linspace start stop num = Ok l
    /\ List.length l = Z.to_nat num
    /\ (forall i, (i < Z.to_nat num)%nat ->
          nth i l 0 == start + inject_Z (Z.of_nat i)
                               * ((stop - start) / inject_Z (num - 1)))
    /\ last l 0 = stop.
Proof.
  intro Hn. unfold Np.linspace, Np.arange.
  assert (E1 : (num <? 0)%Z = false) by (apply Z.ltb_ge; lia).
  assert (E2 : (0 <? num - 1)%Z = true) by (apply Z.ltb_lt; lia).
  assert (E3 : (1 <? num)%Z = true) by (apply Z.ltb_lt; lia).
  rewrite E1, E2, E3.
  assert (Hd : ~ inject_Z (num - 1) == 0) by (apply inject_Z_nonzero; lia).
  set (n := Z.to_nat num).
  set (step := (stop - start) / inject_Z (num - 1)).
  assert (Hy : exists g : nat -> Q,
             (if Qeq_bool step 0
              then map (fun v => v / inject_Z (num - 1) * (stop - start))
                       (map inject_Z (map Z.of_nat (seq 0 n)))
              else map (fun v => v * step) (map inject_Z (map Z.of_nat (seq 0 n))))
             = map g (seq 0 n)
             /\ forall i, g i == inject_Z (Z.of_nat i) * step).
  { destruct (Qeq_bool step 0).
    - exists (fun i => inject_Z (Z.of_nat i) / inject_Z (num - 1) * (stop - start)).
      split; [rewrite !map_map; reflexivity |].
      intro i. unfold step. field. exact Hd.
    - exists (fun i => inject_Z (Z.of_nat i) * step).
      split; [rewrite !map_map; reflexivity | reflexivity]. }
  destruct Hy as (g & -> & Hg).
  rewrite map_map.
  set (y := map (fun i => g i + start) (seq 0 n)).
  assert (Hlen : List.length y = n) by (unfold y; rewrite length_map, length_seq; reflexivity).
  assert (Hne : y <> []).
  { intro E. rewrite E in Hlen. cbn in Hlen. unfold n in Hlen. lia. }
  eexists. split; [reflexivity |].
  split; [rewrite length_set_last; exact Hlen |].
  split; [| apply last_set_last; exact Hne].
  intros i Hi.
  destruct (Nat.eq_dec i (n - 1)) as [-> | Hlt].
  - rewrite <- Hlen at 1. rewrite nth_set_last_last by exact Hne.
    replace (Z.of_nat (n - 1)) with (num - 1)%Z by (unfold n; lia).
    fold step. unfold step. field. exact Hd.
  - rewrite nth_set_last_before by (rewrite Hlen; lia).
    unfold y. rewrite nth_map_seq by exact Hi. rewrite Hg. ring.
Qed.

Lemma linspace_increasing start stop num l :
  start < stop -> (2 <= num)%Z -> Np.linspace start stop num = Ok l ->
  increasing l.
Proof.
  intros Hlt Hn El.
  destruct (linspace_samples start stop num Hn) as (l' & El' & Hlen & Hnth & _).
  rewrite El in El'. injection El' as <-.
  intros i Hi. rewrite Hlen in Hi.
  rewrite (Hnth i) by lia. rewrite (Hnth (S i)) by lia.
  rewrite inject_nat_succ.
  assert (Hs : 0 < (stop - start) / inject_Z (num - 1)).
  { apply Qlt_shift_div_l; [apply inject_Z_pos; lia | lra]. }
  lra.
Qed.

End GridFacts.

(** ** The Fibonacci ratios *)

Module FibFacts.
Import GridTradingSystem.

(** The Fibonacci numbers 0, 1, 1, 2, 3, 5, ..., as pairs of neighbours. *)
Fixpoint fib_pair (n : nat) : Z * Z :=
  match n with
  | O => (0, 1)%Z
  | S k => let '(a, b) := fib_pair k in (b, a + b)%Z
  end.

Definition fibZ (n : nat) : Z := fst (fib_pair n).

Lemma fib_pair_bounds n :
  (0 <= fst (fib_pair n) <= snd (fib_pair n))%Z /\ (1 <= snd (fib_pair n))%Z.
Proof.
  induction n as [| n IH]; cbn; [lia |].
  destruct (fib_pair n) as [a b]. cbn in *. lia.
Qed.

Lemma fibZ_step n : fibZ (S (S n)) = (fibZ (S n) + fibZ n)%Z.
Proof.
  unfold fibZ. cbn. destruct (fib_pair n) as [a b]. cbn. lia.
Qed.

Lemma fibZ_nonneg n : (0 <= fibZ n)%Z.
Proof. unfold fibZ. apply fib_pair_bounds. Qed.

Lemma fibZ_mono n : (fibZ n <= fibZ (S n))%Z.
Proof.
  unfold fibZ. pose proof (fib_pair_bounds n) as H. cbn.
  destruct (fib_pair n) as [a b]. cbn in *. lia.
Qed.

Lemma fibZ_succ_pos n : (1 <= fibZ (S n))%Z.
Proof.
  unfold fibZ. pose proof (fib_pair_bounds n) as H. cbn.
  destruct (fib_pair n) as [a b]. cbn in *. lia.
Qed.

(** The loop of [generate_fibonacci_ratios] builds the list of the first
    Fibonacci numbers. *)
Lemma fib_extend_spec k : forall m,
  fib_extend k (map fibZ (seq 0 (S (S m))))
  = map fibZ (seq 0 (S (S (m + k)))).
Proof.
  induction k as [| k IH]; intro m.
  - rewrite Nat.add_0_r. reflexivity.
  - cbn [fib_extend].
    assert (E : (map fibZ (seq 0 (S (S m)))
                 ++ [last (map fibZ (seq 0 (S (S m)))) 0
                     + last (removelast (map fibZ (seq 0 (S (S m))))) 0])%Z
                = map fibZ (seq 0 (S (S (S m))))).
    { rewrite (seq_S (S (S m))), map_app. cbn [map Nat.add]. f_equal.
      rewrite (seq_S (S m)), map_app. cbn [map Nat.add].
      rewrite last_last, removelast_last.
      rewrite (seq_S m), map_app. cbn [map Nat.add].
      rewrite last_last. rewrite fibZ_step. reflexivity. }
    rewrite E, IH. do 3 f_equal. lia.
Qed.

Lemma fib_list k :
  fib_extend k [0; 1]%Z = map fibZ (seq 0 (S (S k))).
Proof. exact (fib_extend_spec k 0). Qed.

Lemma list_max_snoc l y :
  l <> [] -> list_max (l ++ [y]) = Z.max (list_max l) y.
Proof.
  destruct l as [| x rest]; [congruence |]. intros _.
  cbn [list_max app]. rewrite fold_left_app. reflexivity.
Qed.

Lemma list_max_fib n : list_max (map fibZ (seq 0 (S n))) = fibZ n.
Proof.
  induction n as [| n IH]; [reflexivity |].
  rewrite seq_S, map_app. cbn [map Nat.add].
  rewrite list_max_snoc by discriminate.
  rewrite IH. pose proof (fibZ_mono n). lia.
Qed.

(** The ratios are the Fibonacci numbers over the largest of them. *)
Lemma fibonacci_ratios_spec n :
  let k := Z.to_nat (n - 2) in
  generate_fibonacci_ratios n
  = map (fun i => inject_Z (fibZ i) / inject_Z (fibZ (S k))) (seq 0 (S (S k))).
Proof.
  cbv zeta. unfold generate_fibonacci_ratios.
  rewrite fib_list, list_max_fib, map_map. reflexivity.
Qed.

(** The fibonacci grid: level [i] is [lower + fib i / fib (k+1) * range]. *)
Definition fibonacci_grid (lower upper : Q) (n : Z) : list Q :=
  map (fun ratio => lower + ratio * (upper - lower)) (generate_fibonacci_ratios n).

Lemma fibonacci_grid_nth lower upper n i :
  let k := Z.to_nat (n - 2) in
  (i < S (S k))%nat ->
  nth i (fibonacci_grid lower upper n) 0
  = lower + inject_Z (fibZ i) / inject_Z (fibZ (S k)) * (upper - lower).
Proof.
  cbv zeta. intro Hi. unfold fibonacci_grid.
  rewrite fibonacci_ratios_spec. cbv zeta. rewrite map_map.
  rewrite GridFacts.nth_map_seq by exact Hi. reflexivity.
Qed.

Lemma fibonacci_grid_length lower upper n :
  List.length (fibonacci_grid lower upper n) = S (S (Z.to_nat (n - 2))).
Proof.
  unfold fibonacci_grid. rewrite fibonacci_ratios_spec. cbv zeta.
  rewrite !length_map, length_seq. reflexivity.
Qed.

Lemma fibonacci_grid_nondecreasing lower upper n :
  lower < upper -> GridFacts.nondecreasing (fibonacci_grid lower upper n).
Proof.
  intros Hlt i Hi. rewrite fibonacci_grid_length in Hi.
  rewrite !fibonacci_grid_nth by lia.
  set (M := inject_Z (fibZ (S (Z.to_nat (n - 2))))).
  assert (HM : 0 < M).
  { apply GridFacts.inject_Z_pos. pose proof (fibZ_succ_pos (Z.to_nat (n - 2))). lia. }
  assert (Hab : inject_Z (fibZ i) <= inject_Z (fibZ (S i))).
  { rewrite <- Zle_Qle. apply fibZ_mono. }
  assert (Hr : inject_Z (fibZ i) / M <= inject_Z (fibZ (S i)) / M).
  { unfold Qdiv. apply Qmult_le_compat_r; [exact Hab |].
    apply Qlt_le_weak, Qinv_lt_0_compat, HM. }
  assert (Hrange : 0 <= upper - lower) by lra.
  pose proof (Qmult_le_compat_r _ _ _ Hr Hrange). lra.
Qed.

(** With three levels or more, the levels at index 1 and 2 are the same
    price: the Fibonacci list starts 0, 1, 1. *)
Lemma fibonacci_grid_repeats lower upper n :
  (3 <= n)%Z ->
  nth 1 (fibonacci_grid lower upper n) 0 = nth 2 (fibonacci_grid lower upper n) 0.
Proof.
  intro Hn. rewrite !fibonacci_grid_nth by lia. reflexivity.
Qed.

End FibFacts.

(** ** The geometric grid, over the reals *)

Module GeomFacts.
Import GeomSpace.

Local Open Scope R_scope.

(** Each level strictly above the previous one. *)
Definition increasing_real (l : list R) : Prop :=
  forall i, (S i < List.length l)%nat -> nth i l 0 < nth (S i) l 0.

Lemma length_set_first {A : Type} (y : list A) v :
  List.length (Np.set_first y v) = List.length y.
Proof. destruct y; reflexivity. Qed.

Lemma nth_set_first_0 {A : Type} (y : list A) v d :
  y <> [] -> nth 0 (Np.set_first y v) d = v.
Proof. destruct y; [congruence | reflexivity]. Qed.

Lemma nth_set_first_S {A : Type} (y : list A) v d i :
  nth (S i) (Np.set_first y v) d = nth (S i) y d.
Proof. destruct y; reflexivity. Qed.

(** The samples of the real [linspace] for [num >= 2]. *)
Lemma real_linspace_samples start stop num :
  (2 <= num)%Z ->
  exists l,
    linspace start stop num = Ok l
    /\ List.length l = Z.to_nat num
    /\ forall i, (i < Z.to_nat num)%nat ->
         nth i l 0 = start + IZR (Z.of_nat i) * ((stop - start) / IZR (num - 1)).
Proof.
  intro Hn. unfold linspace, Np.arange.
  assert (E1 : (num <? 0)%Z = false) by (apply Z.ltb_ge; lia).
  assert (E2 : (0 <? num - 1)%Z = true) by (apply Z.ltb_lt; lia).
  assert (E3 : (1 <? num)%Z = true) by (apply Z.ltb_lt; lia).
  rewrite E1, E2, E3.
  assert (Hd : IZR (num - 1) <> 0) by (apply not_0_IZR; lia).
  set (n := Z.to_nat num).
  set (step := (stop - start) / IZR (num - 1)).
  assert (Hy : (if Req_dec_T step 0
                then map (fun v => v / IZR (num - 1) * (stop - start))
                         (map IZR (map Z.of_nat (seq 0 n)))
                else map (fun v => v * step) (map IZR (map Z.of_nat (seq 0 n))))
               = map (fun i => IZR (Z.of_nat i) * step) (seq 0 n)).
  { destruct (Req_dec_T step 0); rewrite !map_map; [| reflexivity].
    apply map_ext. intro i. unfold step. field. exact Hd. }
  rewrite Hy, map_map.
  set (y := map (fun i => IZR (Z.of_nat i) * step + start) (seq 0 n)).
  assert (Hlen : List.length y = n)
    by (unfold y; rewrite length_map, length_seq; reflexivity).
  assert (Hne : y <> []).
  { intro E. rewrite E in Hlen. cbn in Hlen. unfold n in Hlen. lia. }
  eexists. split; [reflexivity |].
  split; [rewrite GridFacts.length_set_last; exact Hlen |].
  intros i Hi.
  destruct (Nat.eq_dec i (n - 1)) as [-> | Hlt].
  - rewrite <- Hlen at 1. rewrite GridFacts.nth_set_last_last by exact Hne.
    replace (Z.of_nat (n - 1)) with (num - 1)%Z by (unfold n; lia).
    fold step. unfold step. field. exact Hd.
  - rewrite GridFacts.nth_set_last_before by (rewrite Hlen; lia).
    unfold y. rewrite GridFacts.nth_map_seq by exact Hi. ring.
Qed.

Lemma log10_increasing x y : 0 < x -> x < y -> log10 x < log10 y.
Proof.
  intros Hx Hxy. unfold log10, Rlog, Rdiv.
  apply Rmult_lt_compat_r.
  - apply Rinv_0_lt_compat. rewrite <- ln_1. apply ln_increasing; lra.
  - apply ln_increasing; assumption.
Qed.

Lemma power_log10 x : 0 < x -> Rpower 10 (log10 x) = x.
Proof. intro Hx. unfold log10. apply Rpower_Rlog; lra. Qed.

(** For positive endpoints and [num >= 2], [geomspace] returns [num]
    samples, the i-th one being 10 to the power of the i-th sample of
    [linspace(log10 start, log10 stop, num)]; overwriting the two ends by
    [start] and [stop] changes nothing over the reals. *)
Lemma geomspace_samples start stop num :
  0 < start -> 0 < stop -> (2 <= num)%Z ->
  exists g,
    geomspace start stop num = Ok g
    /\ List.length g = Z.to_nat num
    /\ forall i, (i < Z.to_nat num)%nat ->
         nth i g 0
         = Rpower 10 (log10 start + IZR (Z.of_nat i)
                        * ((log10 stop - log10 start) / IZR (num - 1))).
Proof.
  intros Hs Ht Hn. unfold geomspace, logspace.
  destruct (Req_dec_T start 0) as [E | _]; [lra |].
  destruct (Req_dec_T stop 0) as [E | _]; [lra |].
  destruct (real_linspace_samples (log10 start) (log10 stop) num Hn)
    as (l & -> & Hlen & Hnth).
  assert (E0 : (0 <? num)%Z = true) by (apply Z.ltb_lt; lia).
  assert (E3 : (1 <? num)%Z = true) by (apply Z.ltb_lt; lia).
  rewrite E0, E3.
  set (n := Z.to_nat num) in *.
  set (r := map (Rpower 10) l).
  assert (Hr : List.length r = n) by (unfold r; rewrite length_map; exact Hlen).
  assert (Hr1 : List.length (Np.set_first r start) = n)
    by (rewrite length_set_first; exact Hr).
  assert (Hne : r <> []).
  { intro E. rewrite E in Hr. cbn in Hr. unfold n in Hr. lia. }
  assert (Hne1 : Np.set_first r start <> []).
  { intro E. rewrite E in Hr1. cbn in Hr1. unfold n in Hr1. lia. }
  assert (Hd : IZR (num - 1) <> 0) by (apply not_0_IZR; lia).
  eexists. split; [reflexivity |].
  split; [rewrite GridFacts.length_set_last; exact Hr1 |].
  intros i Hi.
  assert (Hri : nth i r 0 = Rpower 10 (nth i l 0)).
  { unfold r. rewrite (nth_indep _ 0 (Rpower 10 0)) by (rewrite length_map; lia).
    apply map_nth. }
  destruct (Nat.eq_dec i (n - 1)) as [-> | Hlt].
  - rewrite <- Hr1 at 1. rewrite GridFacts.nth_set_last_last by exact Hne1.
    replace (Z.of_nat (n - 1)) with (num - 1)%Z by (unfold n; lia).
    replace (log10 start + IZR (num - 1)
               * ((log10 stop - log10 start) / IZR (num - 1)))
      with (log10 stop) by (field; exact Hd).
    symmetry. apply power_log10, Ht.
  - rewrite GridFacts.nth_set_last_before by (rewrite Hr1; lia).
    destruct i as [| i].
    + rewrite nth_set_first_0 by exact Hne.
      replace (log10 start + IZR (Z.of_nat 0)
                 * ((log10 stop - log10 start) / IZR (num - 1)))
        with (log10 start) by (cbn; field; exact Hd).
      symmetry. apply power_log10, Hs.
    + rewrite nth_set_first_S, Hri, Hnth by exact Hi. reflexivity.
Qed.

Lemma geomspace_increasing start stop num g :
  0 < start -> start < stop -> (2 <= num)%Z ->
  geomspace start stop num = Ok g -> increasing_real g.
Proof.
  intros Hs Hlt Hn Eg.
  destruct (geomspace_samples start stop num Hs ltac:(lra) Hn)
    as (g' & Eg' & Hlen & Hnth).
  rewrite Eg in Eg'. injection Eg' as <-.
  intros i Hi. rewrite Hlen in Hi.
  rewrite (Hnth i) by lia. rewrite (Hnth (S i)) by lia.
  apply Rpower_lt; [lra |].
  rewrite Nat2Z.inj_succ, succ_IZR.
  assert (Hstep : 0 < (log10 stop - log10 start) / IZR (num - 1)).
  { apply Rdiv_lt_0_compat.
    - pose proof (log10_increasing start stop Hs Hlt). lra.
    - apply IZR_lt. lia. }
  lra.
Qed.

End GeomFacts.

(** ** The grid generator *)

Module GridSpec.
Import GridTradingSystem.

(** The three supported spacing modes. *)
Definition supported (grid_type : string) : Prop :=
  grid_type = "linear"%string \/ grid_type = "geometric"%string
  \/ grid_type = "fibonacci"%string.

Lemma calculate_grid_linear geom st cp lower upper count :
  calculate_grid geom st cp lower upper count "linear"
  = match Np.linspace lower upper count with
    | Ok g => Ok (g, set_grid_levels st g)
    | Raise e => Raise e
    end.
Proof. reflexivity. Qed.

Lemma calculate_grid_fibonacci geom st cp lower upper count :
  calculate_grid geom st cp lower upper count "fibonacci"
  = Ok (FibFacts.fibonacci_grid lower upper count,
        set_grid_levels st (FibFacts.fibonacci_grid lower upper count)).
Proof. reflexivity. Qed.

Lemma calculate_grid_unsupported geom st cp lower upper count grid_type :
  ~ supported grid_type ->
  calculate_grid geom st cp lower upper count grid_type = Ok (grid_levels st, st).
Proof.
  intro Hn. unfold calculate_grid.
  destruct (String.eqb_spec grid_type "linear") as [E | _];
    [exfalso; apply Hn; left; exact E |].
  destruct (String.eqb_spec grid_type "geometric") as [E | _];
    [exfalso; apply Hn; right; left; exact E |].
  destruct (String.eqb_spec grid_type "fibonacci") as [E | _];
    [exfalso; apply Hn; right; right; exact E |].
  reflexivity.
Qed.

(** Claim C5.  For [lower < upper] and [count >= 2] the linear grid (the
    one of [calculate_grid] and, being the same [np.linspace] call, the one
    of the backtest loop) has exactly [count] levels, consecutive levels
    differ by [(upper - lower) / (count - 1)], the first level is [lower]
    and the last one is [upper]. *)
Theorem linear_grid_is_arithmetic :
  forall geom st current_price lower upper count,
  lower < upper -> (2 <= count)%Z ->
  exists levels,
    calculate_grid geom st current_price lower upper count "linear"
    = Ok (levels, set_grid_levels st levels)
    /\ Np.linspace lower upper count = Ok levels
    /\ Z.of_nat (List.length levels) = count
    /\ (forall i, (S i < List.length levels)%nat ->
          nth (S i) levels 0 - nth i levels 0
          == (upper - lower) / inject_Z (count - 1))
    /\ nth 0 levels 0 == lower
    /\ last levels 0 = upper.
Proof.
  intros geom st cp lower upper count Hlt Hn.
  destruct (GridFacts.linspace_samples lower upper count Hn)
    as (l & El & Hlen & Hnth & Hlast).
  exists l. rewrite calculate_grid_linear, El.
  split; [reflexivity |]. split; [reflexivity |].
  split; [rewrite Hlen; lia |].
  split; [| split; [| exact Hlast]].
  - intros i Hi. rewrite Hlen in Hi.
    rewrite (Hnth i) by lia. rewrite (Hnth (S i)) by lia.
    rewrite GridFacts.inject_nat_succ. ring.
  - rewrite (Hnth 0%nat) by lia. cbn [Z.of_nat]. ring.
Qed.

(** The grid of the specification's example: 5 levels from 90 to 110. *)
Lemma linear_grid_is_arithmetic_witness :
  let geom := fun (_ _ : Q) (_ : Z) => Ok (@nil Q) in
  let st := init_system "simulation" [] in
  90 < 110 /\ (2 <= 5)%Z
  /\ exists levels,
       calculate_grid geom st 100 90 110 5 "linear"
       = Ok (levels, set_grid_levels st levels)
       /\ Np.linspace 90 110 5 = Ok levels
       /\ Z.of_nat (List.length levels) = 5%Z
       /\ (forall i, (S i < List.length levels)%nat ->
             nth (S i) levels 0 - nth i levels 0
             == (110 - 90) / inject_Z (5 - 1))
       /\ nth 0 levels 0 == 90
       /\ last levels 0 = 110.
Proof.
  intros geom st.
  assert (H1 : 90 < 110) by qdecide.
  assert (H2 : (2 <= 5)%Z) by lia.
  exact (conj H1 (conj H2 (linear_grid_is_arithmetic geom st 100 90 110 5 H1 H2))).
Defined.

Example linear_grid_90_110 :
  match Np.linspace 90 110 5 with
  | Ok levels => map Qred levels = [90; 95; 100; 105; 110]
  | Raise _ => False
  end.
Proof. vm_compute. reflexivity. Qed.

(** Claim C6, at a concrete input.  The fibonacci grid of 3 levels from 90
    to 110 is [90, 110, 110]: its last two levels are equal, so it is not
    strictly increasing. *)
Lemma fibonacci_grid_is_not_strictly_increasing :
  let geom := fun (_ _ : Q) (_ : Z) => Ok (@nil Q) in
  let st := init_system "simulation" [] in
  90 < 110 /\ (2 <= 3)%Z
  /\ exists levels st',
       calculate_grid geom st 100 90 110 3 "fibonacci" = Ok (levels, st')
       /\ map Qred levels = [90; 110; 110]
       /\ nth 1 levels 0 == nth 2 levels 0
       /\ ~ GridFacts.increasing levels.
Proof.
  cbv zeta. split; [qdecide |]. split; [lia |].
  eexists. eexists. split; [reflexivity |].
  split; [vm_compute; reflexivity |].
  split; [qdecide |].
  intro H. specialize (H 1%nat). revert H. vm_compute. intro H.
  specialize (H ltac:(lia)). discriminate H.
Qed.

(** Claim C6, as the code has it.  For [lower < upper] and [count >= 2]:
    the linear grid is strictly increasing; the fibonacci grid is
    non-decreasing, strictly increasing when [count = 2], and has equal
    levels at index 1 and 2 when [count >= 3]; the geometric grid, taken
    over the reals with a positive lower bound, is strictly increasing. *)
Theorem grid_levels_are_monotone :
  forall geom st current_price lower upper count,
  lower < upper -> (2 <= count)%Z ->
  (exists levels st',
     calculate_grid geom st current_price lower upper count "linear"
     = Ok (levels, st')
     /\ GridFacts.increasing levels)
  /\ (exists levels st',
     calculate_grid geom st current_price lower upper count "fibonacci"
     = Ok (levels, st')
     /\ GridFacts.nondecreasing levels
     /\ (count = 2%Z -> GridFacts.increasing levels)
     /\ ((3 <= count)%Z -> nth 1 levels 0 = nth 2 levels 0))
  /\ (forall lo up : R,
     (0 < lo)%R -> (lo < up)%R ->
     exists g, GeomSpace.geomspace lo up count = Ok g /\ GeomFacts.increasing_real g).
Proof.
  intros geom st cp lower upper count Hlt Hn. repeat apply conj.
  - destruct (GridFacts.linspace_samples lower upper count Hn) as (l & El & _).
    exists l, (set_grid_levels st l). rewrite calculate_grid_linear, El.
    split; [reflexivity |].
    apply (GridFacts.linspace_increasing lower upper count); assumption.
  - eexists. eexists. split; [apply calculate_grid_fibonacci |].
    split; [apply FibFacts.fibonacci_grid_nondecreasing; exact Hlt |].
    split; [| apply FibFacts.fibonacci_grid_repeats].
    intros -> i Hi. rewrite FibFacts.fibonacci_grid_length in Hi. cbn in Hi.
    assert (i = 0%nat) as -> by lia.
    rewrite !FibFacts.fibonacci_grid_nth by (cbn; lia).
    cbn. field_simplify. lra.
  - intros lo up Hlo Hup.
    destruct (GeomFacts.geomspace_samples lo up count Hlo ltac:(lra) Hn)
      as (g & Eg & _).
    exists g. split; [exact Eg |].
    apply (GeomFacts.geomspace_increasing lo up count); assumption.
Qed.

Lemma grid_levels_are_monotone_witness :
  let geom := fun (_ _ : Q) (_ : Z) => Ok (@nil Q) in
  let st := init_system "simulation" [] in
  90 < 110 /\ (2 <= 3)%Z
  /\ (exists levels st',
        calculate_grid geom st 100 90 110 3 "fibonacci" = Ok (levels, st')
        /\ GridFacts.nondecreasing levels
        /\ (3%Z = 2%Z -> GridFacts.increasing levels)
        /\ ((3 <= 3)%Z -> nth 1 levels 0 = nth 2 levels 0))
  /\ ((0 < 90)%R /\ (90 < 110)%R
      /\ exists g, GeomSpace.geomspace 90 110 3 = Ok g /\ GeomFacts.increasing_real g).
Proof.
  intros geom st.
  assert (H1 : 90 < 110) by qdecide.
  assert (H2 : (2 <= 3)%Z) by lia.
  assert (R1 : (0 < 90)%R) by lra.
  assert (R2 : (90 < 110)%R) by lra.
  destruct (grid_levels_are_monotone geom st 100 90 110 3 H1 H2)
    as (_ & Hfib & Hgeo).
  exact (conj H1 (conj H2 (conj Hfib (conj R1 (conj R2 (Hgeo 90%R 110%R R1 R2)))))).
Defined.

End GridSpec.

(** ** An unsupported spacing mode *)

Module ModeSpec.
Import GridTradingSystem.

Section Facts.

Variable now : nat -> Z.
Variable order_size : Q.

Lemma sim_bar_no_levels st curve ib :
  grid_levels st = [] ->
  let r := sim_bar now order_size (st, curve) ib in
  grid_levels (fst r) = [] /\ orders (fst r) = orders st
  /\ trades (fst r) = trades st /\ List.length (snd r) = S (List.length curve).
Proof.
  intro Hg. destruct ib as [i b]. unfold sim_bar.
  cbn [set_sim_cursor grid_levels]. rewrite Hg. cbn.
  rewrite length_app. cbn. repeat split; try assumption. lia.
Qed.

Lemma sim_bars_no_levels bars : forall st curve,
  grid_levels st = [] ->
  let r := fold_left (sim_bar now order_size) bars (st, curve) in
  orders (fst r) = orders st /\ trades (fst r) = trades st
  /\ List.length (snd r) = (List.length curve + List.length bars)%nat.
Proof.
  induction bars as [| ib bars IH]; intros st curve Hg.
  - cbn. repeat split. lia.
  - cbn [fold_left].
    destruct (sim_bar_no_levels st curve ib Hg) as (G & O & T & L).
    destruct (sim_bar now order_size (st, curve) ib) as [st1 curve1].
    cbn [fst snd] in *.
    destruct (IH st1 curve1 G) as (O' & T' & L').
    cbv zeta. rewrite O', T', L', O, T, L. cbn. repeat split. lia.
Qed.

End Facts.

(** Claim C7, at a concrete input.  On a fresh system the mode
    ['exponential'] makes [calculate_grid] return the stored grid, the empty
    list, and raise nothing. *)
Lemma unsupported_mode_raises_nothing :
  let geom := fun (_ _ : Q) (_ : Z) => Ok (@nil Q) in
  let st := init_system "simulation" [mkBar 0 100 100 100 100 1] in
  ~ GridSpec.supported "exponential"
  /\ calculate_grid geom st 100 90 110 5 "exponential" = Ok ([], st)
  /\ (forall e, calculate_grid geom st 100 90 110 5 "exponential" <> Raise e)
  /\ exists r st',
       run_simulation (fun _ => 0%Z) geom st
         (mkParams (1 # 10) 5 "exponential" 100) 24
       = Ok (r, st')
       /\ List.length (r_equity_curve r) = 1%nat /\ r_trades r = [].
Proof.
  cbv zeta. split.
  - intros [H | [H | H]]; discriminate H.
  - split; [reflexivity |]. split; [intros e H; discriminate H |].
    eexists. eexists. split; [reflexivity |]. split; reflexivity.
Qed.

(** Claim C7, as the code has it.  A spacing mode outside linear,
    geometric and fibonacci makes [calculate_grid] raise nothing: it returns
    the grid already stored and leaves the system as it was.
    [run_simulation] then runs over that grid and returns its results; on a
    system whose stored grid is empty it places no order, logs no trade and
    records one equity sample per bar. *)
Theorem unsupported_mode_falls_back_to_stored_grid :
  forall (now : nat -> Z) geom st grid_type,
  ~ GridSpec.supported grid_type ->
  (forall current_price lower upper count,
     calculate_grid geom st current_price lower upper count grid_type
     = Ok (grid_levels st, st))
  /\ (forall b data range count order_size hours,
     sim_data st = b :: data ->
     exists r st',
       run_simulation now geom st (mkParams range count grid_type order_size) hours
       = Ok (r, st')
       /\ (grid_levels st = [] ->
           orders st' = orders st /\ r_trades r = trades st
           /\ List.length (r_equity_curve r)
              = Nat.min (List.length (sim_data st)) (Z.to_nat (hours * 60)))).
Proof.
  intros now geom st grid_type Hn. split.
  - intros. apply GridSpec.calculate_grid_unsupported, Hn.
  - intros b data range count order_size hours Hd.
    unfold run_simulation. rewrite Hd. cbn [GridTradingSystem.grid_type
      GridTradingSystem.num_grids GridTradingSystem.grid_range_pct
      GridTradingSystem.order_size].
    rewrite GridSpec.calculate_grid_unsupported by exact Hn.
    rewrite Hd.
    set (n := Nat.min (List.length (b :: data)) (Z.to_nat (hours * 60))).
    set (bars := combine (seq 0 n) (firstn n (b :: data))).
    pose proof (sim_bars_no_levels now order_size bars st []) as Hloop.
    destruct (fold_left (sim_bar now order_size) bars (st, [])) as [st1 curve1].
    eexists. eexists. split; [reflexivity |].
    intro Hg. destruct (Hloop Hg) as (O & T & L). cbn [fst snd] in *.
    cbn [r_trades r_equity_curve]. repeat split; try assumption.
    rewrite L. cbn [List.length Nat.add]. unfold bars.
    rewrite length_combine, length_seq, length_firstn. unfold n. lia.
Qed.

Lemma unsupported_mode_falls_back_to_stored_grid_witness :
  let now := fun _ : nat => 0%Z in
  let geom := fun (_ _ : Q) (_ : Z) => Ok (@nil Q) in
  let st := init_system "simulation" [mkBar 0 100 100 100 100 1] in
  ~ GridSpec.supported "exponential"
  /\ calculate_grid geom st 100 90 110 5 "exponential" = Ok (grid_levels st, st)
  /\ sim_data st = [mkBar 0 100 100 100 100 1]
  /\ exists r st',
       run_simulation now geom st (mkParams (1 # 10) 5 "exponential" 100) 24
       = Ok (r, st')
       /\ (grid_levels st = [] ->
           orders st' = orders st /\ r_trades r = trades st
           /\ List.length (r_equity_curve r)
              = Nat.min (List.length (sim_data st)) (Z.to_nat (24 * 60))).
Proof.
  intros now geom st.
  assert (N : ~ GridSpec.supported "exponential").
  { intros [H | [H | H]]; discriminate H. }
  assert (D : sim_data st = [mkBar 0 100 100 100 100 1]) by reflexivity.
  destruct (unsupported_mode_falls_back_to_stored_grid now geom st
              "exponential"%string N) as [H1 H2].
  exact (conj N (conj (H1 100 90 110 5%Z)
           (conj D (H2 (mkBar 0 100 100 100 100 1) [] (1 # 10) 5%Z 100 24%Z D)))).
Defined.

End ModeSpec.

(** ** The win rate *)

Module MetricsSpec.

(** The win rate in the specification's words: the trades with a positive
    realized profit over the trades for which a realized profit is defined,
    the sell trades, times 100. *)
Definition spec_win_rate_pct (trades : list Backtester.Trade) : Q :=
  (inject_Z (Z.of_nat (List.length (filter Backtester.profit_pos trades)))
     / inject_Z (Z.of_nat (List.length
                  (filter (fun t => negb (Backtester.is_buy t)) trades)))) * 100.

(** Two bars, closes 100 and 102, on a 5-level grid of half-width 0.1%. *)
Definition two_bars : list Bar :=
  [mkBar 0 100 100 100 100 1; mkBar 1 102 102 102 102 1].

Definition narrow_grid : Backtester.Params :=
  Backtester.mkParams (Some (1 # 1000)) (Some 5%Z) (Some 100) None.

(** Claim C8, at a concrete input.  The backtest of [two_bars] records
    seven trades, six buys and one sell, the sell being the only trade with
    a positive profit.  The code reports a win rate of 100/7 percent, one
    winner over all seven trades; over the one sell trade the rate would be
    100 percent. *)
Lemma win_rate_counts_buys_in_the_denominator :
  match Backtester.backtest_grid_strategy 10000 two_bars narrow_grid with
  | Ok r =>
    List.length (Backtester.r_trades r) = 7%nat
    /\ List.length (filter Backtester.is_buy (Backtester.r_trades r)) = 6%nat
    /\ List.length (filter Backtester.profit_pos (Backtester.r_trades r)) = 1%nat
    /\ spec_win_rate_pct (Backtester.r_trades r) == 100
    /\ match Backtester.r_metrics r with
       | Some m =>
         Backtester.win_rate_pct m == 100 # 7
         /\ ~ Backtester.win_rate_pct m == spec_win_rate_pct (Backtester.r_trades r)
       | None => False
       end
  | Raise _ => False
  end.
Proof.
  vm_compute. repeat split; try reflexivity; intro H; discriminate H.
Qed.

(** Claim C8, as the code has it.  With at least two equity samples and a
    non-empty trade list in which some trade carries a profit,
    [win_rate_pct] is the number of trades with profit > 0 over the number
    of all trades of the list, times 100; for an empty list it is 0.  The
    [calculate_win_rate] of the simulation divides by the number of all
    trades in the same way. *)
Theorem win_rate_is_winners_over_all_trades :
  (forall equity_curve trades,
     (2 <= List.length equity_curve)%nat ->
     exists m,
       Backtester.calculate_metrics equity_curve trades = Some m
       /\ Backtester.total_trades m = List.length trades
       /\ (trades = [] -> Backtester.win_rate_pct m = 0)
       /\ (existsb Backtester.has_profit trades = true ->
           Backtester.win_rate_pct m
           = inject_Z (Z.of_nat (List.length (filter Backtester.profit_pos trades)))
             / inject_Z (Z.of_nat (List.length trades)) * 100))
  /\ (forall st,
     trades st <> [] ->
     GridTradingSystem.calculate_win_rate st
     = inject_Z (Z.of_nat (List.length
         (filter (fun t => Num.gtb (GridTradingSystem.profit_or_zero t) 0)
                 (trades st))))
       / inject_Z (Z.of_nat (List.length (trades st))) * 100).
Proof.
  split.
  - intros curve trades Hc. unfold Backtester.calculate_metrics.
    assert (E : (List.length curve <? 2)%nat = false) by (apply Nat.ltb_ge; exact Hc).
    rewrite E.
    destruct trades as [| t trades].
    + eexists. split; [reflexivity |]. split; [reflexivity |].
      split; [reflexivity |]. intro H. discriminate H.
    + destruct (existsb Backtester.has_profit (t :: trades)) eqn:Hp.
      * eexists. split; [reflexivity |]. split; [reflexivity |].
        split; [intro H; discriminate H |]. intros _. reflexivity.
      * eexists. split; [reflexivity |]. split; [reflexivity |].
        split; [intro H; discriminate H |]. intro H. discriminate H.
  - intros st Hne. unfold GridTradingSystem.calculate_win_rate.
    destruct (trades st); [congruence | reflexivity].
Qed.

Lemma win_rate_is_winners_over_all_trades_witness :
  let curve := [mkEquitySample 0 10000 100;
                mkEquitySample 1 10010 102] in
  let ts := [Backtester.mkTrade 0 "buy" 100 1 (1 # 10) (Some 0);
             Backtester.mkTrade 1 "sell" 102 1 (1 # 10) (Some 2)] in
  (2 <= List.length curve)%nat
  /\ exists m,
       Backtester.calculate_metrics curve ts = Some m
       /\ Backtester.total_trades m = List.length ts
       /\ (ts = [] -> Backtester.win_rate_pct m = 0)
       /\ (existsb Backtester.has_profit ts = true ->
           Backtester.win_rate_pct m
           = inject_Z (Z.of_nat (List.length (filter Backtester.profit_pos ts)))
             / inject_Z (Z.of_nat (List.length ts)) * 100).
Proof.
  intros curve ts.
  assert (H : (2 <= List.length curve)%nat) by (cbn; lia).
  exact (conj H (proj1 win_rate_is_winners_over_all_trades curve ts H)).
Defined.

End MetricsSpec.

(** ** Reproducibility of the synthetic market data *)

Module MarketDataSpec.
Import MarketData.

(** The frame a run returns, if it returns one. *)
Definition frame_of {rng : Type} (r : result (list Bar * rng)) : option (list Bar) :=
  match r with
  | Ok (f, _) => Some f
  | Raise _ => None
  end.

(** The price and volume fields of a bar. *)
Definition ohlcv (b : Bar) : Q * Q * Q * Q * Q :=
  (open b, high b, low b, close b, volume b).

(** A bar with its timestamp moved by [d]. *)
Definition shift (d : Z) (b : Bar) : Bar :=
  mkBar (timestamp b + d) (open b) (high b) (low b) (close b) (volume b).

Lemma frame_shift d : forall dates prices volume,
  frame (map (fun t => (t + d)%Z) dates) prices volume
  = map (shift d) (frame dates prices volume).
Proof.
  induction dates as [| t dates IH]; intros [| p prices] [| v volume];
    cbn; try reflexivity.
  rewrite IH. reflexivity.
Qed.

Lemma date_range_shift c1 c2 n :
  date_range c2 n = map (fun t => (t + (c2 - c1))%Z) (date_range c1 n).
Proof.
  unfold date_range. rewrite map_map. apply map_ext. intro i. lia.
Qed.

Lemma length_date_range c n : List.length (date_range c n) = n.
Proof. unfold date_range. rewrite length_map, length_seq. reflexivity. Qed.

Lemma shift_0 f : map (shift 0) f = f.
Proof.
  induction f as [| b f IH]; [reflexivity |].
  cbn. rewrite IH. f_equal. destruct b. unfold shift. cbn. f_equal. lia.
Qed.

Lemma ohlcv_shift d f : map ohlcv (map (shift d) f) = map ohlcv f.
Proof. rewrite map_map. apply map_ext. intro b. reflexivity. Qed.

Section Runs.

Variable rng : Type.
Variable np_random_seed : Z -> rng.
Variable np_random_normal : rng -> Q -> Q -> nat -> list Q * rng.
Variable np_random_uniform : rng -> Q -> Q -> nat -> list Q * rng.
Variable np_exp : Q -> Q.
Variable np_sqrt : Q -> Q.

Let run := generate_market_data rng np_random_seed np_random_normal
             np_random_uniform np_exp np_sqrt.

(** Two runs, whatever the state of the generator and the clock reading at
    each: the second frame is the first one with every timestamp moved by
    the difference of the clock readings. *)
Lemma runs_differ_by_clock g1 g2 clock1 clock2 days volatility :
  frame_of (run g2 clock2 days volatility)
  = option_map (map (shift (clock2 - clock1)))
               (frame_of (run g1 clock1 days volatility)).
Proof.
  unfold run, generate_market_data.
  destruct (days <? 0)%Z; [reflexivity |].
  rewrite !length_date_range.
  destruct (np_random_normal (np_random_seed 42) 0 volatility
              (Z.to_nat (days * 24 * 60))) as [normal g].
  destruct (np_random_uniform g 100 1000 (Z.to_nat (days * 24 * 60)))
    as [volume g'].
  cbn [frame_of option_map]. f_equal.
  rewrite (date_range_shift clock1 clock2). apply frame_shift.
Qed.

End Runs.

(** Claim C9, at a concrete input.  Two runs with the same parameters (one
    day, volatility 0.02) and the same seed, the second one started one
    minute after the first: the frames differ, and already their first
    timestamps do.  (The generator draws are fixed to constants here; the
    timestamps do not depend on them.) *)
Lemma later_run_has_other_timestamps :
  let run :=
    generate_market_data unit (fun _ => tt)
      (fun g _ _ n => (repeat 0 n, g)) (fun g lo _ n => (repeat lo n, g))
      (fun _ => 1) (fun _ => 1) in
  match frame_of (run tt 0%Z 1%Z (2 # 100)), frame_of (run tt minute 1%Z (2 # 100)) with
  | Some f1, Some f2 =>
    List.length f1 = 1440%nat /\ List.length f2 = 1440%nat
    /\ map ohlcv f1 = map ohlcv f2
    /\ option_map timestamp (hd_error f1) <> option_map timestamp (hd_error f2)
    /\ f1 <> f2
  | _, _ => False
  end.
Proof.
  vm_compute. repeat split; intro H; discriminate H.
Qed.

(** Claim C9, as the code has it.  [generate_market_data] seeds the
    generator itself (seed 42), so two runs with the same [days] and
    [volatility] yield bars equal in open, high, low, close and volume,
    whatever the state of the generator before each; the timestamps end at
    the wall-clock time of the call, so the second frame is the first one
    with every timestamp moved by the time between the two calls, and the
    frames are identical in every field when both runs read the same
    clock value. *)
Theorem market_data_is_reproducible_up_to_clock :
  forall (rng : Type) np_random_seed np_random_normal np_random_uniform
         np_exp np_sqrt (g1 g2 : rng) clock1 clock2 days volatility,
  let run := generate_market_data rng np_random_seed np_random_normal
               np_random_uniform np_exp np_sqrt in
  let r1 := frame_of (run g1 clock1 days volatility) in
  let r2 := frame_of (run g2 clock2 days volatility) in
  option_map (map ohlcv) r1 = option_map (map ohlcv) r2
  /\ r2 = option_map (map (shift (clock2 - clock1))) r1
  /\ (clock1 = clock2 -> r1 = r2).
Proof.
  intros rng seed normal uniform exp sqrt g1 g2 clock1 clock2 days vol run r1 r2.
  pose proof (runs_differ_by_clock rng seed normal uniform exp sqrt
                g1 g2 clock1 clock2 days vol) as H.
  fold run in H. fold r1 r2 in H.
  split; [| split; [exact H |]].
  - rewrite H. destruct r1 as [f |]; [| reflexivity].
    cbn. rewrite ohlcv_shift. reflexivity.
  - intros ->. rewrite H, Z.sub_diag.
    destruct r1 as [f |]; [| reflexivity]. cbn. rewrite shift_0. reflexivity.
Qed.

(** Two runs at the same clock reading, the generator left in different
    states before each (a counter that every draw advances). *)
Lemma market_data_is_reproducible_up_to_clock_witness :
  let run :=
    generate_market_data nat Z.to_nat
      (fun g _ _ n => (repeat (inject_Z (Z.of_nat g)) n, S g))
      (fun g lo _ n => (repeat (lo + inject_Z (Z.of_nat g)) n, S g))
      (fun x => 1 + x) (fun _ => 1) in
  minute = minute
  /\ frame_of (run 0%nat minute 1%Z (2 # 100))
     = frame_of (run 7%nat minute 1%Z (2 # 100)).
Proof.
  intro run.
  assert (H : minute = minute) by reflexivity.
  exact (conj H
    (proj2 (proj2
       (market_data_is_reproducible_up_to_clock nat Z.to_nat
          (fun g _ _ n => (repeat (inject_Z (Z.of_nat g)) n, S g))
          (fun g lo _ n => (repeat (lo + inject_Z (Z.of_nat g)) n, S g))
          (fun x => 1 + x) (fun _ => 1)
          0%nat 7%nat minute minute 1%Z (2 # 100))) H)).
Defined.

End MarketDataSpec.

(** * Further properties of the engine *)

(** ** Where the grid levels lie *)

Module GridBounds.
Import GridTradingSystem.

Lemma last_as_nth {A : Type} (l : list A) d :
  last l d = nth (List.length l - 1) l d.
Proof.
  induction l as [| x [| y l] IH]; try reflexivity.
  change (last (y :: l) d = nth (List.length (y :: l)) (x :: y :: l) d).
  rewrite IH. cbn [List.length].
  replace (S (List.length l) - 1)%nat with (List.length l) by lia. reflexivity.
Qed.

Lemma Forall_of_nth (P : Q -> Prop) (l : list Q) :
  (forall i, (i < List.length l)%nat -> P (nth i l 0)) -> Forall P l.
Proof.
  intro H. apply Forall_forall. intros x Hx.
  destruct (In_nth l x 0 Hx) as (i & Hi & <-). apply H, Hi.
Qed.

Lemma inject_nat_le i j :
  (i <= j)%nat -> inject_Z (Z.of_nat i) <= inject_Z (Z.of_nat j).
Proof. intro H. rewrite <- Zle_Qle. lia. Qed.

Lemma inject_nat_nonneg i : 0 <= inject_Z (Z.of_nat i).
Proof. change 0 with (inject_Z 0). rewrite <- Zle_Qle. lia. Qed.

Lemma fibZ_le i : forall j, (i <= j)%nat -> (FibFacts.fibZ i <= FibFacts.fibZ j)%Z.
Proof.
  induction j as [| j IH]; intro H.
  - assert (i = 0%nat) as -> by lia. lia.
  - destruct (Nat.eq_dec i (S j)) as [-> | Hne]; [lia |].
    pose proof (FibFacts.fibZ_mono j). specialize (IH ltac:(lia)). lia.
Qed.

(** The samples of [np.linspace] for a non-negative [num] all lie between
    [start] and [stop]. *)
Lemma linspace_within start stop num :
  start <= stop -> (0 <= num)%Z ->
  exists l,
    Np.linspace start stop num = Ok l
    /\ List.length l = Z.to_nat num
    /\ Forall (fun g => start <= g <= stop) l.
Proof.
  intros Hle Hn.
  destruct (Z.eq_dec num 0) as [-> | H0].
  { exists []. repeat split. constructor. }
  destruct (Z.eq_dec num 1) as [-> | H1].
  { exists [inject_Z 0 * (stop - start) + start].
    split; [reflexivity |]. split; [reflexivity |].
    constructor; [| constructor].
    assert (E : inject_Z 0 * (stop - start) + start == start) by ring.
    rewrite E. split; lra. }
  destruct (GridFacts.linspace_samples start stop num ltac:(lia))
    as (l & El & Hlen & Hnth & _).
  exists l. split; [exact El |]. split; [exact Hlen |].
  apply Forall_of_nth. intros i Hi. rewrite Hlen in Hi.
  rewrite (Hnth i Hi).
  set (step := (stop - start) / inject_Z (num - 1)).
  assert (Hd : 0 < inject_Z (num - 1)) by (apply GridFacts.inject_Z_pos; lia).
  assert (Hs : 0 <= step).
  { unfold step, Qdiv. apply Qmult_le_0_compat; [lra |].
    apply Qlt_le_weak, Qinv_lt_0_compat, Hd. }
  assert (Htop : inject_Z (num - 1) * step == stop - start).
  { unfold step. field. intro E. rewrite E in Hd. lra. }
  assert (Hi' : inject_Z (Z.of_nat i) <= inject_Z (num - 1)).
  { rewrite <- Zle_Qle. lia. }
  pose proof (inject_nat_nonneg i) as Hi0.
  pose proof (Qmult_le_compat_r _ _ _ Hi' Hs) as Hup.
  pose proof (Qmult_le_0_compat _ _ Hi0 Hs) as Hlo.
  split; lra.
Qed.

(** Property X1.
    The linear grid: a negative count raises [ValueError]; otherwise the
    grid has [count] levels (none for 0, the lower bound alone for 1), all
    between the bounds. *)
Theorem linear_grid_stays_within_bounds :
  forall geom st current_price lower upper count,
  lower <= upper ->
  ((count < 0)%Z ->
     exists msg,
       calculate_grid geom st current_price lower upper count "linear"
       = Raise (ValueError msg))
  /\ ((0 <= count)%Z ->
     exists levels,
       calculate_grid geom st current_price lower upper count "linear"
       = Ok (levels, set_grid_levels st levels)
       /\ List.length levels = Z.to_nat count
       /\ Forall (fun g => lower <= g <= upper) levels
       /\ (count = 1%Z -> exists g, levels = [g] /\ g == lower)).
Proof.
  intros geom st cp lower upper count Hle. split.
  - intro Hneg. rewrite GridSpec.calculate_grid_linear. unfold Np.linspace.
    assert (E : (count <? 0)%Z = true) by (apply Z.ltb_lt; exact Hneg).
    rewrite E. eexists. reflexivity.
  - intro Hn.
    destruct (linspace_within lower upper count Hle Hn) as (l & El & Hlen & Hall).
    exists l. rewrite GridSpec.calculate_grid_linear, El.
    split; [reflexivity |]. split; [exact Hlen |]. split; [exact Hall |].
    intros ->. cbn in El. injection El as <-.
    eexists. split; [reflexivity |]. ring.
Qed.

Lemma linear_grid_stays_within_bounds_witness :
  let geom := fun (_ _ : Q) (_ : Z) => Ok (@nil Q) in
  let st := init_system "simulation" [] in
  90 <= 110
  /\ ((-1 < 0)%Z /\
      exists msg,
        calculate_grid geom st 100 90 110 (-1) "linear" = Raise (ValueError msg))
  /\ ((0 <= 5)%Z /\
      exists levels,
        calculate_grid geom st 100 90 110 5 "linear"
        = Ok (levels, set_grid_levels st levels)
        /\ List.length levels = Z.to_nat 5
        /\ Forall (fun g => 90 <= g <= 110) levels
        /\ (5%Z = 1%Z -> exists g, levels = [g] /\ g == 90)).
Proof.
  intros geom st.
  assert (H : 90 <= 110) by qdecide.
  assert (N : (-1 < 0)%Z) by lia.
  assert (P : (0 <= 5)%Z) by lia.
  exact (conj H
    (conj (conj N (proj1 (linear_grid_stays_within_bounds geom st 100 90 110 (-1) H) N))
          (conj P (proj2 (linear_grid_stays_within_bounds geom st 100 90 110 5 H) P)))).
Defined.

(** Every fibonacci level lies between the bounds. *)
Lemma fibonacci_grid_within lower upper count :
  lower <= upper ->
  Forall (fun g => lower <= g <= upper) (FibFacts.fibonacci_grid lower upper count).
Proof.
  intro Hle.
  set (k := Z.to_nat (count - 2)).
  assert (HM : 0 < inject_Z (FibFacts.fibZ (S k))).
  { apply GridFacts.inject_Z_pos. pose proof (FibFacts.fibZ_succ_pos k). lia. }
  apply Forall_of_nth. intros i Hi.
  rewrite FibFacts.fibonacci_grid_length in Hi. fold k in Hi.
  rewrite FibFacts.fibonacci_grid_nth by exact Hi. fold k.
  set (M := inject_Z (FibFacts.fibZ (S k))) in *.
  set (r := inject_Z (FibFacts.fibZ i) / M).
  assert (Hr0 : 0 <= r).
  { unfold r, Qdiv. apply Qmult_le_0_compat.
    - change 0 with (inject_Z 0). rewrite <- Zle_Qle. apply FibFacts.fibZ_nonneg.
    - apply Qlt_le_weak, Qinv_lt_0_compat, HM. }
  assert (Hr1 : r <= 1).
  { unfold r. apply Qle_shift_div_r; [exact HM |].
    rewrite Qmult_1_l. unfold M. rewrite <- Zle_Qle. apply fibZ_le. lia. }
  assert (Hrange : 0 <= upper - lower) by lra.
  pose proof (Qmult_le_compat_r _ _ _ Hr1 Hrange) as Hup.
  pose proof (Qmult_le_0_compat _ _ Hr0 Hrange) as Hlo.
  split; lra.
Qed.



End GridBounds.

(** ** A whole backtest run *)

Module BacktestRun.
Import Backtester.

(** The parameters a run works with, defaults applied. *)
Definition range_of (ps : Params) : Q := get (p_grid_range_pct ps) (1 # 10).
Definition grids_of (ps : Params) : Z := get (p_num_grids ps) 20%Z.
Definition size_of (ps : Params) : Q := get (p_order_size ps) 100.
Definition fee_of (ps : Params) : Q := get (p_fee_rate ps) (1 # 1000).

(** The grid the loop computes for a bar. *)
Definition bar_grid (range : Q) (n : Z) (b : Bar) : result (list Q) :=
  Np.linspace (close b * (1 - range)) (close b * (1 + range)) n.

(** What the trade log says was paid and received, and bought and sold. *)
Definition cash_delta (t : Trade) : Q :=
  if is_buy t then - (t_amount t * t_price t + t_fee t)
  else t_amount t * t_price t - t_fee t.

Definition position_delta (t : Trade) : Q :=
  if is_buy t then t_amount t else - t_amount t.

Fixpoint cash_flow (ts : list Trade) : Q :=
  match ts with
  | [] => 0
  | t :: rest => cash_delta t + cash_flow rest
  end.

Fixpoint position_flow (ts : list Trade) : Q :=
  match ts with
  | [] => 0
  | t :: rest => position_delta t + position_flow rest
  end.

Lemma cash_flow_snoc ts t : cash_flow (ts ++ [t]) == cash_flow ts + cash_delta t.
Proof.
  induction ts as [| x ts IH]; cbn [app cash_flow]; [ring | rewrite IH; ring].
Qed.

Lemma position_flow_snoc ts t :
  position_flow (ts ++ [t]) == position_flow ts + position_delta t.
Proof.
  induction ts as [| x ts IH]; cbn [app position_flow]; [ring | rewrite IH; ring].
Qed.

Lemma linspace_ok start stop n :
  (0 <= n)%Z -> exists l, Np.linspace start stop n = Ok l.
Proof.
  intro Hn. unfold Np.linspace.
  assert (E : (n <? 0)%Z = false) by (apply Z.ltb_ge; exact Hn).
  rewrite E. eexists. reflexivity.
Qed.

Lemma linspace_negative start stop n :
  (n < 0)%Z -> exists msg, Np.linspace start stop n = Raise (ValueError msg).
Proof.
  intro Hn. unfold Np.linspace.
  assert (E : (n <? 0)%Z = true) by (apply Z.ltb_lt; exact Hn).
  rewrite E. eexists. reflexivity.
Qed.

Section Run.

Variables (range : Q) (n : Z) (size fee : Q).

Let level_step (b : Bar) := bt_level fee size (timestamp b) (close b).

Lemma bt_levels_preserve (Inv : Portfolio * list Trade -> Prop) b levels :
  (forall g acc, In g levels -> Inv acc -> Inv (level_step b acc g)) ->
  forall acc, Inv acc -> Inv (fold_left (level_step b) levels acc).
Proof.
  induction levels as [| g levels IH]; intros Hstep acc Hacc; [exact Hacc |].
  cbn [fold_left]. apply IH.
  - intros g' acc' Hin. apply Hstep. right. exact Hin.
  - apply Hstep; [left; reflexivity | exact Hacc].
Qed.

(** The loop over the bars, for a non-negative number of grids: it never
    raises, it adds one equity sample per bar, stamped and priced by the
    bar and valued at the portfolio the bar leaves, and it keeps every
    invariant that processing one level of a bar's grid keeps. *)
Lemma bt_bars_run (Inv : Portfolio * list Trade -> Prop) (data : list Bar) :
  (0 <= n)%Z ->
  (forall b levels g acc,
     In b data -> bar_grid range n b = Ok levels -> In g levels ->
     Inv acc -> Inv (level_step b acc g)) ->
  forall p ts curve,
  Inv (p, ts) ->
  exists p' ts' samples,
    fold_left (bt_bar range n size fee) data (Ok (p, ts, curve))
    = Ok (p', ts', curve ++ samples)
    /\ Inv (p', ts')
    /\ map e_timestamp samples = map timestamp data
    /\ map e_price samples = map close data
    /\ Forall (fun e => exists q qs b,
                 In b data /\ e_price e = close b /\ Inv (q, qs)
                 /\ e_value e = cash q + positions q * close b) samples
    /\ (forall d, samples <> [] ->
          e_value (last samples d)
          = cash p' + positions p' * e_price (last samples d)).
Proof.
  intro Hn. induction data as [| b data IH]; intros Hstep p ts curve Hinv.
  - exists p, ts, []. rewrite app_nil_r.
    repeat split; try assumption; try constructor.
    intros d H. congruence.
  - destruct (linspace_ok (close b * (1 - range)) (close b * (1 + range)) n Hn)
      as (levels & El).
    cbn [fold_left]. unfold bt_bar at 2. rewrite El.
    assert (Hlv : Inv (fold_left (level_step b) levels (p, ts))).
    { apply bt_levels_preserve; [| exact Hinv].
      intros g acc Hin. apply (Hstep b levels); [left; reflexivity | exact El | exact Hin]. }
    fold (level_step b).
    destruct (fold_left (level_step b) levels (p, ts)) as [p1 ts1].
    set (e := mkEquitySample (timestamp b) (cash p1 + positions p1 * close b)
                             (close b)).
    destruct (IH (fun b' levels' g acc Hb => Hstep b' levels' g acc (or_intror Hb))
                 p1 ts1 (curve ++ [e]) Hlv)
      as (p' & ts' & samples & Efold & Hinv' & Ht & Hp & Hall & Hlast).
    exists p', ts', (e :: samples).
    split; [rewrite Efold, <- app_assoc; reflexivity |].
    split; [exact Hinv' |].
    split; [cbn; rewrite Ht; reflexivity |].
    split; [cbn; rewrite Hp; reflexivity |].
    split.
    + constructor.
      * exists p1, ts1, b. repeat split; try assumption. left. reflexivity.
      * eapply Forall_impl; [| exact Hall].
        intros x (q & qs & b' & Hb' & H1 & H2 & H3).
        exists q, qs, b'. repeat split; try assumption. right. exact Hb'.
    + intros d _. destruct samples as [| e' samples'].
      * cbn. destruct data as [| b' data'].
        -- cbn in Efold. injection Efold as -> ->. reflexivity.
        -- discriminate Hp.
      * change (last (e :: e' :: samples') d) with (last (e' :: samples') d).
        apply Hlast. discriminate.
Qed.

End Run.

End BacktestRun.

Module BacktestRunSpec.
Import Backtester BacktestRun.

Lemma bt_bars_raise range n size fee e data :
  fold_left (bt_bar range n size fee) data (Raise e) = Raise e.
Proof. induction data as [| b data IH]; [reflexivity | exact IH]. Qed.

Lemma bt_level_keeps_total_value fee size ts c acc g :
  total_value (fst (bt_level fee size ts c acc g)) = total_value (fst acc).
Proof.
  destruct acc as [p trades]. unfold bt_level. num_cases; reflexivity.
Qed.

Lemma delta_buy ts g a f pr : cash_delta (mkTrade ts "buy" g a f pr) = - (a * g + f).
Proof. reflexivity. Qed.

Lemma delta_sell ts g a f pr : cash_delta (mkTrade ts "sell" g a f pr) = a * g - f.
Proof. reflexivity. Qed.

Lemma position_delta_buy ts g a f pr :
  position_delta (mkTrade ts "buy" g a f pr) = a.
Proof. reflexivity. Qed.

Lemma position_delta_sell ts g a f pr :
  position_delta (mkTrade ts "sell" g a f pr) = - a.
Proof. reflexivity. Qed.

Lemma bt_level_reconciles capital fee size ts c acc g :
  cash (fst acc) == capital + cash_flow (snd acc)
  /\ positions (fst acc) == position_flow (snd acc) ->
  cash (fst (bt_level fee size ts c acc g))
  == capital + cash_flow (snd (bt_level fee size ts c acc g))
  /\ positions (fst (bt_level fee size ts c acc g))
     == position_flow (snd (bt_level fee size ts c acc g)).
Proof.
  destruct acc as [p trades]. cbn [fst snd]. intros [Hc Hp].
  unfold bt_level. num_cases; cbn [fst snd cash positions];
    try (split; assumption);
    rewrite cash_flow_snoc, position_flow_snoc;
    rewrite ?delta_buy, ?delta_sell, ?position_delta_buy, ?position_delta_sell;
    split; lra.
Qed.

Lemma negative_grids_raise capital b data ps :
  (grids_of ps < 0)%Z ->
  exists msg,
    backtest_grid_strategy capital (b :: data) ps = Raise (ValueError msg).
Proof.
  intro Hn. unfold backtest_grid_strategy. cbn [fold_left]. unfold bt_bar at 2.
  destruct (linspace_negative (close b * (1 - range_of ps))
              (close b * (1 + range_of ps)) (grids_of ps) Hn) as (msg & E).
  change (get (p_grid_range_pct ps) (1 # 10)) with (range_of ps).
  change (get (p_num_grids ps) 20%Z) with (grids_of ps).
  rewrite E, bt_bars_raise. exists msg. reflexivity.
Qed.

(** Property X4.
    From a non-negative capital, with closes > 0, a grid half-width in
    [0, 1), a fee rate in [0, 1], a non-negative order size and a
    non-negative number of grids, a backtest returns its report, the final
    cash and position are non-negative, and so is every value of the equity
    curve. *)
Theorem backtest_stays_solvent :
  forall capital data ps,
  0 <= capital ->
  0 <= range_of ps -> range_of ps < 1 ->
  (0 <= grids_of ps)%Z ->
  0 <= fee_of ps <= 1 ->
  0 <= size_of ps ->
  Forall (fun b => 0 < close b) data ->
  exists res,
    backtest_grid_strategy capital data ps = Ok res
    /\ Ledger.solvent (r_portfolio res)
    /\ Forall (fun e => 0 <= e_value e) (r_equity_curve res).
Proof.
  intros capital data ps Hcap Hr0 Hr1 Hn Hfee Hsize Hpos.
  destruct (bt_bars_run (range_of ps) (grids_of ps) (size_of ps) (fee_of ps)
              (fun acc => Ledger.solvent (fst acc)) data Hn)
    with (p := mkPortfolio capital 0 capital) (ts := @nil Trade)
         (curve := @nil EquitySample)
    as (p' & ts' & samples & Efold & Hinv & _ & _ & Hall & _).
  - intros b levels g acc Hb El Hg Hacc.
    rewrite Forall_forall in Hpos. specialize (Hpos b Hb).
    assert (Hlow : 0 < close b * (1 - range_of ps)).
    { apply Qmult_lt_0_compat; lra. }
    assert (Hord : close b * (1 - range_of ps) <= close b * (1 + range_of ps)).
    { assert (0 <= close b * range_of ps) by (apply Qmult_le_0_compat; lra). lra. }
    destruct (GridBounds.linspace_within _ _ (grids_of ps) Hord Hn)
      as (l & El' & _ & Hin).
    unfold bar_grid in El. rewrite El in El'. injection El' as <-.
    rewrite Forall_forall in Hin. specialize (Hin g Hg).
    destruct acc as [q qs].
    apply BacktestLedger.bt_level_solvent; try assumption. lra.
  - unfold Ledger.solvent. cbn [fst cash positions]. split; [exact Hcap | lra].
  - unfold backtest_grid_strategy.
    change (get (p_grid_range_pct ps) (1 # 10)) with (range_of ps).
    change (get (p_num_grids ps) 20%Z) with (grids_of ps).
    change (get (p_order_size ps) 100) with (size_of ps).
    change (get (p_fee_rate ps) (1 # 1000)) with (fee_of ps).
    rewrite Efold. eexists. split; [reflexivity |].
    cbn [r_portfolio r_equity_curve app fst] in *. split; [exact Hinv |].
    eapply Forall_impl; [| exact Hall].
    intros e (q & qs & b & Hb & _ & [Hq1 Hq2] & ->).
    rewrite Forall_forall in Hpos. specialize (Hpos b Hb).
    cbn [fst] in *.
    assert (0 <= positions q * close b) by (apply Qmult_le_0_compat; lra). lra.
Qed.

Lemma backtest_stays_solvent_witness :
  exists res,
    backtest_grid_strategy 10000 MetricsSpec.two_bars MetricsSpec.narrow_grid
    = Ok res
    /\ Ledger.solvent (r_portfolio res)
    /\ Forall (fun e => 0 <= e_value e) (r_equity_curve res).
Proof.
  apply backtest_stays_solvent.
  - qdecide.
  - qdecide.
  - qdecide.
  - vm_compute. intro H. discriminate H.
  - split; qdecide.
  - qdecide.
  - repeat constructor.
Defined.

(** Property X5.
    With a non-negative number of grids a backtest returns a report whose
    equity curve has one sample per bar, stamped with the bar's timestamp
    and priced at its close, the last one valuing the final portfolio at
    the last close; the ['total_value'] entry of the returned portfolio is
    never updated and still holds the initial capital.  With a negative
    number of grids the run raises [ValueError] on the first bar; without
    bars it returns the empty report whatever the parameters. *)
Theorem backtest_samples_every_bar :
  forall capital data ps,
  ((0 <= grids_of ps)%Z ->
     exists res,
       backtest_grid_strategy capital data ps = Ok res
       /\ map e_timestamp (r_equity_curve res) = map timestamp data
       /\ map e_price (r_equity_curve res) = map close data
       /\ total_value (r_portfolio res) = capital
       /\ (forall d, data <> [] ->
             e_value (last (r_equity_curve res) d)
             = cash (r_portfolio res)
               + positions (r_portfolio res) * e_price (last (r_equity_curve res) d)))
  /\ ((grids_of ps < 0)%Z -> data <> [] ->
     exists msg, backtest_grid_strategy capital data ps = Raise (ValueError msg))
  /\ (data = [] ->
     backtest_grid_strategy capital data ps
     = Ok (mkResults [] [] (mkPortfolio capital 0 capital) None)).
Proof.
  intros capital data ps. repeat apply conj.
  - intro Hn.
    destruct (bt_bars_run (range_of ps) (grids_of ps) (size_of ps) (fee_of ps)
                (fun acc => total_value (fst acc) = capital) data Hn)
      with (p := mkPortfolio capital 0 capital) (ts := @nil Trade)
           (curve := @nil EquitySample)
      as (p' & ts' & samples & Efold & Hinv & Ht & Hp & _ & Hlast).
    + intros b levels g acc _ _ _ Hacc.
      rewrite bt_level_keeps_total_value. exact Hacc.
    + reflexivity.
    + unfold backtest_grid_strategy.
      change (get (p_grid_range_pct ps) (1 # 10)) with (range_of ps).
      change (get (p_num_grids ps) 20%Z) with (grids_of ps).
      change (get (p_order_size ps) 100) with (size_of ps).
      change (get (p_fee_rate ps) (1 # 1000)) with (fee_of ps).
      rewrite Efold. eexists. split; [reflexivity |].
      cbn [r_portfolio r_equity_curve app fst] in *.
      repeat split; try assumption.
      intros d Hne. apply Hlast. intro E. rewrite E in Ht.
      destruct data; [congruence | discriminate Ht].
  - intros Hn Hne. destruct data as [| b data]; [congruence |].
    apply negative_grids_raise. exact Hn.
  - intros ->. reflexivity.
Qed.

Lemma backtest_samples_every_bar_witness :
  let neg := mkParams None (Some (-1)%Z) None None in
  ((0 <= grids_of MetricsSpec.narrow_grid)%Z
   /\ exists res,
        backtest_grid_strategy 10000 MetricsSpec.two_bars MetricsSpec.narrow_grid
        = Ok res
        /\ map e_timestamp (r_equity_curve res) = map timestamp MetricsSpec.two_bars
        /\ total_value (r_portfolio res) = 10000)
  /\ ((grids_of neg < 0)%Z /\ MetricsSpec.two_bars <> []
      /\ exists msg,
           backtest_grid_strategy 10000 MetricsSpec.two_bars neg
           = Raise (ValueError msg)).
Proof.
  intro neg.
  assert (P : (0 <= grids_of MetricsSpec.narrow_grid)%Z)
    by (vm_compute; intro H; discriminate H).
  assert (N : (grids_of neg < 0)%Z) by reflexivity.
  assert (D : MetricsSpec.two_bars <> []) by discriminate.
  destruct (backtest_samples_every_bar 10000 MetricsSpec.two_bars
              MetricsSpec.narrow_grid) as (H1 & _ & _).
  destruct (backtest_samples_every_bar 10000 MetricsSpec.two_bars neg)
    as (_ & H2 & _).
  destruct (H1 P) as (res & E & T & _ & V & _).
  exact (conj (conj P (ex_intro _ res (conj E (conj T V))))
              (conj N (conj D (H2 N D)))).
Defined.

(** Property X6.
    The trade log of a backtest accounts for its final portfolio: the cash
    is the initial capital minus what the buys cost (amount x price plus
    fee) plus what the sells earned (amount x price minus fee), and the
    position is what was bought minus what was sold. *)
Theorem backtest_trade_log_explains_portfolio :
  forall capital data ps res,
  backtest_grid_strategy capital data ps = Ok res ->
  cash (r_portfolio res) == capital + cash_flow (r_trades res)
  /\ positions (r_portfolio res) == position_flow (r_trades res).
Proof.
  intros capital data ps res Hres.
  destruct (Z_lt_le_dec (grids_of ps) 0) as [Hneg | Hn].
  - destruct data as [| b data].
    + cbn in Hres. injection Hres as <-. cbn. split; ring.
    + destruct (negative_grids_raise capital b data ps Hneg) as (msg & E).
      rewrite E in Hres. discriminate Hres.
  - destruct (bt_bars_run (range_of ps) (grids_of ps) (size_of ps) (fee_of ps)
                (fun acc => cash (fst acc) == capital + cash_flow (snd acc)
                            /\ positions (fst acc) == position_flow (snd acc))
                data Hn)
      with (p := mkPortfolio capital 0 capital) (ts := @nil Trade)
           (curve := @nil EquitySample)
      as (p' & ts' & samples & Efold & Hinv & _).
    + intros b levels g acc _ _ _ Hacc. apply bt_level_reconciles. exact Hacc.
    + cbn. split; ring.
    + unfold backtest_grid_strategy in Hres.
      change (get (p_grid_range_pct ps) (1 # 10)) with (range_of ps) in Hres.
      change (get (p_num_grids ps) 20%Z) with (grids_of ps) in Hres.
      change (get (p_order_size ps) 100) with (size_of ps) in Hres.
      change (get (p_fee_rate ps) (1 # 1000)) with (fee_of ps) in Hres.
      rewrite Efold in Hres. injection Hres as <-. exact Hinv.
Qed.

Lemma backtest_trade_log_explains_portfolio_witness :
  exists res,
    backtest_grid_strategy 10000 MetricsSpec.two_bars MetricsSpec.narrow_grid
    = Ok res
    /\ cash (r_portfolio res) == 10000 + cash_flow (r_trades res)
    /\ positions (r_portfolio res) == position_flow (r_trades res).
Proof.
  eexists. split; [vm_compute; reflexivity |].
  apply (backtest_trade_log_explains_portfolio 10000 MetricsSpec.two_bars
           MetricsSpec.narrow_grid).
  vm_compute. reflexivity.
Defined.

End BacktestRunSpec.

(** ** A whole simulation run *)

Module SimulationRun.
Import GridTradingSystem.

(** The order ids of the log are the sequence numbers 1, 2, 3, ... *)
Definition ids_sequential (st : System) : Prop :=
  map id (orders st) = seq 1 (List.length (orders st)).

(** Simulation-mode bookkeeping: every logged order is ['filled'] and has
    its trade, in the same place of the trade log, and no trade carries a
    profit. *)
Definition sim_books (st : System) : Prop :=
  mode st = "simulation"%string
  /\ map order_id (trades st) = map id (orders st)
  /\ Forall (fun o => status o = "filled"%string) (orders st)
  /\ Forall (fun t => profit t = None) (trades st).

Section Facts.

Variable now : nat -> Z.

Lemma place_order_frame st pr am sd ot :
  let st' := snd (place_order now st pr am sd ot) in
  mode st' = mode st /\ grid_levels st' = grid_levels st
  /\ sim_data st' = sim_data st /\ exchange st' = exchange st
  /\ current_sim_price st' = current_sim_price st.
Proof.
  unfold place_order. cbn [mode tick exchange orders].
  destruct (String.eqb (mode st) "simulation");
    [repeat apply conj; reflexivity |].
  destruct (String.eqb (mode st) "live");
    [| repeat apply conj; reflexivity].
  destruct (exchange st) as [ex |] eqn:E;
    [| repeat apply conj; first [reflexivity | exact E]].
  destruct (String.eqb ot "limit");
    [| repeat apply conj; first [reflexivity | exact E]].
  destruct (ex sd am pr); repeat apply conj; first [reflexivity | exact E].
Qed.

(** Outside simulation mode [place_order] touches neither the portfolio nor
    the trade log. *)
Lemma place_order_no_fill st pr am sd ot :
  mode st <> "simulation"%string ->
  let st' := snd (place_order now st pr am sd ot) in
  portfolio st' = portfolio st /\ trades st' = trades st.
Proof.
  intro Hm. unfold place_order. cbn [mode tick exchange orders].
  destruct (String.eqb_spec (mode st) "simulation") as [E | _]; [contradiction |].
  destruct (String.eqb (mode st) "live"); [| repeat apply conj; first [reflexivity | exact E]].
  destruct (exchange st) as [ex |] eqn:E; [| repeat apply conj; first [reflexivity | exact E]].
  destruct (String.eqb ot "limit"); [| repeat apply conj; first [reflexivity | exact E]].
  destruct (ex sd am pr); repeat apply conj; first [reflexivity | exact E].
Qed.

Lemma place_order_ids st pr am sd ot :
  ids_sequential st -> ids_sequential (snd (place_order now st pr am sd ot)).
Proof.
  unfold ids_sequential. intro H.
  rewrite PlaceOrder.place_order_appends_order.
  rewrite map_app, length_app, H. cbn [map List.length].
  destruct (MatchingSpec.place_order_fields now st pr am sd ot)
    as (_ & _ & _ & _ & ->).
  rewrite Nat.add_1_r, seq_S. reflexivity.
Qed.

Lemma place_order_books st pr am sd ot :
  sim_books st -> sim_books (snd (place_order now st pr am sd ot)).
Proof.
  intros (Hm & Hids & Hst & Hpr).
  rewrite (PlaceOrder.place_order_simulation now st pr am sd ot Hm).
  cbn [snd]. unfold sim_books.
  cbn [mode trades orders set_orders execute_trade tick set_portfolio
       set_trades update_portfolio_value snd].
  split; [exact Hm |]. split; [| split].
  - rewrite !map_app, Hids. reflexivity.
  - apply Forall_app. split; [exact Hst | repeat constructor].
  - apply Forall_app. split; [exact Hpr | repeat constructor].
Qed.

Lemma place_order_solvent st pr am sd ot :
  0 <= pr -> 0 <= am -> Ledger.solvent (portfolio st) ->
  Ledger.solvent (portfolio (snd (place_order now st pr am sd ot))).
Proof.
  intros Hp Ha Hs.
  destruct (String.eqb_spec (mode st) "simulation") as [Hm | Hm].
  - rewrite (PlaceOrder.place_order_simulation now st pr am sd ot Hm).
    cbn [snd].
    change (portfolio (set_orders ?s ?o)) with (portfolio s).
    apply Ledger.execute_trade_solvent; [split; assumption | exact Hs].
  - destruct (place_order_no_fill st pr am sd ot Hm) as [-> _]. exact Hs.
Qed.

Variable order_size : Q.

Lemma sim_level_price st g :
  current_sim_price (sim_level now order_size st g) = current_sim_price st.
Proof.
  unfold sim_level.
  destruct (Num.ltb _ tolerance); [| reflexivity].
  destruct (Num.leb (current_sim_price st) g);
    [apply place_order_frame |].
  destruct (Num.gtb (positions (portfolio st)) 0);
    [apply place_order_frame | reflexivity].
Qed.

Lemma sim_levels_price levels : forall st,
  current_sim_price (fold_left (sim_level now order_size) levels st)
  = current_sim_price st.
Proof.
  induction levels as [| g levels IH]; intro st; [reflexivity |].
  cbn [fold_left]. rewrite IH. apply sim_level_price.
Qed.

Section Loop.

Variable Inv : System -> Prop.
Variable G : Q -> Prop.

Hypothesis Inv_levels : forall st, Inv st -> Forall G (grid_levels st).
Hypothesis Inv_order : forall st g sd,
  Inv st -> G g -> Inv (snd (place_order now st g (order_size / g) sd "limit")).
Hypothesis Inv_cursor : forall st c i, Inv st -> Inv (set_sim_cursor st c i).
Hypothesis Inv_value : forall st c, Inv st -> Inv (update_portfolio_value st c).

Lemma sim_level_keeps st g : Inv st -> G g -> Inv (sim_level now order_size st g).
Proof.
  intros Hst Hg. unfold sim_level.
  destruct (Num.ltb _ tolerance); [| exact Hst].
  destruct (Num.leb (current_sim_price st) g); [apply Inv_order; assumption |].
  destruct (Num.gtb (positions (portfolio st)) 0);
    [apply Inv_order; assumption | exact Hst].
Qed.

Lemma sim_levels_keep levels : forall st,
  Inv st -> Forall G levels -> Inv (fold_left (sim_level now order_size) levels st).
Proof.
  induction levels as [| g levels IH]; intros st Hst Hall; [exact Hst |].
  inversion Hall as [| ? ? Hg Hrest]; subst. cbn [fold_left].
  apply IH; [apply sim_level_keeps; assumption | exact Hrest].
Qed.

(** The loop over the bars keeps the invariant and adds one equity sample
    per bar: stamped by the bar, priced at its close, and valued at cash
    plus position times that close for the portfolio the bar leaves. *)
Lemma sim_bars_run bars : forall st curve,
  Inv st ->
  exists st' samples,
    fold_left (sim_bar now order_size) bars (st, curve) = (st', curve ++ samples)
    /\ Inv st'
    /\ map e_timestamp samples = map (fun ib => timestamp (snd ib)) bars
    /\ map e_price samples = map (fun ib => close (snd ib)) bars
    /\ Forall (fun e => exists q,
                 Inv q
                 /\ e_value e
                    = cash (portfolio q) + positions (portfolio q) * e_price e)
              samples
    /\ (forall d, samples <> [] ->
          e_value (last samples d) = total_value (portfolio st')
          /\ total_value (portfolio st')
             = cash (portfolio st')
               + positions (portfolio st') * e_price (last samples d)).
Proof.
  induction bars as [| [i b] bars IH]; intros st curve Hst.
  - exists st, []. rewrite app_nil_r. repeat split; try assumption;
      try constructor; congruence.
  - cbn [fold_left]. unfold sim_bar at 2.
    set (st0 := set_sim_cursor st (close b) i).
    assert (H0 : Inv st0) by (apply Inv_cursor; exact Hst).
    assert (H1 : Inv (fold_left (sim_level now order_size) (grid_levels st0) st0)).
    { apply sim_levels_keep; [exact H0 | apply Inv_levels; exact H0]. }
    set (st1 := fold_left (sim_level now order_size) (grid_levels st0) st0) in *.
    set (st2 := update_portfolio_value st1 (current_sim_price st1)).
    assert (H2 : Inv st2) by (apply Inv_value; exact H1).
    set (e := mkEquitySample (timestamp b) (total_value (portfolio st2))
                             (current_sim_price st2)).
    assert (Hprice : current_sim_price st1 = close b).
    { unfold st1. rewrite sim_levels_price. reflexivity. }
    destruct (IH st2 (curve ++ [e]) H2)
      as (st' & samples & Ef & Hinv & Ht & Hp & Hall & Hlast).
    exists st', (e :: samples).
    split; [rewrite Ef, <- app_assoc; reflexivity |].
    split; [exact Hinv |].
    split; [cbn [map snd e_timestamp e]; rewrite Ht; reflexivity |].
    split.
    { cbn [map snd e_price e]. rewrite Hp. f_equal. exact Hprice. }
    split.
    { constructor; [| exact Hall].
      exists st2. split; [exact H2 | reflexivity]. }
    intros d _. destruct samples as [| e' samples'].
    + destruct bars as [| ib bars']; [| discriminate Hp].
      cbn in Ef. injection Ef as <-. split; reflexivity.
    + change (last (e :: e' :: samples') d) with (last (e' :: samples') d).
      apply Hlast. discriminate.
Qed.

End Loop.

End Facts.

End SimulationRun.

Module SimulationRunSpec.
Import GridTradingSystem SimulationRun.

Lemma Forall_trivial {A : Type} (l : list A) : Forall (fun _ => True) l.
Proof. induction l; constructor; auto. Qed.

Lemma map_snd_combine {A B : Type} (l2 : list B) : forall (l1 : list A),
  (List.length l2 <= List.length l1)%nat -> map snd (combine l1 l2) = l2.
Proof.
  induction l2 as [| y l2 IH]; intros [| x l1] H; cbn in *; try reflexivity; try lia.
  rewrite IH by lia. reflexivity.
Qed.

Lemma calculate_grid_frame geom st cp lo up n gt g st1 :
  calculate_grid geom st cp lo up n gt = Ok (g, st1) ->
  (st1 = set_grid_levels st g \/ (st1 = st /\ ~ GridSpec.supported gt))
  /\ grid_levels st1 = g.
Proof.
  unfold calculate_grid. intro H.
  destruct (String.eqb_spec gt "linear") as [El | Nl].
  { destruct (Np.linspace lo up n); [| discriminate H].
    injection H as <- <-. split; [left |]; reflexivity. }
  destruct (String.eqb_spec gt "geometric") as [Eg | Ng].
  { destruct (geom lo up n); [| discriminate H].
    injection H as <- <-. split; [left |]; reflexivity. }
  destruct (String.eqb_spec gt "fibonacci") as [Ef | Nf].
  { injection H as <- <-. split; [left |]; reflexivity. }
  injection H as <- <-. split; [| reflexivity].
  right. split; [reflexivity |].
  intros [E | [E | E]]; contradiction.
Qed.

Lemma calculate_grid_keeps geom st cp lo up n gt g st1 :
  calculate_grid geom st cp lo up n gt = Ok (g, st1) ->
  mode st1 = mode st /\ orders st1 = orders st /\ trades st1 = trades st
  /\ portfolio st1 = portfolio st /\ sim_data st1 = sim_data st.
Proof.
  intro H. destruct (calculate_grid_frame _ _ _ _ _ _ _ _ _ H) as [[-> | [-> _]] _];
    repeat split.
Qed.

(** What a returning [run_simulation] has done: read the first close, computed
    the grid once, and folded the bar loop over the first
    [min(len(sim_data), duration_hours * 60)] bars. *)
Lemma run_simulation_result now geom st params hours r st' :
  run_simulation now geom st params hours = Ok (r, st') ->
  exists b0 rest g st1,
    sim_data st = b0 :: rest
    /\ calculate_grid geom st (close b0)
         (close b0 * (1 - grid_range_pct params))
         (close b0 * (1 + grid_range_pct params))
         (num_grids params) (grid_type params) = Ok (g, st1)
    /\ (let n := Nat.min (List.length (sim_data st)) (Z.to_nat (hours * 60)) in
        fold_left (sim_bar now (order_size params))
                  (combine (seq 0 n) (firstn n (sim_data st))) (st1, [])
        = (st', r_equity_curve r))
    /\ r_trades r = trades st'
    /\ r_metrics r = calculate_performance_metrics st' (r_equity_curve r).
Proof.
  unfold run_simulation. intro H.
  destruct (sim_data st) as [| b0 rest] eqn:Ed; [discriminate H |].
  destruct (calculate_grid geom st (close b0)
              (close b0 * (1 - grid_range_pct params))
              (close b0 * (1 + grid_range_pct params))
              (num_grids params) (grid_type params))
    as [[g st1] | e] eqn:Eg; [| discriminate H].
  destruct (calculate_grid_keeps _ _ _ _ _ _ _ _ _ Eg) as (_ & _ & _ & _ & Esd).
  rewrite Esd, Ed in H.
  exists b0, rest, g, st1. split; [reflexivity |]. split; [exact Eg |].
  cbv zeta.
  destruct (fold_left (sim_bar now (order_size params)) _ (st1, []))
    as [st2 curve] eqn:Ef.
  injection H as <- <-. cbn [r_equity_curve r_trades r_metrics].
  repeat split.
Qed.

(** Property X10.
    Order ids are sequence numbers: [place_order] numbers each order with
    its place in the log, in every mode, so a run that starts from a log
    numbered 1, 2, ... (the empty log of a new system, for one) ends with
    such a log, where no two orders share an id. *)
Theorem order_ids_are_sequence_numbers :
  forall now geom st params hours r st',
  ids_sequential st ->
  run_simulation now geom st params hours = Ok (r, st') ->
  map id (orders st') = seq 1 (List.length (orders st'))
  /\ NoDup (map id (orders st'))
  /\ (List.length (orders st) <= List.length (orders st'))%nat.
Proof.
  intros now geom st params hours r st' Hids Hrun.
  destruct (run_simulation_result _ _ _ _ _ _ _ Hrun)
    as (b0 & rest & g & st1 & _ & Eg & Ef & _).
  destruct (calculate_grid_keeps _ _ _ _ _ _ _ _ _ Eg) as (_ & Eo & _).
  cbv zeta in Ef.
  destruct (sim_bars_run now (order_size params)
              (fun s => ids_sequential s
                        /\ (List.length (orders st) <= List.length (orders s))%nat)
              (fun _ => True))
    with (bars := combine (seq 0 (Nat.min (List.length (sim_data st))
                                          (Z.to_nat (hours * 60))))
                          (firstn (Nat.min (List.length (sim_data st))
                                           (Z.to_nat (hours * 60)))
                                  (sim_data st)))
         (st := st1) (curve := @nil EquitySample)
    as (st2 & samples & Ef' & [Hinv Hlen] & _).
  - intros s _. apply Forall_trivial.
  - intros s lv sd [Hs Hl] _. split; [apply place_order_ids; exact Hs |].
    rewrite PlaceOrder.place_order_appends_order, length_app. lia.
  - intros s c i Hs. exact Hs.
  - intros s c Hs. exact Hs.
  - unfold ids_sequential. rewrite Eo. split; [exact Hids | lia].
  - rewrite Ef in Ef'. injection Ef' as <- _.
    split; [exact Hinv |]. split; [| exact Hlen].
    rewrite Hinv. apply seq_NoDup.
Qed.

Lemma order_ids_are_sequence_numbers_witness :
  let now := fun _ : nat => 0%Z in
  let geom := fun (_ _ : Q) (_ : Z) => Ok (@nil Q) in
  let st := init_system "simulation" MetricsSpec.two_bars in
  let params := mkParams (1 # 1000) 5 "linear" 100 in
  ids_sequential st
  /\ exists r st',
       run_simulation now geom st params 24 = Ok (r, st')
       /\ map id (orders st') = seq 1 (List.length (orders st'))
       /\ List.length (orders st') = 3%nat.
Proof.
  intros now geom st params.
  assert (H : ids_sequential st) by reflexivity.
  split; [exact H |].
  destruct (run_simulation now geom st params 24) as [[r st'] | e] eqn:Er.
  - exists r, st'. split; [reflexivity |].
    split;
      [exact (proj1 (order_ids_are_sequence_numbers now geom st params 24 r st' H Er)) |].
    vm_compute in Er. injection Er as <- <-. reflexivity.
  - exfalso. vm_compute in Er. discriminate Er.
Defined.

End SimulationRunSpec.

Module SimulationBooksSpec.
Import GridTradingSystem SimulationRun SimulationRunSpec.

Lemma no_profit_no_winner ts :
  Forall (fun t => profit t = None) ts ->
  filter (fun t => Num.gtb (profit_or_zero t) 0) ts = []
  /\ filter (fun p => Num.gtb p 0) (map profit_or_zero ts) = []
  /\ filter (fun p => Num.ltb p 0) (map profit_or_zero ts) = [].
Proof.
  induction 1 as [| t ts Ht _ (IH1 & IH2 & IH3)]; [repeat split |].
  assert (E : profit_or_zero t = 0) by (unfold profit_or_zero; rewrite Ht; reflexivity).
  cbn [filter map]. rewrite E.
  change (Num.gtb 0 0) with false. change (Num.ltb 0 0) with false.
  repeat split; assumption.
Qed.

Lemma run_keeps_books now geom st params hours r st' :
  sim_books st ->
  run_simulation now geom st params hours = Ok (r, st') ->
  sim_books st' /\ r_trades r = trades st'
  /\ r_metrics r = calculate_performance_metrics st' (r_equity_curve r).
Proof.
  intros Hb Hrun.
  destruct (run_simulation_result _ _ _ _ _ _ _ Hrun)
    as (b0 & rest & g & st1 & _ & Eg & Ef & Et & Em).
  destruct (calculate_grid_keeps _ _ _ _ _ _ _ _ _ Eg) as (Emode & Eo & Etr & _).
  cbv zeta in Ef.
  destruct (sim_bars_run now (order_size params) sim_books (fun _ => True))
    with (bars := combine (seq 0 (Nat.min (List.length (sim_data st))
                                          (Z.to_nat (hours * 60))))
                          (firstn (Nat.min (List.length (sim_data st))
                                           (Z.to_nat (hours * 60)))
                                  (sim_data st)))
         (st := st1) (curve := @nil EquitySample)
    as (st2 & samples & Ef' & Hinv & _).
  - intros s _. apply Forall_trivial.
  - intros s lv sd Hs _. apply place_order_books. exact Hs.
  - intros s c i Hs. exact Hs.
  - intros s c Hs. exact Hs.
  - unfold sim_books. rewrite Emode, Eo, Etr. exact Hb.
  - rewrite Ef in Ef'. injection Ef' as <- _. repeat split; try assumption;
      apply Hinv.
Qed.

(** Property X11.
    In simulation mode every order is logged as ['filled'] and has exactly
    one trade, at the same place of the trade log and carrying its id; a run
    that starts with such logs (empty ones, for a new system) ends with such
    logs. *)
Theorem simulation_books_one_trade_per_order :
  forall now geom st params hours r st',
  sim_books st ->
  run_simulation now geom st params hours = Ok (r, st') ->
  mode st' = "simulation"%string
  /\ Forall (fun o => status o = "filled"%string) (orders st')
  /\ map order_id (trades st') = map id (orders st')
  /\ List.length (trades st') = List.length (orders st')
  /\ r_trades r = trades st'.
Proof.
  intros now geom st params hours r st' Hb Hrun.
  destruct (run_keeps_books _ _ _ _ _ _ _ Hb Hrun) as ((Hm & Hids & Hst & _) & Et & _).
  repeat split; try assumption.
  rewrite <- (length_map order_id), Hids, length_map. reflexivity.
Qed.

(** Property X12.
    The trades of the simulation carry no profit, so the metrics of a run
    report a win rate of 0 and, as soon as one trade was logged, an
    infinite profit factor; [total_trades] counts the logged orders. *)
Theorem simulation_metrics_see_no_profit :
  forall now geom st params hours r st',
  sim_books st ->
  run_simulation now geom st params hours = Ok (r, st') ->
  (r_equity_curve r = [] -> r_metrics r = None)
  /\ (r_equity_curve r <> [] ->
      exists m,
        r_metrics r = Some m
        /\ win_rate m == 0
        /\ total_trades m = List.length (orders st')
        /\ (orders st' <> [] -> profit_factor m = Inf)
        /\ (orders st' = [] -> profit_factor m = Fin 0)).
Proof.
  intros now geom st params hours r st' Hb Hrun.
  destruct (run_keeps_books _ _ _ _ _ _ _ Hb Hrun)
    as ((Hm & Hids & Hst & Hpr) & Et & Em).
  assert (Hlen : List.length (trades st') = List.length (orders st')).
  { rewrite <- (length_map order_id), Hids, length_map. reflexivity. }
  destruct (no_profit_no_winner _ Hpr) as (F1 & F2 & F3).
  rewrite Em. split.
  - intros ->. reflexivity.
  - intro Hne. destruct (r_equity_curve r) as [| e curve]; [congruence |].
    cbn [calculate_performance_metrics]. eexists. split; [reflexivity |].
    cbn [win_rate total_trades profit_factor].
    split; [| split; [exact Hlen | split]].
    + unfold calculate_win_rate. destruct (trades st') as [| t ts] eqn:E;
        [reflexivity |].
      cbv beta iota zeta. rewrite F1. cbn [List.length Z.of_nat].
      unfold Qdiv. ring.
    + intro Ho. unfold calculate_profit_factor.
      destruct (trades st') as [| t ts] eqn:E.
      * destruct (orders st'); [congruence | discriminate Hlen].
      * cbv beta iota zeta. rewrite F2, F3. reflexivity.
    + intro Ho. unfold calculate_profit_factor.
      destruct (trades st') as [| t ts] eqn:E; [reflexivity |].
      rewrite Ho in Hlen. discriminate Hlen.
Qed.

Lemma simulation_runs_on_two_bars :
  let now := fun _ : nat => 0%Z in
  let geom := fun (_ _ : Q) (_ : Z) => Ok (@nil Q) in
  let st := init_system "simulation" MetricsSpec.two_bars in
  let params := mkParams (1 # 1000) 5 "linear" 100 in
  exists r st',
    run_simulation now geom st params 24 = Ok (r, st')
    /\ List.length (orders st') = 3%nat
    /\ List.length (r_equity_curve r) = 2%nat.
Proof.
  cbv zeta. eexists. eexists. split; [vm_compute; reflexivity |].
  split; reflexivity.
Qed.

Lemma simulation_books_one_trade_per_order_witness :
  let now := fun _ : nat => 0%Z in
  let geom := fun (_ _ : Q) (_ : Z) => Ok (@nil Q) in
  let st := init_system "simulation" MetricsSpec.two_bars in
  let params := mkParams (1 # 1000) 5 "linear" 100 in
  sim_books st
  /\ exists r st',
       run_simulation now geom st params 24 = Ok (r, st')
       /\ List.length (trades st') = List.length (orders st')
       /\ List.length (orders st') = 3%nat.
Proof.
  intros now geom st params.
  assert (H : sim_books st) by (repeat split; constructor).
  split; [exact H |].
  destruct simulation_runs_on_two_bars as (r & st' & Er & Hn & _).
  exists r, st'. split; [exact Er |]. split; [| exact Hn].
  exact (proj1 (proj2 (proj2 (proj2
    (simulation_books_one_trade_per_order now geom st params 24 r st' H Er))))).
Defined.

Lemma simulation_metrics_see_no_profit_witness :
  let now := fun _ : nat => 0%Z in
  let geom := fun (_ _ : Q) (_ : Z) => Ok (@nil Q) in
  let st := init_system "simulation" MetricsSpec.two_bars in
  let params := mkParams (1 # 1000) 5 "linear" 100 in
  sim_books st
  /\ exists r st',
       run_simulation now geom st params 24 = Ok (r, st')
       /\ r_equity_curve r <> []
       /\ orders st' <> []
       /\ exists m, r_metrics r = Some m /\ win_rate m == 0
                    /\ profit_factor m = Inf.
Proof.
  intros now geom st params.
  assert (H : sim_books st) by (repeat split; constructor).
  split; [exact H |].
  destruct simulation_runs_on_two_bars as (r & st' & Er & Hn & Hc).
  assert (C : r_equity_curve r <> []).
  { intro E. rewrite E in Hc. discriminate Hc. }
  assert (O : orders st' <> []).
  { intro E. rewrite E in Hn. discriminate Hn. }
  exists r, st'. split; [exact Er |]. split; [exact C |]. split; [exact O |].
  destruct (proj2 (simulation_metrics_see_no_profit now geom st params 24 r st' H Er) C)
    as (m & Em & Hw & _ & Hinf & _).
  exists m. split; [exact Em |]. split; [exact Hw | exact (Hinf O)].
Defined.

End SimulationBooksSpec.

Module SimulationCurveSpec.
Import GridTradingSystem SimulationRun SimulationRunSpec.

Lemma In_firstn_of {A : Type} (x : A) n : forall l, In x (firstn n l) -> In x l.
Proof.
  induction n as [| n IH]; intros [| y l] H; cbn in H; try contradiction.
  destruct H as [-> | H]; [left; reflexivity | right; apply IH; exact H].
Qed.

Lemma bars_of_combine (f : Bar -> Z) n (data : list Bar) :
  map (fun ib : nat * Bar => f (snd ib)) (combine (seq 0 n) (firstn n data))
  = map f (firstn n data).
Proof.
  rewrite <- (map_map snd f). rewrite map_snd_combine; [reflexivity |].
  rewrite length_firstn, length_seq. lia.
Qed.

Lemma bars_of_combine_Q (f : Bar -> Q) n (data : list Bar) :
  map (fun ib : nat * Bar => f (snd ib)) (combine (seq 0 n) (firstn n data))
  = map f (firstn n data).
Proof.
  rewrite <- (map_map snd f). rewrite map_snd_combine; [reflexivity |].
  rewrite length_firstn, length_seq. lia.
Qed.

Lemma run_simulation_returns now geom st params hours b0 rest g st1 :
  sim_data st = b0 :: rest ->
  calculate_grid geom st (close b0)
    (close b0 * (1 - grid_range_pct params))
    (close b0 * (1 + grid_range_pct params))
    (num_grids params) (grid_type params) = Ok (g, st1) ->
  exists r st', run_simulation now geom st params hours = Ok (r, st').
Proof.
  intros Ed Eg. unfold run_simulation. rewrite Ed, Eg.
  destruct (fold_left _ _ _) as [st2 curve]. eexists. eexists. reflexivity.
Qed.

(** Property X13.
    A simulation without data raises [IndexError].  A returning run has
    recorded one equity sample for each of the first [min(len(sim_data),
    duration_hours * 60)] bars, stamped with the bar's timestamp and priced
    at its close; the last sample is the final [total_value], which is cash
    plus position times the last close; the grid computed at setup is still
    the stored grid at the end, and the mode is unchanged. *)
Theorem simulation_samples_every_bar :
  forall now geom st params hours,
  (sim_data st = [] ->
     exists msg, run_simulation now geom st params hours = Raise (IndexError msg))
  /\ (forall r st',
     run_simulation now geom st params hours = Ok (r, st') ->
     let n := Nat.min (List.length (sim_data st)) (Z.to_nat (hours * 60)) in
     map e_timestamp (r_equity_curve r) = map timestamp (firstn n (sim_data st))
     /\ map e_price (r_equity_curve r) = map close (firstn n (sim_data st))
     /\ (forall d, r_equity_curve r <> [] ->
           e_value (last (r_equity_curve r) d) = total_value (portfolio st')
           /\ total_value (portfolio st')
              = cash (portfolio st')
                + positions (portfolio st') * e_price (last (r_equity_curve r) d))
     /\ (exists b0 g st1,
           hd_error (sim_data st) = Some b0
           /\ calculate_grid geom st (close b0)
                (close b0 * (1 - grid_range_pct params))
                (close b0 * (1 + grid_range_pct params))
                (num_grids params) (grid_type params) = Ok (g, st1)
           /\ grid_levels st' = g)
     /\ mode st' = mode st).
Proof.
  intros now geom st params hours. split.
  - intro Ed. unfold run_simulation. rewrite Ed. eexists. reflexivity.
  - intros r st' Hrun n.
    destruct (run_simulation_result _ _ _ _ _ _ _ Hrun)
      as (b0 & rest & g & st1 & Ed & Eg & Ef & _).
    destruct (calculate_grid_keeps _ _ _ _ _ _ _ _ _ Eg) as (Emode & _).
    destruct (calculate_grid_frame _ _ _ _ _ _ _ _ _ Eg) as (_ & Egl).
    cbv zeta in Ef. fold n in Ef.
    destruct (sim_bars_run now (order_size params)
                (fun s => grid_levels s = g /\ mode s = mode st) (fun _ => True))
      with (bars := combine (seq 0 n) (firstn n (sim_data st)))
           (st := st1) (curve := @nil EquitySample)
      as (st2 & samples & Ef' & [Hg Hm] & Ht & Hp & _ & Hlast).
    + intros s _. apply Forall_trivial.
    + intros s lv sd [Hs1 Hs2] _.
      destruct (place_order_frame now s lv (order_size params / lv) sd "limit")
        as (-> & -> & _). split; assumption.
    + intros s c i Hs. exact Hs.
    + intros s c Hs. exact Hs.
    + split; [exact Egl | exact Emode].
    + rewrite Ef in Ef'. cbn [app] in Ef'. injection Ef' as <- <-.
      split; [rewrite Ht; apply bars_of_combine |].
      split; [rewrite Hp; apply bars_of_combine_Q |].
      split; [exact Hlast |]. split; [| exact Hm].
      exists b0, g, st1. rewrite Ed. repeat split; assumption.
Qed.

Lemma simulation_samples_every_bar_witness :
  let now := fun _ : nat => 0%Z in
  let geom := fun (_ _ : Q) (_ : Z) => Ok (@nil Q) in
  let params := mkParams (1 # 1000) 5 "linear" 100 in
  (sim_data (init_system "simulation" []) = []
   /\ exists msg,
        run_simulation now geom (init_system "simulation" []) params 24
        = Raise (IndexError msg))
  /\ exists r st',
       run_simulation now geom (init_system "simulation" MetricsSpec.two_bars)
                      params 24 = Ok (r, st')
       /\ map e_timestamp (r_equity_curve r) = [0%Z; 1%Z]
       /\ mode st' = "simulation"%string.
Proof.
  intros now geom params.
  assert (E : sim_data (init_system "simulation" []) = []) by reflexivity.
  split.
  - exact (conj E (proj1 (simulation_samples_every_bar now geom
                            (init_system "simulation" []) params 24) E)).
  - destruct SimulationBooksSpec.simulation_runs_on_two_bars as (r & st' & Er & _).
    exists r, st'. split; [exact Er |].
    destruct (proj2 (simulation_samples_every_bar now geom
                       (init_system "simulation" MetricsSpec.two_bars) params 24)
                    r st' Er) as (Ht & _ & _ & _ & Hm).
    split; [exact Ht | exact Hm].
Defined.

(** Property X14.
    From a solvent portfolio, with a positive first close, a grid
    half-width in [0, 1) and a non-negative order size, a simulation on a
    linear grid (non-negative number of grids) or a fibonacci grid returns,
    the final cash and position are non-negative, and, when every close is
    positive, so is every value of the equity curve. *)
Theorem simulation_stays_solvent :
  forall now geom st params hours b0 rest,
  sim_data st = b0 :: rest ->
  0 < close b0 ->
  0 <= grid_range_pct params -> grid_range_pct params < 1 ->
  0 <= order_size params ->
  (grid_type params = "linear"%string /\ (0 <= num_grids params)%Z
   \/ grid_type params = "fibonacci"%string) ->
  Ledger.solvent (portfolio st) ->
  exists r st',
    run_simulation now geom st params hours = Ok (r, st')
    /\ Ledger.solvent (portfolio st')
    /\ (Forall (fun b => 0 < close b) (sim_data st) ->
        Forall (fun e => 0 <= e_value e) (r_equity_curve r)).
Proof.
  intros now geom st params hours b0 rest Ed Hc Hr0 Hr1 Hsize Hmode Hsolv.
  set (lower := close b0 * (1 - grid_range_pct params)).
  set (upper := close b0 * (1 + grid_range_pct params)).
  assert (Hlow : 0 < lower) by (apply Qmult_lt_0_compat; lra).
  assert (Hord : lower <= upper).
  { assert (0 <= close b0 * grid_range_pct params)
      by (apply Qmult_le_0_compat; lra).
    unfold lower, upper. lra. }
  assert (Hgrid : exists levels,
             calculate_grid geom st (close b0) lower upper
               (num_grids params) (grid_type params)
             = Ok (levels, set_grid_levels st levels)
             /\ Forall (fun g => lower <= g <= upper) levels).
  { destruct Hmode as [[-> Hn] | ->].
    - destruct (GridBounds.linspace_within lower upper (num_grids params) Hord Hn)
        as (levels & E & _ & F).
      exists levels. rewrite GridSpec.calculate_grid_linear, E.
      split; [reflexivity | exact F].
    - exists (FibFacts.fibonacci_grid lower upper (num_grids params)).
      split; [apply GridSpec.calculate_grid_fibonacci |].
      apply GridBounds.fibonacci_grid_within. exact Hord. }
  destruct Hgrid as (levels & Eg & Hin).
  destruct (run_simulation_returns now geom st params hours b0 rest levels
              (set_grid_levels st levels) Ed Eg) as (r & st' & Hrun).
  exists r, st'. split; [exact Hrun |].
  destruct (run_simulation_result _ _ _ _ _ _ _ Hrun)
    as (b0' & rest' & g & st1 & Ed' & Eg' & Ef & _).
  rewrite Ed in Ed'. injection Ed' as <- <-.
  fold lower upper in Eg'. rewrite Eg in Eg'. injection Eg' as <- <-.
  cbv zeta in Ef.
  set (n := Nat.min (List.length (sim_data st)) (Z.to_nat (hours * 60))) in *.
  destruct (sim_bars_run now (order_size params)
              (fun s => grid_levels s = levels /\ Ledger.solvent (portfolio s))
              (fun g => 0 < g))
    with (bars := combine (seq 0 n) (firstn n (sim_data st)))
         (st := set_grid_levels st levels) (curve := @nil EquitySample)
    as (st2 & samples & Ef' & [Hg Hs] & _ & Hp & Hall & _).
  - intros s [-> _]. eapply Forall_impl; [| exact Hin].
    intros a Ha. cbv beta in Ha. lra.
  - intros s lv sd [Hs1 Hs2] Hlv.
    destruct (place_order_frame now s lv (order_size params / lv) sd "limit")
      as (_ & -> & _). split; [exact Hs1 |].
    apply place_order_solvent; [lra | | exact Hs2].
    unfold Qdiv. apply Qmult_le_0_compat; [exact Hsize |].
    apply Qlt_le_weak, Qinv_lt_0_compat, Hlv.
  - intros s c i Hs. exact Hs.
  - intros s c Hs. exact Hs.
  - split; [reflexivity | exact Hsolv].
  - rewrite Ef in Ef'. cbn [app] in Ef'. injection Ef' as <- <-.
    split; [exact Hs |].
    intro Hpos. rewrite bars_of_combine_Q in Hp.
    apply Forall_forall. intros e He.
    rewrite Forall_forall in Hall. destruct (Hall e He) as (q & [_ [Hq1 Hq2]] & ->).
    assert (Hprice : 0 < e_price e).
    { assert (Hi : In (e_price e) (map close (firstn n (sim_data st)))).
      { rewrite <- Hp. apply in_map. exact He. }
      apply in_map_iff in Hi. destruct Hi as (b & <- & Hb).
      rewrite Forall_forall in Hpos. apply Hpos.
      apply (In_firstn_of b n). exact Hb. }
    assert (0 <= positions (portfolio q) * e_price e)
      by (apply Qmult_le_0_compat; lra).
    lra.
Qed.

Lemma simulation_stays_solvent_witness :
  let now := fun _ : nat => 0%Z in
  let geom := fun (_ _ : Q) (_ : Z) => Ok (@nil Q) in
  let st := init_system "simulation" MetricsSpec.two_bars in
  let params := mkParams (1 # 1000) 5 "linear" 100 in
  exists r st',
    run_simulation now geom st params 24 = Ok (r, st')
    /\ Ledger.solvent (portfolio st')
    /\ (Forall (fun b => 0 < close b) (sim_data st) ->
        Forall (fun e => 0 <= e_value e) (r_equity_curve r)).
Proof.
  intros now geom st params.
  apply (simulation_stays_solvent now geom st params 24
           (mkBar 0 100 100 100 100 1) [mkBar 1 102 102 102 102 1]).
  - reflexivity.
  - qdecide.
  - qdecide.
  - qdecide.
  - qdecide.
  - left. split; [reflexivity | qdecide].
  - split; qdecide.
Defined.

End SimulationCurveSpec.

(** ** What a fill does to the portfolio value; the live path *)

Module FillValueSpec.
Import GridTradingSystem Ledger.

(** Property X15.
    After [execute_trade] the stored [total_value] is the portfolio marked
    at the order price.  A fill that is applied costs exactly the fee: the
    value is the value before, marked at the order price, minus the fee.  A
    fill that fails the solvency test leaves that value as it was. *)
Theorem fill_costs_exactly_the_fee :
  forall now st o,
  let r := execute_trade now st o in
  let p := portfolio st in
  let p' := portfolio (snd r) in
  total_value p' = cash p' + positions p' * price o
  /\ ((is_buy o = true /\ cost o <= cash p)
      \/ (is_buy o = false /\ amount o <= positions p) ->
      total_value p' == cash p + positions p * price o - fee (fst r))
  /\ (OrderLogSpec.insolvent p (price o) (amount o) (side o) ->
      total_value p' == cash p + positions p * price o).
Proof.
  intros now st o r p p'.
  assert (Hv : total_value p' = cash p' + positions p' * price o) by reflexivity.
  split; [exact Hv |]. split.
  - intros [[Hb Hc] | [Hb Hc]]; rewrite Hv; subst p' r.
    + destruct (execute_trade_buy_filled now st o Hb Hc) as [E1 E2].
      cbv zeta in E1, E2. rewrite E1, E2.
      change (fee (fst (execute_trade now st o)))
        with (price o * amount o * sim_fee_rate).
      unfold cost. fold p. ring.
    + destruct (execute_trade_sell_filled now st o Hb Hc) as [E1 E2].
      cbv zeta in E1, E2. rewrite E1, E2.
      change (fee (fst (execute_trade now st o)))
        with (price o * amount o * sim_fee_rate).
      unfold revenue. fold p. ring.
  - intro Hins. rewrite Hv. subst p' r.
    destruct (OrderLogSpec.insolvent_unchanged now st o Hins) as [E1 E2].
    cbv zeta in E1, E2. rewrite E1, E2. reflexivity.
Qed.

Lemma fill_costs_exactly_the_fee_witness :
  let now := fun _ : nat => 0%Z in
  let st := init_system "simulation" [] in
  let buy := mkOrder 1 0 100 1 "buy" "limit" "filled" None in
  let big := mkOrder 2 0 100 1000 "buy" "limit" "filled" None in
  (is_buy buy = true /\ cost buy <= cash (portfolio st)
   /\ total_value (portfolio (snd (execute_trade now st buy)))
      == cash (portfolio st) + positions (portfolio st) * price buy
         - fee (fst (execute_trade now st buy)))
  /\ (OrderLogSpec.insolvent (portfolio st) (price big) (amount big) (side big)
   /\ total_value (portfolio (snd (execute_trade now st big)))
      == cash (portfolio st) + positions (portfolio st) * price big).
Proof.
  intros now st buy big.
  assert (B1 : is_buy buy = true) by reflexivity.
  assert (B2 : cost buy <= cash (portfolio st)) by qdecide.
  assert (I : OrderLogSpec.insolvent (portfolio st) (price big) (amount big) (side big)).
  { left. split; [reflexivity | qdecide]. }
  split.
  - exact (conj B1 (conj B2
      (proj1 (proj2 (fill_costs_exactly_the_fee now st buy))
             (or_introl (conj B1 B2))))).
  - exact (conj I (proj2 (proj2 (fill_costs_exactly_the_fee now st big)) I)).
Defined.

(** Property X16.
    Outside simulation mode no order is ever filled: [place_order] logs the
    order and leaves portfolio and trade log alone.  In live mode without an
    exchange, or with an order type other than ['limit'], nothing is sent
    and the order stays ['open']; a limit order is sent, gets the
    exchange's id when the call returns and status ['rejected'] when it
    raises. *)
Theorem live_orders_never_touch_the_portfolio :
  forall now st pr am sd ot,
  mode st <> "simulation"%string ->
  let r := place_order now st pr am sd ot in
  orders (snd r) = orders st ++ [fst r]
  /\ portfolio (snd r) = portfolio st
  /\ trades (snd r) = trades st
  /\ (mode st <> "live"%string \/ exchange st = None \/ ot <> "limit"%string ->
      status (fst r) = "open"%string /\ exchange_id (fst r) = None)
  /\ (forall ex,
        mode st = "live"%string -> exchange st = Some ex -> ot = "limit"%string ->
        match ex sd am pr with
        | Some eid => status (fst r) = "open"%string
                      /\ exchange_id (fst r) = Some eid
        | None => status (fst r) = "rejected"%string
                  /\ exchange_id (fst r) = None
        end).
Proof.
  intros now st pr am sd ot Hm r. subst r.
  split; [apply PlaceOrder.place_order_appends_order |].
  destruct (SimulationRun.place_order_no_fill now st pr am sd ot Hm) as [Hp Ht].
  split; [exact Hp |]. split; [exact Ht |].
  unfold place_order. cbn [mode tick exchange orders].
  destruct (String.eqb_spec (mode st) "simulation") as [E | _]; [contradiction |].
  split.
  - intros [H | [H | H]].
    + destruct (String.eqb_spec (mode st) "live") as [E | _]; [contradiction |].
      split; reflexivity.
    + rewrite H. destruct (String.eqb (mode st) "live"); split; reflexivity.
    + destruct (String.eqb (mode st) "live"); [| split; reflexivity].
      destruct (exchange st); [| split; reflexivity].
      destruct (String.eqb_spec ot "limit") as [E | _]; [contradiction |].
      split; reflexivity.
  - intros ex Hl He ->. rewrite Hl, He. cbn [String.eqb Ascii.eqb Bool.eqb andb].
    destruct (ex sd am pr); split; reflexivity.
Qed.

Lemma live_orders_never_touch_the_portfolio_witness :
  let now := fun _ : nat => 0%Z in
  let down : Exchange := fun _ _ _ => None in
  let st := mkSystem "live" [] [] [] initial_portfolio (Some down) [] 0 0 0 in
  let r := place_order now st 100 1 "buy" "limit" in
  mode st <> "simulation"%string
  /\ portfolio (snd r) = portfolio st
  /\ trades (snd r) = trades st
  /\ status (fst r) = "rejected"%string.
Proof.
  intros now down st r.
  assert (M : mode st <> "simulation"%string) by discriminate.
  destruct (live_orders_never_touch_the_portfolio now st 100 1
              "buy"%string "limit"%string M) as (_ & Hp & Ht & _ & Hex).
  split; [exact M |]. split; [exact Hp |]. split; [exact Ht |].
  exact (proj1 (Hex down eq_refl eq_refl eq_refl)).
Defined.

End FillValueSpec.

(** ** Ranges of the metrics *)

Module MetricRangeSpec.

Lemma filter_le {A : Type} (f : A -> bool) (l : list A) :
  (List.length (filter f l) <= List.length l)%nat.
Proof.
  induction l as [| x l IH]; cbn; [lia |]. destruct (f x); cbn; lia.
Qed.

Lemma share_is_a_percentage k n :
  (k <= n)%nat ->
  0 <= inject_Z (Z.of_nat k) / inject_Z (Z.of_nat n) * 100 <= 100.
Proof.
  intro Hk.
  pose proof (GridBounds.inject_nat_nonneg k) as Hk0.
  pose proof (GridBounds.inject_nat_le k n Hk) as Hkn.
  destruct n as [| n].
  - assert (k = 0%nat) as -> by lia. split; qdecide.
  - set (N := inject_Z (Z.of_nat (S n))) in *.
    assert (HN : 0 < N) by (apply GridFacts.inject_Z_pos; lia).
    assert (Hq0 : 0 <= inject_Z (Z.of_nat k) / N).
    { unfold Qdiv. apply Qmult_le_0_compat; [exact Hk0 |].
      apply Qlt_le_weak, Qinv_lt_0_compat, HN. }
    assert (Hq1 : inject_Z (Z.of_nat k) / N <= 1).
    { apply Qle_shift_div_r; [exact HN | lra]. }
    split; lra.
Qed.

Lemma no_losing_trade trades :
  Forall (fun t => Backtester.profit_neg t = false) trades ->
  filter Backtester.profit_neg trades = [].
Proof.
  induction 1 as [| t ts Ht _ IH]; [reflexivity |].
  cbn [filter]. rewrite Ht. exact IH.
Qed.

(** Property X8.
    Whenever [calculate_metrics] reports (two equity samples or more), the
    win rate lies between 0 and 100 and [total_trades] is the length of the
    trade list; with no trade, win rate and profit factor are 0; with
    trades carrying profits of which none is negative (buys only, for one)
    the profit factor is infinite, winners or not.  Fewer than two equity
    samples give the empty report. *)
Theorem backtest_metrics_ranges :
  forall equity_curve trades,
  ((List.length equity_curve < 2)%nat ->
     Backtester.calculate_metrics equity_curve trades = None)
  /\ ((2 <= List.length equity_curve)%nat ->
     exists m,
       Backtester.calculate_metrics equity_curve trades = Some m
       /\ 0 <= Backtester.win_rate_pct m <= 100
       /\ Backtester.total_trades m = List.length trades
       /\ (trades = [] ->
           Backtester.win_rate_pct m = 0 /\ Backtester.profit_factor m = Fin 0)
       /\ (existsb Backtester.has_profit trades = true ->
           Forall (fun t => Backtester.profit_neg t = false) trades ->
           Backtester.profit_factor m = Inf)).
Proof.
  intros curve trades. split.
  - intro H. unfold Backtester.calculate_metrics.
    assert (E : (List.length curve <? 2)%nat = true) by (apply Nat.ltb_lt; exact H).
    rewrite E. reflexivity.
  - intro H. unfold Backtester.calculate_metrics.
    assert (E : (List.length curve <? 2)%nat = false) by (apply Nat.ltb_ge; exact H).
    rewrite E. destruct trades as [| t trades].
    + eexists. split; [reflexivity |].
      cbn [Backtester.win_rate_pct Backtester.total_trades Backtester.profit_factor].
      split; [split; qdecide |]. split; [reflexivity |].
      split; [intros _; split; reflexivity | intro Hp; discriminate Hp].
    + destruct (existsb Backtester.has_profit (t :: trades)) eqn:Hp.
      * eexists. split; [reflexivity |].
        cbn [Backtester.win_rate_pct Backtester.total_trades
             Backtester.profit_factor].
        split; [apply share_is_a_percentage, filter_le |].
        split; [reflexivity |].
        split; [intro Hn; discriminate Hn |].
        intros _ Hall. rewrite (no_losing_trade _ Hall). reflexivity.
      * eexists. split; [reflexivity |].
        cbn [Backtester.win_rate_pct Backtester.total_trades
             Backtester.profit_factor].
        split; [split; qdecide |]. split; [reflexivity |].
        split; [intro Hn; discriminate Hn | intro Hn; discriminate Hn].
Qed.

Lemma backtest_metrics_ranges_witness :
  let curve := [mkEquitySample 0 10000 100; mkEquitySample 1 9990 100] in
  let buys := [Backtester.mkTrade 0 "buy" 100 1 (1 # 10) (Some 0);
               Backtester.mkTrade 1 "buy" 100 1 (1 # 10) (Some 0)] in
  ((List.length [mkEquitySample 0 10000 100] < 2)%nat
   /\ Backtester.calculate_metrics [mkEquitySample 0 10000 100] buys = None)
  /\ ((2 <= List.length curve)%nat
      /\ existsb Backtester.has_profit buys = true
      /\ Forall (fun t => Backtester.profit_neg t = false) buys
      /\ exists m,
           Backtester.calculate_metrics curve buys = Some m
           /\ 0 <= Backtester.win_rate_pct m <= 100
           /\ Backtester.profit_factor m = Inf).
Proof.
  intros curve buys.
  assert (S1 : (List.length [mkEquitySample 0 10000 100] < 2)%nat) by (cbn; lia).
  assert (S2 : (2 <= List.length curve)%nat) by (cbn; lia).
  assert (P : existsb Backtester.has_profit buys = true) by reflexivity.
  assert (N : Forall (fun t => Backtester.profit_neg t = false) buys)
    by (repeat constructor).
  split.
  - exact (conj S1 (proj1 (backtest_metrics_ranges [mkEquitySample 0 10000 100] buys) S1)).
  - destruct (proj2 (backtest_metrics_ranges curve buys) S2)
      as (m & Em & Hw & _ & _ & Hinf).
    exact (conj S2 (conj P (conj N
             (ex_intro _ m (conj Em (conj Hw (Hinf P N))))))).
Defined.

(** The running maximum dominates the values, so each drawdown lies in
    (-1, 0] when the values are positive. *)
Lemma drawdown_range values : forall peak,
  0 < peak -> Forall (fun v => 0 < v) values ->
  Forall (fun d => - (1) < d /\ d <= 0)
         (EquityCurve.drawdown values (EquityCurve.expanding_max_from peak values)).
Proof.
  induction values as [| v values IH]; intros peak Hp Hall; [constructor |].
  inversion Hall as [| ? ? Hv Hrest]; subst.
  cbn [EquityCurve.expanding_max_from EquityCurve.drawdown].
  set (peak' := if Num.gtb v peak then v else peak).
  assert (Hpk : 0 < peak' /\ v <= peak').
  { unfold peak'. num_cases; split; lra. }
  destruct Hpk as [Hpos Hge].
  constructor; [| apply IH; assumption].
  split.
  - apply Qlt_shift_div_l; [exact Hpos | lra].
  - apply Qle_shift_div_r; [exact Hpos | lra].
Qed.

Lemma fold_min_spec l : forall x,
  fold_left Num.min l x <= x
  /\ (fold_left Num.min l x = x \/ In (fold_left Num.min l x) l).
Proof.
  induction l as [| y l IH]; intro x;
    [split; [apply Qle_refl | left; reflexivity] |].
  cbn [fold_left]. destruct (IH (Num.min x y)) as [Hle Hin].
  pose proof (NumFacts.min_le_l x y) as Hm.
  split; [lra |].
  destruct Hin as [E | Hin]; [| right; right; exact Hin].
  rewrite E. unfold Num.min. destruct (Num.ltb y x).
  - right. left. reflexivity.
  - left. reflexivity.
Qed.

(** Property X9.
    The maximum drawdown of an equity curve with positive values is a loss
    percentage: at most 0 and above -100.  An empty curve has none. *)
Theorem max_drawdown_is_a_loss_percentage :
  forall values,
  (values = [] -> EquityCurve.calculate_max_drawdown values = None)
  /\ (values <> [] -> Forall (fun v => 0 < v) values ->
      exists d,
        EquityCurve.calculate_max_drawdown values = Some d
        /\ - (100) < d /\ d <= 0).
Proof.
  intro values. split; [intros ->; reflexivity |].
  intros Hne Hall. destruct values as [| v values]; [congruence |].
  inversion Hall as [| ? ? Hv Hrest]; subst.
  unfold EquityCurve.calculate_max_drawdown.
  cbn [EquityCurve.expanding_max EquityCurve.drawdown EquityCurve.series_min
       option_map].
  eexists. split; [reflexivity |].
  set (d0 := (v - v) / v).
  assert (H0 : d0 == 0) by (unfold d0; field; lra).
  pose proof (drawdown_range values v Hv Hrest) as Hdd.
  destruct (fold_min_spec
              (EquityCurve.drawdown values (EquityCurve.expanding_max_from v values))
              d0) as [Hle Hin].
  set (m := fold_left Num.min _ d0) in *.
  assert (Hlow : - (1) < m).
  { destruct Hin as [E | Hin]; [rewrite E; lra |].
    rewrite Forall_forall in Hdd. apply (Hdd m Hin). }
  split; lra.
Qed.

(** The curve 10000, 10500, 9800, 11000: a maximum drawdown of
    (9800 - 10500) / 10500 x 100 = -20/3 percent. *)
Lemma max_drawdown_is_a_loss_percentage_witness :
  let values := [10000; 10500; 9800; 11000] in
  values <> [] /\ Forall (fun v => 0 < v) values
  /\ exists d,
       EquityCurve.calculate_max_drawdown values = Some d
       /\ - (100) < d /\ d <= 0 /\ d == - (20 # 3).
Proof.
  intro values.
  assert (N : values <> []) by discriminate.
  assert (P : Forall (fun v => 0 < v) values) by (repeat constructor).
  destruct (proj2 (max_drawdown_is_a_loss_percentage values) N P)
    as (d & Ed & H1 & H2).
  split; [exact N |]. split; [exact P |].
  exists d. split; [exact Ed |]. split; [exact H1 |]. split; [exact H2 |].
  vm_compute in Ed. injection Ed as <-. reflexivity.
Defined.

End MetricRangeSpec.

(** ** The shape of the synthetic bars *)

Module MarketDataShapeSpec.
Import MarketData.

(** A bar whose four prices are positive and in the order low < open <
    close < high. *)
Definition well_ordered (b : Bar) : Prop :=
  0 < low b /\ low b < open b /\ open b < close b /\ close b < high b.

Lemma mean_revert_positive rest : forall prev,
  0 < prev -> Forall (fun p => 0 < p) rest ->
  Forall (fun p => 0 < p) (mean_revert prev rest).
Proof.
  induction rest as [| p rest IH]; intros prev Hprev Hall; [constructor |].
  inversion Hall as [| ? ? Hp Hrest]; subst. cbn [mean_revert].
  set (p' := if Num.gtb p (base_price * (11 # 10)) then prev * (999 # 1000)
             else if Num.ltb p (base_price * (9 # 10)) then prev * (1001 # 1000)
             else p).
  assert (Hp' : 0 < p').
  { unfold p'. destruct (Num.gtb p _); [lra |]. destruct (Num.ltb p _); lra. }
  constructor; [exact Hp' | apply IH; assumption].
Qed.

Lemma mean_reversion_positive prices :
  Forall (fun p => 0 < p) prices -> Forall (fun p => 0 < p) (mean_reversion prices).
Proof.
  intro H. destruct prices as [| p0 rest]; [constructor |].
  inversion H as [| ? ? Hp Hrest]; subst. cbn [mean_reversion].
  constructor; [exact Hp | apply mean_revert_positive; assumption].
Qed.

Lemma frame_well_ordered dates : forall prices volume,
  Forall (fun p => 0 < p) prices ->
  Forall well_ordered (frame dates prices volume).
Proof.
  induction dates as [| d dates IH]; intros [| p prices] [| v volume] H;
    cbn [frame]; try constructor.
  - inversion H as [| ? ? Hp _]; subst.
    unfold well_ordered. cbn [low open close high]. repeat split; lra.
  - inversion H; subst. apply IH. assumption.
Qed.

Lemma frame_timestamps dates : forall prices volume,
  map timestamp (frame dates prices volume)
  = firstn (List.length (frame dates prices volume)) dates.
Proof.
  induction dates as [| d dates IH]; intros [| p prices] [| v volume];
    cbn [frame map List.length firstn]; try reflexivity.
  rewrite IH. reflexivity.
Qed.

Lemma frame_length dates : forall prices volume,
  (List.length (frame dates prices volume) <= List.length dates)%nat.
Proof.
  induction dates as [| d dates IH]; intros [| p prices] [| v volume];
    cbn [frame List.length]; try lia.
  specialize (IH prices volume). lia.
Qed.

Lemma nth_firstn_Z (l : list Z) k i d :
  (i < k)%nat -> nth i (firstn k l) d = nth i l d.
Proof.
  revert k i. induction l as [| x l IH]; intros [| k] [| i] H; cbn;
    try reflexivity; try lia.
  apply IH. lia.
Qed.

Lemma nth_date_range clock n i d :
  (i < n)%nat ->
  nth i (date_range clock n) d = (clock - Z.of_nat (n - 1 - i) * minute)%Z.
Proof.
  intro Hi. unfold date_range.
  exact (GridFacts.nth_map_seq
           (fun j => (clock - Z.of_nat (n - 1 - j) * minute)%Z) d n i Hi).
Qed.



End MarketDataShapeSpec.

(** ** The parameter search *)

Module OptimizerSpec.
Import Optimizer.

Lemma in_product {A : Type} (values : list (list A)) : forall c,
  In c (product values) <-> Forall2 (fun x l => In x l) c values.
Proof.
  induction values as [| l rest IH]; intro c; cbn [product].
  - split.
    + intros [<- | []]. constructor.
    + intro H. inversion H. left. reflexivity.
  - rewrite in_flat_map. split.
    + intros (x & Hx & Hc). apply in_map_iff in Hc. destruct Hc as (c' & <- & Hc').
      constructor; [exact Hx | apply IH; exact Hc'].
    + intro H. inversion H as [| x l' c' rest' Hx Hc']; subst.
      exists x. split; [exact Hx |]. apply in_map. apply IH. exact Hc'.
Qed.

Lemma length_product {A : Type} (values : list (list A)) :
  List.length (product values)
  = fold_right Nat.mul 1%nat (map (@List.length A) values).
Proof.
  induction values as [| l rest IH]; [reflexivity |].
  cbn [product map fold_right]. rewrite <- IH.
  induction l as [| x l IHl]; [reflexivity |].
  cbn [flat_map]. rewrite length_app, length_map, IHl. cbn [List.length]. lia.
Qed.

Lemma combine_fst_snd {A B : Type} (d : list (A * B)) :
  combine (map fst d) (map snd d) = d.
Proof.
  induction d as [| [k v] d IH]; [reflexivity |]. cbn. rewrite IH. reflexivity.
Qed.

Lemma split_of_combine {A B : Type} (ks : list A) : forall (c : list B),
  List.length c = List.length ks ->
  map fst (combine ks c) = ks /\ map snd (combine ks c) = c.
Proof.
  induction ks as [| k ks IH]; intros [| v c] H; cbn in *; try discriminate;
    [split; reflexivity |].
  destruct (IH c ltac:(lia)) as [-> ->]. split; reflexivity.
Qed.

Lemma Forall2_values {A B : Type} (c : list B) (grid : list (A * list B)) :
  Forall2 (fun x l => In x l) c (map snd grid)
  <-> Forall2 (fun v kvs => In v (snd kvs)) c grid.
Proof.
  revert c. induction grid as [| kv grid IH]; intro c; cbn [map].
  - split; intro H; inversion H; constructor.
  - split; intro H; inversion H; subst; constructor; try assumption; apply IH;
      assumption.
Qed.

(** Property X18.
    [param_generator] yields one dict per combination: as many as the
    product of the numbers of values; exactly the dicts that have the
    grid's keys, in the grid's order, each with one of its key's values.
    A key without values leaves no combination; an empty grid yields one
    empty dict. *)
Theorem param_generator_enumerates_the_grid :
  forall grid : list (string * list pyval),
  List.length (param_generator grid)
  = fold_right Nat.mul 1%nat (map (fun kv => List.length (snd kv)) grid)
  /\ (forall d,
        In d (param_generator grid)
        <-> map fst d = map fst grid
            /\ Forall2 (fun v kvs => In v (snd kvs)) (map snd d) grid)
  /\ (forall k, In (k, []) grid -> param_generator grid = [])
  /\ (grid = [] -> param_generator grid = [[]]).
Proof.
  intro grid.
  assert (Hlen : List.length (param_generator grid)
                 = fold_right Nat.mul 1%nat
                     (map (fun kv => List.length (snd kv)) grid)).
  { unfold param_generator. rewrite length_map, length_product, map_map.
    reflexivity. }
  split; [exact Hlen |]. split; [| split].
  - intro d. unfold param_generator. rewrite in_map_iff. split.
    + intros (c & <- & Hc). apply in_product in Hc.
      assert (Hl : List.length c = List.length (map fst grid)).
      { rewrite (Forall2_length Hc), !length_map. reflexivity. }
      destruct (split_of_combine (map fst grid) c Hl) as [E1 E2].
      rewrite E1, E2. split; [reflexivity |]. apply Forall2_values. exact Hc.
    + intros [Hk Hv]. exists (map snd d). split.
      * rewrite <- Hk. apply combine_fst_snd.
      * apply in_product, Forall2_values. exact Hv.
  - intros k Hk.
    assert (Hz : fold_right Nat.mul 1%nat
                   (map (fun kv => List.length (snd kv)) grid) = 0%nat).
    { clear Hlen. induction grid as [| kv grid IH]; [contradiction |].
      cbn [map fold_right]. destruct Hk as [-> | Hk]; [reflexivity |].
      rewrite (IH Hk). lia. }
    rewrite Hz in Hlen. destruct (param_generator grid); [reflexivity | discriminate].
  - intros ->. reflexivity.
Qed.

Lemma param_generator_enumerates_the_grid_witness :
  let grid := [("grid_range_pct"%string, [PFloat (1 # 10); PFloat (2 # 10)]);
               ("num_grids"%string, [])] in
  In ("num_grids"%string, []) grid /\ param_generator grid = [].
Proof.
  intro grid.
  assert (H : In ("num_grids"%string, @nil pyval) grid) by (right; left; reflexivity).
  exact (conj H
    (proj1 (proj2 (proj2 (param_generator_enumerates_the_grid grid)))
           "num_grids"%string H)).
Defined.

Section Search.

Variable sharpe_ratio : list EquitySample -> Q.
Variables (capital : Q) (data : list Bar).

(** What the loop has established after the combinations [seen]. *)
Definition search_inv (seen : list dict) (st : search_state) : Prop :=
  let '(best_params, best_metric, results) := st in
  map fst results = seen
  /\ Forall (fun e => exists r, backtest capital data (fst e) = Done r
                                /\ snd e = Backtester.r_metrics r) results
  /\ match best_params, best_metric with
     | None, None => seen = []
     | Some b, Some m =>
       In b seen
       /\ exists rb, backtest capital data b = Done rb
                     /\ metric_of sharpe_ratio rb = m
                     /\ forall c rc, In c seen -> backtest capital data c = Done rc ->
                          metric_of sharpe_ratio rc <= m
     | _, _ => False
     end.

Lemma search_fails cs f :
  fold_left (search_step sharpe_ratio capital data) cs (Fail f) = Fail f.
Proof. induction cs as [| c cs IH]; [reflexivity | exact IH]. Qed.

Lemma search_fold cs : forall seen st st',
  search_inv seen st ->
  fold_left (search_step sharpe_ratio capital data) cs (Done st) = Done st' ->
  search_inv (seen ++ cs) st'.
Proof.
  induction cs as [| c cs IH]; intros seen st st' Hinv Hfold.
  - cbn in Hfold. injection Hfold as <-. rewrite app_nil_r. exact Hinv.
  - cbn [fold_left] in Hfold.
    destruct st as [[bp bm] results]. cbn [search_step] in Hfold.
    destruct (backtest capital data c) as [res | f] eqn:Ec;
      [| rewrite search_fails in Hfold; discriminate Hfold].
    replace (seen ++ c :: cs) with ((seen ++ [c]) ++ cs)
      by (rewrite <- app_assoc; reflexivity).
    destruct Hinv as (Hseen & Hres & Hbest).
    assert (Hres' : Forall (fun e => exists r, backtest capital data (fst e) = Done r
                                      /\ snd e = Backtester.r_metrics r)
                           (results ++ [(c, Backtester.r_metrics res)])).
    { apply Forall_app. split; [exact Hres |].
      constructor; [| constructor]. exists res. split; [exact Ec | reflexivity]. }
    assert (Hseen' : map fst (results ++ [(c, Backtester.r_metrics res)])
                     = seen ++ [c]).
    { rewrite map_app, Hseen. reflexivity. }
    destruct bp as [b |], bm as [m |]; try contradiction.
    + destruct Hbest as (Hb & rb & Eb & Em & Hmax).
      destruct (Num.gtb (metric_of sharpe_ratio res) m) eqn:Hgt.
      * apply NumFacts.gtb_true in Hgt.
        refine (IH _ _ _ _ Hfold). unfold search_inv.
        split; [exact Hseen' |]. split; [exact Hres' |].
        split; [apply in_or_app; right; left; reflexivity |].
        exists res. split; [exact Ec |]. split; [reflexivity |].
        intros c' rc Hin Erc. apply in_app_or in Hin. destruct Hin as [Hin | [<- | []]].
        -- pose proof (Hmax c' rc Hin Erc). lra.
        -- rewrite Ec in Erc. injection Erc as <-. apply Qle_refl.
      * apply NumFacts.gtb_false in Hgt.
        refine (IH _ _ _ _ Hfold). unfold search_inv.
        split; [exact Hseen' |]. split; [exact Hres' |].
        split; [apply in_or_app; left; exact Hb |].
        exists rb. split; [exact Eb |]. split; [exact Em |].
        intros c' rc Hin Erc. apply in_app_or in Hin. destruct Hin as [Hin | [<- | []]].
        -- exact (Hmax c' rc Hin Erc).
        -- rewrite Ec in Erc. injection Erc as <-. exact Hgt.
    + refine (IH _ _ _ _ Hfold). unfold search_inv.
      split; [exact Hseen' |]. split; [exact Hres' |].
      rewrite Hbest. cbn [app].
      split; [left; reflexivity |].
      exists res. split; [exact Ec |]. split; [reflexivity |].
      intros c' rc [<- | []] Erc.
      rewrite Ec in Erc. injection Erc as <-. apply Qle_refl.
Qed.

End Search.



End OptimizerSpec.

(** ** The trade records of a backtest; the geometric grid *)

Module TradeRecordSpec.
Import Backtester BacktestRun.

(** A trade record as the backtest loop writes it. *)
Definition recorded (fee : Q) (data : list Bar) (t : Trade) : Prop :=
  ((t_side t = "buy"%string /\ t_profit t = Some 0)
   \/ (t_side t = "sell"%string /\ exists p, t_profit t = Some p))
  /\ t_fee t = t_amount t * t_price t * fee
  /\ In (t_timestamp t) (map timestamp data).

Lemma bt_level_records fee size data b acc g :
  In b data ->
  Forall (recorded fee data) (snd acc) ->
  Forall (recorded fee data) (snd (bt_level fee size (timestamp b) (close b) acc g)).
Proof.
  intros Hb Hall. destruct acc as [p trades]. cbn [snd] in Hall.
  assert (Hts : In (timestamp b) (map timestamp data)) by (apply in_map; exact Hb).
  unfold bt_level.
  destruct (Num.ltb _ tolerance); [| exact Hall].
  destruct (Num.leb (close b) g).
  - destruct (Num.geb (cash p) _); [| exact Hall].
    cbn [snd]. apply Forall_app. split; [exact Hall |].
    constructor; [| constructor]. unfold recorded. cbn.
    split; [left; split; reflexivity |]. split; [reflexivity | exact Hts].
  - destruct (Num.gtb (positions p) 0); [| exact Hall].
    cbn [snd]. apply Forall_app. split; [exact Hall |].
    constructor; [| constructor]. unfold recorded.
    cbn [t_side t_profit t_fee t_amount t_price t_timestamp].
    split; [right; split; [reflexivity | eexists; reflexivity] |].
    split; [reflexivity | exact Hts].
Qed.

(** Property X7.
    Every trade of a backtest report is a buy with profit 0 or a sell with
    a profit, carries the fee [amount * price * fee_rate], and is stamped
    with the timestamp of one of the bars; so a report with trades always
    has the ['profit'] column. *)
Theorem backtest_trades_are_recorded_uniformly :
  forall capital data ps res,
  backtest_grid_strategy capital data ps = Ok res ->
  Forall (recorded (fee_of ps) data) (r_trades res)
  /\ (r_trades res <> [] -> existsb has_profit (r_trades res) = true).
Proof.
  intros capital data ps res Hres.
  assert (Hall : Forall (recorded (fee_of ps) data) (r_trades res)).
  { destruct (Z_lt_le_dec (grids_of ps) 0) as [Hneg | Hn].
    - destruct data as [| b data].
      + cbn in Hres. injection Hres as <-. constructor.
      + destruct (BacktestRunSpec.negative_grids_raise capital b data ps Hneg)
          as (msg & E).
        rewrite E in Hres. discriminate Hres.
    - destruct (bt_bars_run (range_of ps) (grids_of ps) (size_of ps) (fee_of ps)
                  (fun acc => Forall (recorded (fee_of ps) data) (snd acc))
                  data Hn)
        with (p := mkPortfolio capital 0 capital) (ts := @nil Trade)
             (curve := @nil EquitySample)
        as (p' & ts' & samples & Efold & Hinv & _).
      + intros b levels g acc Hb _ _ Hacc. apply bt_level_records; assumption.
      + constructor.
      + unfold backtest_grid_strategy in Hres.
        change (get (p_grid_range_pct ps) (1 # 10)) with (range_of ps) in Hres.
        change (get (p_num_grids ps) 20%Z) with (grids_of ps) in Hres.
        change (get (p_order_size ps) 100) with (size_of ps) in Hres.
        change (get (p_fee_rate ps) (1 # 1000)) with (fee_of ps) in Hres.
        rewrite Efold in Hres. injection Hres as <-. exact Hinv. }
  split; [exact Hall |].
  intro Hne. destruct (r_trades res) as [| t ts]; [congruence |].
  inversion Hall as [| ? ? Ht _]; subst.
  destruct Ht as ([[_ Hp] | [_ [p Hp]]] & _);
    cbn [existsb]; unfold has_profit at 1; rewrite Hp; reflexivity.
Qed.

Lemma backtest_trades_are_recorded_uniformly_witness :
  exists res,
    backtest_grid_strategy 10000 MetricsSpec.two_bars MetricsSpec.narrow_grid
    = Ok res
    /\ Forall (recorded (fee_of MetricsSpec.narrow_grid) MetricsSpec.two_bars)
              (r_trades res)
    /\ List.length (r_trades res) = 7%nat.
Proof.
  destruct (backtest_grid_strategy 10000 MetricsSpec.two_bars MetricsSpec.narrow_grid)
    as [res | e] eqn:E.
  - exists res. split; [reflexivity |].
    split; [exact (proj1 (backtest_trades_are_recorded_uniformly 10000
                            MetricsSpec.two_bars MetricsSpec.narrow_grid res E)) |].
    vm_compute in E. injection E as <-. reflexivity.
  - exfalso. vm_compute in E. discriminate E.
Defined.

End TradeRecordSpec.

Module GeomGridSpec.
Import GeomSpace.

Local Open Scope R_scope.

(** Property X3.
    [np.geomspace] on positive endpoints, [num >= 2]: [num] samples, the
    first one [start], the last one [stop], and each sample the previous one
    times the constant ratio [10 ^ ((log10 stop - log10 start) / (num - 1))].
    A zero endpoint raises [ValueError]. *)
Theorem geometric_grid_has_constant_ratio :
  forall start stop num,
  ((start = 0 \/ stop = 0) ->
     exists msg, geomspace start stop num = Raise (ValueError msg))
  /\ (0 < start -> 0 < stop -> (2 <= num)%Z ->
      exists g,
        geomspace start stop num = Ok g
        /\ List.length g = Z.to_nat num
        /\ nth 0 g 0 = start
        /\ last g 0 = stop
        /\ forall i, (S i < List.length g)%nat ->
             nth (S i) g 0
             = nth i g 0 * Rpower 10 ((log10 stop - log10 start) / IZR (num - 1))).
Proof.
  intros start stop num. split.
  - intros [-> | ->]; unfold geomspace.
    + destruct (Req_dec_T 0 0) as [_ | N]; [| congruence]. eexists. reflexivity.
    + destruct (Req_dec_T start 0); [eexists; reflexivity |].
      destruct (Req_dec_T 0 0) as [_ | N]; [| congruence]. eexists. reflexivity.
  - intros Hs Ht Hn.
    destruct (GeomFacts.geomspace_samples start stop num Hs Ht Hn)
      as (g & Eg & Hlen & Hnth).
    assert (Hd : IZR (num - 1) <> 0) by (apply not_0_IZR; lia).
    exists g. split; [exact Eg |]. split; [exact Hlen |].
    split; [| split].
    + rewrite (Hnth 0%nat) by lia. cbn [Z.of_nat].
      replace (log10 start + 0 * ((log10 stop - log10 start) / IZR (num - 1)))
        with (log10 start) by ring.
      apply GeomFacts.power_log10, Hs.
    + rewrite GridBounds.last_as_nth, Hlen, Hnth by lia.
      replace (Z.of_nat (Z.to_nat num - 1)) with (num - 1)%Z by lia.
      replace (log10 start + IZR (num - 1)
                 * ((log10 stop - log10 start) / IZR (num - 1)))
        with (log10 stop) by (field; exact Hd).
      apply GeomFacts.power_log10, Ht.
    + intros i Hi. rewrite Hlen in Hi.
      rewrite (Hnth i) by lia. rewrite (Hnth (S i)) by lia.
      rewrite <- Rpower_plus. f_equal.
      rewrite Nat2Z.inj_succ, succ_IZR. ring.
Qed.

Lemma geometric_grid_has_constant_ratio_witness :
  (0 < 90) /\ (0 < 110) /\ (2 <= 5)%Z
  /\ exists g,
       geomspace 90 110 5 = Ok g
       /\ List.length g = 5%nat
       /\ nth 0 g 0 = 90
       /\ last g 0 = 110.
Proof.
  assert (H1 : 0 < 90) by lra.
  assert (H2 : 0 < 110) by lra.
  assert (H3 : (2 <= 5)%Z) by lia.
  destruct (proj2 (geometric_grid_has_constant_ratio 90 110 5) H1 H2 H3)
    as (g & Eg & Hl & Hf & Hlast & _).
  exact (conj H1 (conj H2 (conj H3
           (ex_intro _ g (conj Eg (conj Hl (conj Hf Hlast))))))).
Defined.

End GeomGridSpec.
